(** * ANTA: test catalog and runner

    A shallow embedding of [anta/catalog.py] (input binding, catalog file
    validation, catalog loading, tag filtering, the [tests] setter) and of
    [anta/runner.py] (the [main] coroutine), with the properties the
    specification states about them.

    After these come further properties of the same code, and the bodies of
    test functions of [anta/tests] (the units the runner schedules), over
    the decoded output of a command, with what they report.

    Python exceptions are values of [Exc]; a function that may raise returns
    [result Exc A].  Python dictionaries whose iteration order decides which
    error is raised first are association lists in insertion order; the
    module table and the namespace of a module, where only lookup matters,
    are [gmap]s. *)

From Stdlib Require Import ZArith Lia Ascii String.
From stdpp Require Import base option list strings gmap.

Set Warnings "-register-all".

Local Open Scope string_scope.

(** ** Results of computations that may raise *)

Inductive result (E A : Type) : Type :=
| Ok (a : A)
| Err (e : E).
Arguments Ok {E A} a.
Arguments Err {E A} e.

#[global] Instance result_bind {E} : MBind (result E) :=
  fun A B (k : A -> result E B) (m : result E A) =>
    match m with
    | Ok a => k a
    | Err e => Err e
    end.

#[global] Instance result_ret {E} : MRet (result E) := fun A (a : A) => Ok a.

Definition is_ok {E A} (m : result E A) : bool :=
  match m with Ok _ => true | Err _ => false end.

(** ** Python values *)

Module Py.

(** The data a YAML document or an in-memory raw catalog is made of. A [VDict]
    keeps its items in insertion order, as Python's [dict] does. *)
Inductive PyVal : Type :=
| VNone
| VBool (b : bool)
| VInt (n : Z)
| VStr (s : string)
| VList (l : list PyVal)
| VDict (d : list (string * PyVal)).

(** [type(v).__name__] *)
Definition type_name (v : PyVal) : string :=
  match v with
  | VNone => "NoneType"
  | VBool _ => "bool"
  | VInt _ => "int"
  | VStr _ => "str"
  | VList _ => "list"
  | VDict _ => "dict"
  end.

(** [d.get(k)] on an insertion-ordered dictionary. *)
Fixpoint dict_get {V} (k : string) (d : list (string * V)) : option V :=
  match d with
  | [] => None
  | (k', v) :: rest => if String.eqb k k' then Some v else dict_get k rest
  end.

(** [s.startswith(".")] *)
Definition startswith_dot (s : string) : bool :=
  match s with
  | String c _ => Ascii.eqb c "."%char
  | EmptyString => false
  end.

End Py.
Export Py.

(** ** Exceptions *)

Module Exceptions.

(** One constructor per message the source formats; the interpolated values
    are the constructor's arguments. *)
Inductive Msg : Type :=
| MsgNotAntaTestSubclass (test_class : string)
    (* "Could not validate inputs as no test class {test_class} is not a subclass of AntaTest" *)
| MsgInputsTypeNotValid (type_name : string)
    (* "Coud not instantiate inputs as type {type(data).__name__} is not valid" *)
| MsgInputTypeMismatch (got expected : string)
    (* "Test input has type {got} but expected type {expected}" *)
| MsgModuleNotImportable (module_str : string) (package : option string)
    (* "Module named {module_str} cannot be imported. ..." *)
| MsgNotAList (fragment : PyVal)
    (* "Syntax error when parsing: {tests}\nIt must be a list of ANTA tests. ..." *)
| MsgNotADict (fragment : PyVal)
    (* "Syntax error when parsing: {test_definition}\nIt must be a dictionary. ..." *)
| MsgNotSingleEntry (fragment : PyVal)
    (* "Syntax error when parsing: {test_definition}\nIt must be a dictionary with a single entry. ..." *)
| MsgTestNotDefined (test_name module_name : string) (module_file : option string)
    (* "{test_name} is not defined in Python module {module.__name__} (from {module.__file__})" *)
| MsgCatalogMustBeList
    (* "The catalog must contain a list of tests" *)
| MsgMustBeTestDefinition
    (* "A test in the catalog must be an AntaTestDefinition instance" *)
| MsgWrongCatalogData (filename : option string) (type_name : string)
    (* "Wrong input type for catalog data (from {filename}), must be a dict, got {type}" *)
| MsgRootModelInit
    (* pydantic: RootModel.__init__ accepts either a single positional argument or arbitrary keyword arguments *)
| MsgRelativeImportWithoutPackage (name : string)
    (* importlib: the 'package' argument is required to perform a relative import *)
| MsgBeyondTopLevel
    (* importlib: attempted relative import beyond top-level package *)
| MsgNoModuleNamed (name : string).
    (* importlib: No module named {name} *)

(** The exceptions that travel through the catalog code. A pydantic
    [ValidationError] carries the title of the model and one [LineError] per
    failed location; [PydanticCustomError] carries the [errors] context the
    source attaches to it. *)
Inductive Exc : Type :=
| ValueError (m : Msg)
| TypeError (m : Msg)
| ImportError (m : Msg)
| UnboundLocalError (variable : string)
| OSError (detail : string)
| YAMLError (detail : string)
| PydanticCustomError (err_type : string) (test_name : string) (errors : list LineError)
| ValidationError (title : string) (errors : list LineError)
with LineError : Type :=
| missing (loc : list string)
| extra_forbidden (loc : list string)
| invalid (loc : list string)
| raised (loc : list string) (e : Exc).

(** The exceptions pydantic turns into a line error when a validator raises
    them: [ValueError] and its subclasses, among them pydantic's own
    [PydanticCustomError] and [ValidationError]. Anything else leaves the
    validator as it is (the source notes: pydantic catches ValueError or
    AssertionError, no TypeError). *)
Definition is_ValueError (e : Exc) : bool :=
  match e with
  | ValueError _ | PydanticCustomError _ _ _ | ValidationError _ _ => true
  | _ => false
  end.

Definition is_ValidationError (e : Exc) : bool :=
  match e with
  | ValidationError _ _ => true
  | _ => false
  end.

(** [e.errors()] *)
Definition errors_of (e : Exc) : list LineError :=
  match e with
  | ValidationError _ errs => errs
  | _ => []
  end.

(** A line error of an inner validation, reported at [loc] of the outer
    one. *)
Definition relocate (loc : list string) (error : LineError) : LineError :=
  match error with
  | missing l => missing (loc ++ l)%list
  | extra_forbidden l => extra_forbidden (loc ++ l)%list
  | invalid l => invalid (loc ++ l)%list
  | raised l e => raised (loc ++ l)%list e
  end.

(** A validator of the model [title], at [loc], that raises. A
    [ValidationError] raised inside it is raised again under [title] with
    its own line errors; another [ValueError] becomes one line error. *)
Definition in_validator {A} (title : string) (loc : list string)
    (m : result Exc A) : result Exc A :=
  match m with
  | Ok a => Ok a
  | Err (ValidationError _ errors) => Err (ValidationError title (map (relocate loc) errors))
  | Err e => if is_ValueError e then Err (ValidationError title [raised loc e]) else Err e
  end.

End Exceptions.
Export Exceptions.

(** ** Test classes and their input models *)

Module Models.

(** Modelled from the spec: the [Filters] model of [anta.models] (the file is
    not part of the sources); an input "declares a tag set" through it. *)
Record Filters : Type := { tags : option (list string) }.

(** A field of an input model: its name, its default when it has one, and
    pydantic's validation of a supplied value ([None]: the value is refused). *)
Record Field : Type := {
  fname : string;
  fdefault : option PyVal;
  fvalidate : PyVal -> option PyVal
}.

Definition has_default (f : Field) : bool :=
  match fdefault f with Some _ => true | None => false end.

(** Name of the base input model every test's [Input] derives from. *)
Definition AntaTest_Input : string := "AntaTest.Input".

(** Modelled from the spec: an [Input] schema type of a test ([anta.models]
    is not part of the sources). A class is identified by its qualified name;
    [bases] are its proper ancestors below [AntaTest.Input]; [model_fields]
    are its fields other than [filters], which every input model inherits
    with default [None]. *)
Record InputClass : Type := {
  qualname : string;
  bases : list string;
  model_fields : list Field
}.

(** [cls.__mro__], as qualified names. *)
Definition mro (c : InputClass) : list string :=
  qualname c :: (bases c ++ [AntaTest_Input])%list.

(** An object that is an instance of some class: the [__mro__] of its type
    (head: the type itself), its [filters] attribute and its other fields. *)
Record InputInstance : Type := {
  inst_mro : list string;
  inst_filters : option Filters;
  inst_values : list (string * PyVal)
}.

(** [type(x).__qualname__] *)
Definition type_of (x : InputInstance) : string := hd "" (inst_mro x).

(** [isinstance(x, cls)]: the class is in the [__mro__] of the type of [x]. *)
Definition isinstance (x : InputInstance) (cls : string) : bool :=
  bool_decide (cls ∈ inst_mro x).

(** Modelled from the spec: a test variant, a concrete subclass of
    [AntaTest], with its [name] and its [Input] schema type. *)
Record AntaTest : Type := {
  name : string;
  Input : InputClass
}.

(** What [getattr(module, test_name)] may yield, and what a caller may pass as
    [test]: a test class or some other object. *)
Inductive PyObj : Type :=
| ObjTest (t : AntaTest)
| ObjOther (repr : string).

(** What a caller may pass as [inputs]: an object, or plain data. *)
Inductive InputsData : Type :=
| DInstance (i : InputInstance)
| DValue (v : PyVal).

(** *** Construction of an input model by pydantic *)

Definition as_str (v : PyVal) : option string :=
  match v with VStr s => Some s | _ => None end.

(** Validation of the value given for [filters]: [None], or a mapping with at
    most the key [tags], itself [None] or a list of strings. *)
Definition parse_filters (v : PyVal) : option (option Filters) :=
  match v with
  | VNone => Some None
  | VDict d =>
      if forallb (fun kv => String.eqb (fst kv) "tags") d then
        match dict_get "tags" d with
        | None | Some VNone => Some (Some {| tags := None |})
        | Some (VList l) =>
            match mapM as_str l with
            | Some strs => Some (Some {| tags := Some strs |})
            | None => None
            end
        | Some _ => None
        end
      else None
  | _ => None
  end.

Definition validate_filters (data : list (string * PyVal)) : LineError + option Filters :=
  match dict_get "filters" data with
  | None => inr None
  | Some v =>
      match parse_filters v with
      | Some f => inr f
      | None => inl (invalid ["filters"])
      end
  end.

(** One field: the supplied value validated, else the default, else the
    field is missing. A default is taken as it is. *)
Definition validate_field (data : list (string * PyVal)) (f : Field)
    : LineError + (string * PyVal) :=
  match dict_get (fname f) data with
  | Some v =>
      match fvalidate f v with
      | Some v' => inr (fname f, v')
      | None => inl (invalid [fname f])
      end
  | None =>
      match fdefault f with
      | Some d => inr (fname f, d)
      | None => inl (missing [fname f])
      end
  end.

(** The fields without a default, in order. *)
Definition required_fields (c : InputClass) : list Field :=
  List.filter (fun f => negb (has_default f)) (model_fields c).

Definition lefts {A B} (l : list (A + B)) : list A :=
  omap (fun x => match x with inl a => Some a | inr _ => None end) l.

Definition rights {A B} (l : list (A + B)) : list B :=
  omap (fun x => match x with inl _ => None | inr b => Some b end) l.

(** Keys of [data] that name no field (the input models forbid them). *)
Definition extra_keys (c : InputClass) (data : list (string * PyVal)) : list LineError :=
  omap (fun kv =>
          if bool_decide (fst kv ∈ "filters" :: map fname (model_fields c))
          then None else Some (extra_forbidden [fst kv])) data.

(** The constructor of the class called with the items of [data] as keyword
    arguments: every field is validated, the inherited [filters] before the
    fields of the class, then the keys that name no field are refused, and
    all failures are reported together in one [ValidationError]. *)
Definition Input_new (c : InputClass) (data : list (string * PyVal))
    : result Exc InputInstance :=
  let fields := map (validate_field data) (model_fields c) in
  let flt := validate_filters data in
  let errors :=
    (match flt with inl e => [e] | inr _ => [] end
     ++ lefts fields
     ++ extra_keys c data)%list in
  match errors, flt with
  | [], inr f =>
      Ok {| inst_mro := mro c; inst_filters := f; inst_values := rights fields |}
  | _, _ => Err (ValidationError (qualname c) errors)
  end.

End Models.
Export Models.

(** ** anta/catalog.py *)

Module Catalog.

(** *** class AntaTestDefinition *)

Record AntaTestDefinition : Type := {
  test : AntaTest;
  inputs : InputInstance
}.

(** [AntaTestDefinition.instantiate_inputs], the validator that runs before
    the field [inputs] is validated. [test_class] is [info.context["test"]],
    which [__init__] always sets to the [test] argument. *)
Definition instantiate_inputs (test_class : PyObj) (data : InputsData)
    : result Exc InputInstance :=
  match test_class with
  | ObjOther r => Err (ValueError (MsgNotAntaTestSubclass r))
  | ObjTest test_class =>
      match data with
      | DInstance i =>
          if isinstance i AntaTest_Input then Ok i
          else Err (ValueError (MsgInputsTypeNotValid (type_of i)))
      | DValue v =>
          let construct (kwargs : list (string * PyVal)) :=
            match Input_new (Input test_class) kwargs with
            | Ok i => Ok i
            | Err e =>
                if is_ValidationError e
                then Err (PydanticCustomError "wrong_test_inputs" (name test_class) (errors_of e))
                else Err e
            end in
          match v with
          | VNone => construct []
          | VDict d => construct d
          | _ => Err (ValueError (MsgInputsTypeNotValid (type_name v)))
          end
      end
  end.

(** [AntaTestDefinition.check_inputs], the validator that runs after the
    fields are validated. *)
Definition check_inputs (self : AntaTestDefinition) : result Exc AntaTestDefinition :=
  if negb (isinstance (inputs self) (qualname (Input (test self)))) then
    Err (ValueError (MsgInputTypeMismatch (type_of (inputs self))
                       (qualname (Input (test self)))))
  else Ok self.

(** [AntaTestDefinition(test=test, inputs=data)]: pydantic validates the
    field [test] (a subclass of [AntaTest]), then [inputs] (the before
    validator, then an instance of [AntaTest.Input]), reports the failures of
    both together, and runs the after validator when there is none. *)
Definition AntaTestDefinition_init (test : PyObj) (data : InputsData)
    : result Exc AntaTestDefinition :=
  let title := "AntaTestDefinition" in
  let test_errors :=
    match test with ObjTest _ => [] | ObjOther _ => [invalid ["test"]] end in
  match instantiate_inputs test data with
  | Err e =>
      if is_ValueError e
      then Err (ValidationError title (test_errors ++ [raised ["inputs"] e])%list)
      else Err e
  | Ok i =>
      let inputs_errors :=
        if isinstance i AntaTest_Input then [] else [invalid ["inputs"]] in
      match test, (test_errors ++ inputs_errors)%list with
      | ObjTest t, [] => in_validator title [] (check_inputs {| test := t; inputs := i |})
      | _, errors => Err (ValidationError title errors)
      end
  end.

(** *** Modules and their import *)

(** A Python module: its [__name__], its [__file__] and its namespace. A
    module object is identified by its name, as in [sys.modules]. *)
Record Module : Type := {
  __name__ : string;
  __file__ : option string;
  members : gmap string PyObj
}.

(** [if package] on an optional string. *)
Definition truthy (package : option string) : bool :=
  match package with
  | Some (String _ _) => true
  | _ => false
  end.

Fixpoint count_leading_dots (s : string) : nat :=
  match s with
  | String c rest => if Ascii.eqb c "."%char then S (count_leading_dots rest) else 0
  | EmptyString => 0
  end.

(** [s[n:]] *)
Fixpoint string_drop (n : nat) (s : string) : string :=
  match n, s with
  | S n', String _ rest => string_drop n' rest
  | _, _ => s
  end.

(** [s.rsplit(".", 1)] when [s] has a dot: what is before and after the last one. *)
Fixpoint rsplit_dot (s : string) : option (string * string) :=
  match s with
  | EmptyString => None
  | String c rest =>
      match rsplit_dot rest with
      | Some (before, after) => Some (String c before, after)
      | None => if Ascii.eqb c "."%char then Some (EmptyString, rest) else None
      end
  end.

(** [package.rsplit(".", n)[0]], and [None] when [package] has fewer than
    [n] dots (the split then has fewer than [n + 1] parts). *)
Fixpoint rsplit_base (n : nat) (package : string) : option string :=
  match n with
  | 0 => Some package
  | S n' =>
      match rsplit_dot package with
      | Some (before, _) => rsplit_base n' before
      | None => None
      end
  end.

(** [importlib._bootstrap._resolve_name] *)
Definition resolve_name (name package : string) (level : nat) : result Exc string :=
  match rsplit_base (level - 1) package with
  | None => Err (ImportError MsgBeyondTopLevel)
  | Some base =>
      Ok (match name with
          | EmptyString => base
          | _ => base ++ "." ++ name
          end)
  end.

Section Importing.

(** The modules that can be imported, by absolute name. *)
Variable importable : gmap string Module.

Definition find_and_load (name : string) : result Exc Module :=
  match importable !! name with
  | Some m => Ok m
  | None => Err (ImportError (MsgNoModuleNamed name))
  end.

(** [importlib.import_module(name, package)] *)
Definition import_module (name : string) (package : option string) : result Exc Module :=
  if startswith_dot name then
    match package with
    | Some (String c p) =>
        let level := count_leading_dots name in
        absolute ← resolve_name (string_drop level name) (String c p) level;
        find_and_load absolute
    | _ => Err (TypeError (MsgRelativeImportWithoutPackage name))
    end
  else find_and_load name.

(** *** class AntaCatalogFile *)

(** [modules[module] = tests] on a dictionary keyed by module objects: the
    value of a key already there is replaced in place, a new key is added at
    the end. *)
Fixpoint dict_set {V} (modules : list (Module * V)) (module : Module) (tests : V)
    : list (Module * V) :=
  match modules with
  | [] => [(module, tests)]
  | (m, v) :: rest =>
      if String.eqb (__name__ m) (__name__ module) then (m, tests) :: rest
      else (m, v) :: dict_set rest module tests
  end.

(** [modules.update(other)] *)
Definition dict_update {V} (modules other : list (Module * V)) : list (Module * V) :=
  fold_left (fun acc kv => dict_set acc (fst kv) (snd kv)) other modules.

(** The name [flatten_modules] hands to [import_module] for a key of the
    document: under a package, a key without a leading dot gets one. *)
Definition import_name (package : option string) (module_name : string) : string :=
  if truthy package && negb (startswith_dot module_name)
  then "." ++ module_name else module_name.

(** The loop of [AntaCatalogFile.flatten_modules] over the items of the
    document, [modules] being the dictionary built so far and [flatten] the
    recursive call for an inner module. *)
Section FlattenLoop.

Variable flatten : PyVal -> option string -> result Exc (list (Module * list PyVal)).
Variable package : option string.

Fixpoint flatten_loop (items : list (string * PyVal)) (modules : list (Module * list PyVal))
    : result Exc (list (Module * list PyVal)) :=
  match items with
  | [] => Ok modules
  | (module_name, tests) :: rest =>
      let module_name := import_name package module_name in
      match import_module module_name package with
      | Err _ =>
          let module_str :=
            if startswith_dot module_name then string_drop 1 module_name
            else module_name in
          Err (ValueError (MsgModuleNotImportable module_str
                             (if truthy package then package else None)))
      | Ok module =>
          match tests with
          | VDict _ =>
              inner ← flatten tests (Some (__name__ module));
              flatten_loop rest (dict_update modules inner)
          | VList l => flatten_loop rest (dict_set modules module l)
          | _ => Err (ValueError (MsgNotAList tests))
          end
      end
  end.

End FlattenLoop.

(** The body of [flatten_modules] for the dictionary held by [data]; the
    recursion follows the nesting of the document. *)
Fixpoint flatten (data : PyVal) (package : option string) {struct data}
    : result Exc (list (Module * list PyVal)) :=
  match data with
  | VDict items => flatten_loop flatten package items []
  | _ => Ok []
  end.

(** Every key of the document, at every depth, names a module that
    [import_module] finds from the package it is nested in. *)
Section ResolveLoop.

Variable namespaces_resolve : PyVal -> option string -> bool.
Variable package : option string.

Fixpoint resolve_loop (items : list (string * PyVal)) : bool :=
  match items with
  | [] => true
  | (module_name, tests) :: rest =>
      match import_module (import_name package module_name) package with
      | Err _ => false
      | Ok module => namespaces_resolve tests (Some (__name__ module)) && resolve_loop rest
      end
  end.

End ResolveLoop.

Fixpoint namespaces_resolve (data : PyVal) (package : option string) {struct data} : bool :=
  match data with
  | VDict items => resolve_loop namespaces_resolve package items
  | _ => true
  end.

(** [AntaCatalogFile.flatten_modules(data, package)] *)
Definition flatten_modules (data : list (string * PyVal)) (package : option string)
    : result Exc (list (Module * list PyVal)) :=
  flatten (VDict data) package.

(** The body of the loop of [check_tests] over the entries of a leaf: the
    definitions one entry adds to [test_definitions]. *)
Definition check_test_definition (module : Module) (test_definition : PyVal)
    : result Exc (list AntaTestDefinition) :=
  match test_definition with
  | VDict d =>
      if negb (List.length d =? 1)%nat then
        Err (ValueError (MsgNotSingleEntry test_definition))
      else
        mapM (fun item : string * PyVal =>
                let (test_name, test_inputs) := item in
                match members module !! test_name with
                | None =>
                    Err (ValueError (MsgTestNotDefined test_name (__name__ module)
                                       (__file__ module)))
                | Some test => AntaTestDefinition_init test (DValue test_inputs)
                end) d
  | _ => Err (ValueError (MsgNotADict test_definition))
  end.

(** The entries of a leaf the loop refuses for their shape, and the message
    of the error it raises for them. *)
Definition malformed_entry (test_definition : PyVal) : bool :=
  match test_definition with
  | VDict [_] => false
  | _ => true
  end.

Definition syntax_error_of (test_definition : PyVal) : Msg :=
  match test_definition with
  | VDict _ => MsgNotSingleEntry test_definition
  | _ => MsgNotADict test_definition
  end.

(** [AntaCatalogFile.check_tests], the validator that runs before the root
    is validated. When [data] is not a dictionary, the name [typed_data] it
    returns is not bound. *)
Definition check_tests (data : PyVal)
    : result Exc (list (Module * list AntaTestDefinition)) :=
  match data with
  | VDict d =>
      typed_data ← flatten_modules d None;
      mapM (fun entry : Module * list PyVal =>
              let (module, tests) := entry in
              test_definitions ← mapM (check_test_definition module) tests;
              Ok (module, concat test_definitions)) typed_data
  | _ => Err (UnboundLocalError "typed_data")
  end.

Record AntaCatalogFile : Type := {
  root : list (Module * list AntaTestDefinition)
}.

(** What is validated when [AntaCatalogFile] is called with the items of
    [data] as keyword arguments, that is by pydantic's [RootModel.__init__]
    with its parameter [root] and its other keywords: the keyword [root] when
    it is the only one; otherwise the keywords as a dictionary; without
    keywords the undefined sentinel, for which [None] stands. *)
Definition root_argument (data : list (string * PyVal)) : result Exc (option PyVal) :=
  match dict_get "root" data, filter (fun kv => fst kv ≠ "root") data with
  | Some _, _ :: _ => Err (ValueError MsgRootModelInit)
  | Some r, [] => Ok (Some r)
  | None, [] => Ok None
  | None, _ :: _ => Ok (Some (VDict data))
  end.

(** The construction of [AntaCatalogFile]: the value goes through
    [check_tests], where the sentinel, not being a dictionary, leaves
    [typed_data] unbound; what [check_tests] returns (modules, lists of
    definitions) is valid for the root type as it is. *)
Definition AntaCatalogFile_init (data : list (string * PyVal)) : result Exc AntaCatalogFile :=
  arg ← root_argument data;
  match arg with
  | Some v => r ← in_validator "AntaCatalogFile" [] (check_tests v); Ok {| root := r |}
  | None => Err (UnboundLocalError "typed_data")
  end.

(** *** class AntaCatalog *)

Record AntaCatalog : Type := {
  _tests : list AntaTestDefinition;
  _filename : option string
}.

(** [AntaCatalog(tests, filename)] *)
Definition AntaCatalog_init (tests : option (list AntaTestDefinition))
    (filename : option string) : AntaCatalog :=
  {| _tests := match tests with Some t => t | None => [] end;
     _filename := filename |}.

(** The property [AntaCatalog.tests]. *)
Definition tests (self : AntaCatalog) : list AntaTestDefinition := _tests self.

(** [AntaCatalog.from_dict]; what is logged is left out, a caught and
    re-raised exception is the exception. *)
Definition from_dict (data : PyVal) (filename : option string) : result Exc AntaCatalog :=
  match data with
  | VNone => Ok (AntaCatalog_init None filename)
  | VDict d =>
      catalog_data ← AntaCatalogFile_init d;
      Ok (AntaCatalog_init (Some (concat (map snd (root catalog_data)))) filename)
  | _ => Err (TypeError (MsgWrongCatalogData filename (type_name data)))
  end.

(** [AntaCatalog.from_list] *)
Definition from_list (data : list (PyObj * InputsData)) : result Exc AntaCatalog :=
  tests ← mapM (fun item : PyObj * InputsData =>
                  let (test, inputs) := item in
                  AntaTestDefinition_init test inputs) data;
  Ok (AntaCatalog_init (Some tests) None).

Section Parse.

(** Opening the file and decoding it with [yaml.safe_load]; raises
    [TypeError], [YAMLError] or [OSError]. *)
Variable safe_load : string -> result Exc PyVal.

(** [AntaCatalog.parse] *)
Definition parse (filename : string) : result Exc AntaCatalog :=
  data ← safe_load filename;
  from_dict data (Some filename).

End Parse.

End Importing.

(** [AntaCatalog.get_tests_by_tags] *)
Definition matches_tags (tags : list string) (strict : bool) (test : AntaTestDefinition)
    : bool :=
  match inst_filters (inputs test) with
  | Some filters =>
      match Models.tags filters with
      | Some ((_ :: _) as f) =>
          if strict then forallb (fun t => bool_decide (t ∈ tags)) f
          else existsb (fun t => bool_decide (t ∈ tags)) f
      | _ => false
      end
  | None => false
  end.

Definition get_tests_by_tags (self : AntaCatalog) (tags : list string) (strict : bool)
    : list AntaTestDefinition :=
  List.filter (matches_tags tags strict) (tests self).

(** The setter of [AntaCatalog.tests]. Its argument is any object. *)
Inductive PyObject : Type :=
| OTestDefinition (t : AntaTestDefinition)
| OList (l : list PyObject)
| OOther (repr : string).

(** The loop of the setter over the elements of [value]. *)
Fixpoint check_elements (value : list PyObject) : result Exc (list AntaTestDefinition) :=
  match value with
  | [] => Ok []
  | OTestDefinition t :: rest => ts ← check_elements rest; Ok (t :: ts)
  | _ :: _ => Err (TypeError MsgMustBeTestDefinition)
  end.

(** The setter as a state transformer: the outcome of the call and the
    catalog after it. *)
Definition tests_setter (self : AntaCatalog) (value : PyObject)
    : result Exc unit * AntaCatalog :=
  match value with
  | OList l =>
      match check_elements l with
      | Ok ts => (Ok (), {| _tests := ts; _filename := _filename self |})
      | Err e => (Err e, self)
      end
  | _ => (Err (TypeError MsgCatalogMustBeList), self)
  end.

End Catalog.

(** ** anta/runner.py *)

Module Runner.

(** Key from YAML file transferred to the template of the test. *)
Definition TEST_TPL_PARAMS : string := "template_params".

(** Modelled from the spec: an inventory device ([anta.inventory] is not part
    of the sources), with its connectivity state and its tag set. *)
Record Device : Type := {
  dev_name : string;
  established : bool;
  dev_tags : list string
}.

Definition AntaInventory : Type := list Device.

(** Modelled from the spec: the device selection of the inventory,
    [get_inventory(established_only, tags)]: devices filtered to established
    state (if [established_only]) and to tag match (if [tags] is given). *)
Definition get_inventory (inventory : AntaInventory) (established_only : bool)
    (tags : option (list string)) : list Device :=
  List.filter
    (fun d =>
       (negb established_only || established d)
       && match tags with
          | None => true
          | Some ts => existsb (fun t => bool_decide (t ∈ ts)) (dev_tags d)
          end)
    inventory.

(** Modelled from the spec: a test result ([anta.result_manager.models] is
    not part of the sources). *)
Inductive Outcome : Type := success | failure | error | skipped.

Record TestResult : Type := {
  res_device : string;
  res_test : string;
  res_outcome : Outcome;
  res_message : string
}.

(** An exception: [r.__class__.__name__], [str(r)] and
    [isinstance(r, Exception)]. The [CancelledError] that [gather] returns
    for a cancelled unit is a [BaseException] and no [Exception]; an
    exception that ends the event loop itself ([KeyboardInterrupt],
    [SystemExit]) is not the outcome of a unit. *)
Record Exception : Type := {
  exc_class : string;
  exc_str : string;
  exc_is_exception : bool
}.

(** An entry of the catalog as [main] takes it: the test callable, by name,
    and its parameters. *)
Definition TestEntry : Type := (string * list (string * PyVal))%type.

(** The call [test[0](device=device, template_params=template_params)
    .test(eos_data=None, ATTRS)] where ATTRS are the keyword arguments
    [test_params], by its arguments; and the coroutine object that call
    returns when it does not raise: created, not started. *)
Record Coroutine : Type := {
  coro_test : string;
  coro_device : Device;
  coro_template_params : PyVal;
  coro_test_params : list (string * PyVal)
}.

(** What awaiting a coroutine gives: the value it returns or the exception it
    raises. *)
Inductive Awaited : Type :=
| Returned (r : TestResult)
| Raised (e : Exception).

Inductive LogRecord : Type :=
| LogError (exc_class exc_str : string)
    (* "Error when running tests: {r.__class__.__name__}: {r}" *)
| LogInfo (res : list Awaited)
    (* "List of test result is: {res}" *)
| LogDropped (e : Exception).
    (* the result manager logs the raw error it drops *)

(** Modelled from the spec: the result manager ([anta.result_manager] is not
    part of the sources); [add_test_results] adds the results and logs and
    drops the raw errors. *)
Definition ResultManager : Type := list TestResult.

Definition results_of (res : list Awaited) : list TestResult :=
  omap (fun r => match r with Returned t => Some t | Raised _ => None end) res.

Definition exceptions_of (res : list Awaited) : list Exception :=
  omap (fun r => match r with Raised e => Some e | Returned _ => None end) res.

Definition add_test_results (manager : ResultManager) (res : list Awaited)
    : ResultManager * list LogRecord :=
  ((manager ++ results_of res)%list, map LogDropped (exceptions_of res)).

(** *** Coroutines that await *)

(** The body of an [async def]: what it does between two awaits is a pure
    computation of the continuation; [Await*] suspends it until the awaited
    object completes and resumes it with the result. *)
Inductive Async (R : Type) : Type :=
| Return (r : R)
| AwaitConnect (k : unit -> Async R)
    (* await inventory.connect_inventory() *)
| GetInventory (established_only : bool) (tags : option (list string))
    (k : list Device -> Async R)
    (* inventory.get_inventory(established_only=..., tags=...) *)
| CreateCoroutine (c : Coroutine) (k : Async R)
    (* coros.append(test[0](device=..., template_params=...).test(eos_data=None, ...)) *)
| AwaitGather (coros : list Coroutine) (return_exceptions : bool)
    (k : list Awaited -> Async R)
    (* await asyncio.gather(coros, return_exceptions=...) *)
| Log (r : LogRecord) (k : Async R)
| AddTestResults (res : list Awaited) (k : Async R).
    (* manager.add_test_results(res) *)
Arguments Return {R} r.
Arguments AwaitConnect {R} k.
Arguments GetInventory {R} established_only tags k.
Arguments CreateCoroutine {R} c k.
Arguments AwaitGather {R} coros return_exceptions k.
Arguments Log {R} r k.
Arguments AddTestResults {R} res k.

(** The loop of [main] over the cross product: the call it makes for a
    pair. *)
Definition make_coroutine (item : Device * TestEntry) : Coroutine :=
  let (device, test) := item in
  let test_params := List.filter (fun kv => negb (String.eqb (fst kv) TEST_TPL_PARAMS)) (snd test) in
  let template_params :=
    match dict_get TEST_TPL_PARAMS (snd test) with
    | Some v => v
    | None => VList []
    end in
  {| coro_test := fst test;
     coro_device := device;
     coro_template_params := template_params;
     coro_test_params := test_params |}.

(** The calls of the loop over [itertools.product(devices, tests)], in
    order; [coros] after the loop, when none of them raises. *)
Definition make_coroutines (devices : list Device) (tests : list TestEntry)
    : list Coroutine :=
  map make_coroutine (list_prod devices tests).

(** The loop itself: the calls are made one after the other. *)
Fixpoint create_coroutines {R} (coros : list Coroutine) (k : Async R) : Async R :=
  match coros with
  | [] => k
  | c :: rest => CreateCoroutine c (create_coroutines rest k)
  end.

Definition log_error (e : Exception) : LogRecord :=
  LogError (exc_class e) (exc_str e).

(** The results [main] logs an error for: [isinstance(r, Exception)]. *)
Definition is_Exception (r : Awaited) : bool :=
  match r with
  | Raised e => exc_is_exception e
  | Returned _ => false
  end.

(** The loop of [main] over the results: one error record per result that
    is an [Exception]. *)
Fixpoint log_errors {R} (res : list Awaited) (k : Async R) : Async R :=
  match res with
  | [] => k
  | Raised e :: rest =>
      if exc_is_exception e then Log (log_error e) (log_errors rest k)
      else log_errors rest k
  | Returned _ :: rest => log_errors rest k
  end.

(** The exceptions among the results that are instances of [Exception]. *)
Definition logged_exceptions (res : list Awaited) : list Exception :=
  List.filter exc_is_exception (exceptions_of res).

(** The coroutine [main(manager, inventory, tests, tags, established_only)];
    the manager and the inventory are the shared objects of the state
    below. *)
Definition main (tests : list TestEntry) (tags : option (list string))
    (established_only : bool) : Async unit :=
  AwaitConnect (fun _ =>
  GetInventory established_only tags (fun devices =>
  let coros := make_coroutines devices tests in
  create_coroutines coros (
  AwaitGather coros true (fun res =>
  log_errors res (
  Log (LogInfo res) (
  AddTestResults res (
  Return tt))))))).

(** The rest of [main] when [gather] has returned [res], and when the
    loop over the results has [todo] left. *)
Definition report_from (res todo : list Awaited) : Async unit :=
  log_errors todo (Log (LogInfo res) (AddTestResults res (Return tt))).

Definition report (res : list Awaited) : Async unit := report_from res res.

(** The rest of [main] once the devices are selected, and once the
    inventory is connected. *)
Definition after_select (tests : list TestEntry) (devices : list Device) : Async unit :=
  create_coroutines (make_coroutines devices tests)
    (AwaitGather (make_coroutines devices tests) true report).

Definition after_connect (tests : list TestEntry) (tags : option (list string))
    (established_only : bool) (_ : unit) : Async unit :=
  GetInventory established_only tags (after_select tests).

(** *** The event loop *)

(** What an observer of a run sees, oldest first. *)
Inductive Event : Type :=
| EvConnected
| EvScheduled (c : Coroutine)
| EvCompleted (c : Coroutine) (a : Awaited)
| EvReturned.

(** A unit scheduled by [gather]. *)
Inductive Task : Type :=
| Pending (c : Coroutine)
| Done (c : Coroutine) (a : Awaited).

Definition task_coro (t : Task) : Coroutine :=
  match t with Pending c | Done c _ => c end.

Definition task_result (t : Task) : option Awaited :=
  match t with Pending _ => None | Done _ a => Some a end.

Section Loop.

(** The state outside of the program: device sessions and the like. *)
Variable World : Type.

(** The bulk connection of the inventory, run to completion: the inventory
    and the world after it, or the exception it raises. *)
Variable connect_inventory : AntaInventory -> World -> result Exception (AntaInventory * World).

(** The call that creates a unit, in a given world: the exception it
    raises, if any, and the world after it. *)
Variable create_coroutine : Coroutine -> World -> option Exception * World.

(** A unit run to completion in a given world. *)
Variable run_coroutine : Coroutine -> World -> Awaited * World.

Record State : Type := {
  inventory : AntaInventory;
  manager : ResultManager;
  world : World;
  log : list LogRecord;
  trace : list Event
}.

Definition emit (evs : list Event) (s : State) : State :=
  {| inventory := inventory s; manager := manager s; world := world s;
     log := log s; trace := (trace s ++ evs)%list |}.

Definition set_world (w : World) (s : State) : State :=
  {| inventory := inventory s; manager := manager s; world := w;
     log := log s; trace := trace s |}.

Definition set_inventory (i : AntaInventory) (s : State) : State :=
  {| inventory := i; manager := manager s; world := world s;
     log := log s; trace := trace s |}.

Definition add_log (rs : list LogRecord) (s : State) : State :=
  {| inventory := inventory s; manager := manager s; world := world s;
     log := (log s ++ rs)%list; trace := trace s |}.

Definition set_manager (m : ResultManager) (s : State) : State :=
  {| inventory := inventory s; manager := m; world := world s;
     log := log s; trace := trace s |}.

(** The coroutine is running, is suspended on the connection, is suspended
    on [gather] with its tasks, has returned, or has let an exception out. *)
Inductive Config (R : Type) : Type :=
| Running (p : Async R) (s : State)
| Connecting (k : unit -> Async R) (s : State)
| Gathering (tasks : list Task) (return_exceptions : bool)
    (k : list Awaited -> Async R) (s : State)
| Finished (r : R) (s : State)
| Crashed (e : Exception) (s : State).
Arguments Running {R} p s.
Arguments Connecting {R} k s.
Arguments Gathering {R} tasks return_exceptions k s.
Arguments Finished {R} r s.
Arguments Crashed {R} e s.

(** One step of the event loop. An exception raised by the call that
    creates a unit is raised in [main], which does not catch it. The order
    in which the pending units of a [gather] run is not determined. With
    [return_exceptions] the awaiting coroutine resumes when every unit is
    done, with their results in the order of submission; without it the
    first exception is raised in the awaiting coroutine. *)
Inductive step {R : Type} : Config R -> Config R -> Prop :=
| step_return r s :
    step (Running (Return r) s) (Finished r (emit [EvReturned] s))
| step_await_connect k s :
    step (Running (AwaitConnect k) s) (Connecting k s)
| step_connected k s inv' w' :
    connect_inventory (inventory s) (world s) = Ok (inv', w') ->
    step (Connecting k s)
         (Running (k ()) (emit [EvConnected] (set_world w' (set_inventory inv' s))))
| step_connect_raised k s e :
    connect_inventory (inventory s) (world s) = Err e ->
    step (Connecting k s) (Crashed e s)
| step_get_inventory eo tags k s :
    step (Running (GetInventory eo tags k) s)
         (Running (k (get_inventory (inventory s) eo tags)) s)
| step_created c k s w' :
    create_coroutine c (world s) = (None, w') ->
    step (Running (CreateCoroutine c k) s) (Running k (set_world w' s))
| step_create_raised c k s e w' :
    create_coroutine c (world s) = (Some e, w') ->
    step (Running (CreateCoroutine c k) s) (Crashed e (set_world w' s))
| step_await_gather coros re k s :
    step (Running (AwaitGather coros re k) s)
         (Gathering (map Pending coros) re k (emit (map EvScheduled coros) s))
| step_unit tasks re k s i c a w' :
    tasks !! i = Some (Pending c) ->
    run_coroutine c (world s) = (a, w') ->
    step (Gathering tasks re k s)
         (Gathering (<[i := Done c a]> tasks) re k
            (emit [EvCompleted c a] (set_world w' s)))
| step_gathered tasks re k s res :
    mapM task_result tasks = Some res ->
    (re = true \/ exceptions_of res = []) ->
    step (Gathering tasks re k s) (Running (k res) s)
| step_gather_raised tasks k s i c e :
    tasks !! i = Some (Done c (Raised e)) ->
    step (Gathering tasks false k s) (Crashed e s)
| step_log r k s :
    step (Running (Log r k) s) (Running k (add_log [r] s))
| step_add_test_results res k s :
    step (Running (AddTestResults res k) s)
         (Running k (add_log (snd (add_test_results (manager s) res))
                       (set_manager (fst (add_test_results (manager s) res)) s))).

(** Executions: zero or more steps. *)
Inductive steps {R : Type} : Config R -> Config R -> Prop :=
| steps_refl c : steps c c
| steps_step c1 c2 c3 : steps c1 c2 -> step c2 c3 -> steps c1 c3.

Definition state_of {R} (c : Config R) : State :=
  match c with
  | Running _ s | Connecting _ s | Gathering _ _ _ s | Finished _ s | Crashed _ s => s
  end.

(** The units a trace shows as scheduled, and the events of the units of a
    [gather] that are done. *)
Definition scheduled (tr : list Event) : list Coroutine :=
  omap (fun ev => match ev with EvScheduled c => Some c | _ => None end) tr.

Definition done_events (tasks : list Task) : list Event :=
  omap (fun t => match t with Done c a => Some (EvCompleted c a) | Pending _ => None end)
    tasks.

Section Run.

Variables (tests : list TestEntry) (tags : option (list string)) (established_only : bool).
Variables (inventory0 : AntaInventory) (manager0 : ResultManager) (world0 : World).

(** The state a run starts from: nothing logged, nothing observed. *)
Definition start : State :=
  {| inventory := inventory0; manager := manager0; world := world0;
     log := []; trace := [] |}.

(** A run of [main]. *)
Definition initial : Config unit :=
  Running (main tests tags established_only) start.

(** The units of a run in a fixed order, first to last: a scheduler that
    computes. *)
Fixpoint gather_in_order (coros : list Coroutine) (w : World)
    : list (Coroutine * Awaited) * World :=
  match coros with
  | [] => ([], w)
  | c :: rest =>
      let (a, w') := run_coroutine c w in
      let (done, w'') := gather_in_order rest w' in
      ((c, a) :: done, w'')
  end.

Definition done_task (ca : Coroutine * Awaited) : Task := Done (fst ca) (snd ca).

Definition completion (ca : Coroutine * Awaited) : Event := EvCompleted (fst ca) (snd ca).

(** The calls that create the units, one after the other, up to the first
    that raises. *)
Fixpoint create_in_order (coros : list Coroutine) (w : World) : option Exception * World :=
  match coros with
  | [] => (None, w)
  | c :: rest =>
      match create_coroutine c w with
      | (None, w') => create_in_order rest w'
      | (Some e, w') => (Some e, w')
      end
  end.

(** The run of [main] under that scheduler, to its end. *)
Definition run_in_order : Config unit :=
  match connect_inventory inventory0 world0 with
  | Err e => Crashed e start
  | Ok (inv', w') =>
      let coros := make_coroutines (get_inventory inv' established_only tags) tests in
      match create_in_order coros w' with
      | (Some e, w1) =>
          Crashed e
            {| inventory := inv'; manager := manager0; world := w1;
               log := []; trace := [EvConnected] |}
      | (None, w1) =>
          let (done, w'') := gather_in_order coros w1 in
          let res := map snd done in
          Finished tt
            {| inventory := inv';
               manager := fst (add_test_results manager0 res);
               world := w'';
               log := (map log_error (logged_exceptions res) ++ [LogInfo res]
                       ++ snd (add_test_results manager0 res))%list;
               trace := (EvConnected :: map EvScheduled coros
                         ++ map completion done
                         ++ [EvReturned])%list |}
      end
  end.

(** A bound on the steps a configuration of the run has left: the steps of
    the straight-line rest of a program, and for the run three steps per
    unit (its creation, its completion and the record of its exception)
    besides the fixed ones. *)
Fixpoint tail_steps (p : Async unit) : nat :=
  match p with
  | Return _ => 1
  | Log _ k => S (tail_steps k)
  | AddTestResults _ k => S (tail_steps k)
  | CreateCoroutine _ k => S (tail_steps k)
  | AwaitGather coros _ _ => 2 * length coros + 5
  | _ => 0
  end.

Definition count_pending (tasks : list Task) : nat :=
  length (omap (fun t => match t with Pending c => Some c | Done _ _ => None end) tasks).

Definition steps_left (c : Config unit) : nat :=
  let units (inv : AntaInventory) :=
    length (make_coroutines (get_inventory inv established_only tags) tests) in
  let after_connection (s : State) :=
    match connect_inventory (inventory s) (world s) with
    | Ok (inv', _) => 3 * units inv' + 6
    | Err _ => 0
    end in
  match c with
  | Running (AwaitConnect _) s => 2 + after_connection s
  | Connecting _ s => 1 + after_connection s
  | Running (GetInventory _ _ _) s => 3 * units (inventory s) + 6
  | Gathering tasks _ _ _ => count_pending tasks + length tasks + 4
  | Running p _ => tail_steps p
  | Finished _ _ | Crashed _ _ => 0
  end.

(** The configurations a run of [main] goes through. [inv'] is the inventory
    after the connection, [done] the units created so far and [todo] those
    still to create, [comps] the completion events so far, in the order they
    happened. *)
Definition coroutines (inv' : AntaInventory) : list Coroutine :=
  make_coroutines (get_inventory inv' established_only tags) tests.

Definition connected (inv' : AntaInventory) : Prop :=
  exists w', connect_inventory inventory0 world0 = Ok (inv', w').

(** The call that creates [c] does not raise, and raises [e], in some
    world. *)
Definition created (c : Coroutine) : Prop :=
  exists w, fst (create_coroutine c w) = None.

Definition creation_raises (c : Coroutine) (e : Exception) : Prop :=
  exists w, fst (create_coroutine c w) = Some e.

(** [a] is what running [c] gives in some world. *)
Definition outcome_of (c : Coroutine) (a : Awaited) : Prop :=
  exists w, fst (run_coroutine c w) = a.

Definition task_sound (t : Task) : Prop :=
  match t with
  | Pending _ => True
  | Done c a => outcome_of c a
  end.

Definition all_completed (inv' : AntaInventory) (res : list Awaited) (comps : list Event)
    : Prop :=
  length res = length (coroutines inv')
  /\ comps ≡ₚ zip_with EvCompleted (coroutines inv') res
  /\ Forall2 outcome_of (coroutines inv') res.

Inductive phase : Config unit -> Prop :=
| phase_start :
    phase (Running (main tests tags established_only) start)
| phase_connecting :
    phase (Connecting (after_connect tests tags established_only) start)
| phase_connect_raised e :
    connect_inventory inventory0 world0 = Err e ->
    phase (Crashed e start)
| phase_connected inv' s :
    connected inv' ->
    inventory s = inv' -> manager s = manager0 -> log s = [] ->
    trace s = [EvConnected] ->
    phase (Running (after_connect tests tags established_only ()) s)
| phase_creating inv' done todo s :
    connected inv' ->
    coroutines inv' = (done ++ todo)%list -> Forall created done ->
    inventory s = inv' -> manager s = manager0 -> log s = [] ->
    trace s = [EvConnected] ->
    phase (Running (create_coroutines todo (AwaitGather (coroutines inv') true report)) s)
| phase_create_raised inv' done c todo e s :
    connected inv' ->
    coroutines inv' = (done ++ c :: todo)%list -> Forall created done ->
    creation_raises c e ->
    inventory s = inv' -> manager s = manager0 -> log s = [] ->
    trace s = [EvConnected] ->
    phase (Crashed e s)
| phase_gathering inv' tasks comps s :
    connected inv' -> Forall created (coroutines inv') ->
    map task_coro tasks = coroutines inv' ->
    Forall task_sound tasks ->
    comps ≡ₚ done_events tasks ->
    inventory s = inv' -> manager s = manager0 -> log s = [] ->
    trace s = (EvConnected :: map EvScheduled (coroutines inv') ++ comps)%list ->
    phase (Gathering tasks true report s)
| phase_reporting inv' res logged todo comps s :
    connected inv' -> Forall created (coroutines inv') -> all_completed inv' res comps ->
    res = (logged ++ todo)%list ->
    inventory s = inv' -> manager s = manager0 ->
    log s = map log_error (logged_exceptions logged) ->
    trace s = (EvConnected :: map EvScheduled (coroutines inv') ++ comps)%list ->
    phase (Running (report_from res todo) s)
| phase_reported inv' res comps s :
    connected inv' -> Forall created (coroutines inv') -> all_completed inv' res comps ->
    inventory s = inv' -> manager s = manager0 ->
    log s = (map log_error (logged_exceptions res) ++ [LogInfo res])%list ->
    trace s = (EvConnected :: map EvScheduled (coroutines inv') ++ comps)%list ->
    phase (Running (AddTestResults res (Return ())) s)
| phase_added inv' res comps s :
    connected inv' -> Forall created (coroutines inv') -> all_completed inv' res comps ->
    inventory s = inv' ->
    manager s = (manager0 ++ results_of res)%list ->
    log s = (map log_error (logged_exceptions res) ++ [LogInfo res]
             ++ map LogDropped (exceptions_of res))%list ->
    trace s = (EvConnected :: map EvScheduled (coroutines inv') ++ comps)%list ->
    phase (Running (Return ()) s)
| phase_finished inv' res comps s :
    connected inv' -> Forall created (coroutines inv') -> all_completed inv' res comps ->
    inventory s = inv' ->
    manager s = (manager0 ++ results_of res)%list ->
    log s = (map log_error (logged_exceptions res) ++ [LogInfo res]
             ++ map LogDropped (exceptions_of res))%list ->
    trace s = (EvConnected :: map EvScheduled (coroutines inv') ++ comps
               ++ [EvReturned])%list ->
    phase (Finished () s).

End Run.

End Loop.

Arguments inventory {World} s.
Arguments manager {World} s.
Arguments world {World} s.
Arguments log {World} s.
Arguments trace {World} s.
Arguments Running {World R} p s.
Arguments Connecting {World R} k s.
Arguments Gathering {World R} tasks return_exceptions k s.
Arguments Finished {World R} r s.
Arguments Crashed {World R} e s.
Arguments state_of {World R} c.

End Runner.

(** ** Concrete tests, modules and documents *)

Module Examples.
Import Catalog.

Definition any_field (n : string) (default : option PyVal) : Field :=
  {| fname := n; fdefault := default; fvalidate := Some |}.

(** A test whose input needs [number], and a test deriving from it whose
    input model derives from the first one's and gives [number] a default. *)
Definition VerifyCount_Input : InputClass :=
  {| qualname := "VerifyCount.Input"; bases := [];
     model_fields := [any_field "number" None; any_field "vrf" (Some (VStr "default"))] |}.

Definition VerifyCount : AntaTest :=
  {| name := "VerifyCount"; Input := VerifyCount_Input |}.

Definition VerifyCountOne_Input : InputClass :=
  {| qualname := "VerifyCountOne.Input"; bases := ["VerifyCount.Input"];
     model_fields := [any_field "number" (Some (VInt 1)); any_field "vrf" (Some (VStr "default"))] |}.

Definition VerifyCountOne : AntaTest :=
  {| name := "VerifyCountOne"; Input := VerifyCountOne_Input |}.

(** The object [VerifyCountOne.Input()]. *)
Definition count_one_inputs : InputInstance :=
  {| inst_mro := mro VerifyCountOne_Input;
     inst_filters := None;
     inst_values := [("number", VInt 1); ("vrf", VStr "default")] |}.

(** Tests without input fields. *)
Definition TestX : AntaTest :=
  {| name := "TestX"; Input := {| qualname := "TestX.Input"; bases := []; model_fields := [] |} |}.

Definition TestY : AntaTest :=
  {| name := "TestY"; Input := {| qualname := "TestY.Input"; bases := []; model_fields := [] |} |}.

(** A definition of [TestX] whose input declares the tags [ts]. *)
Definition tagged (ts : list string) : AntaTestDefinition :=
  {| test := TestX;
     inputs := {| inst_mro := mro (Input TestX);
                  inst_filters := Some {| tags := Some ts |};
                  inst_values := [] |} |}.

Definition catalog_of (ts : list AntaTestDefinition) : AntaCatalog :=
  {| _tests := ts; _filename := None |}.

(** Modules: a package [pkg] with a submodule [pkg.sub] and a module
    [pkg.tests], and a top-level module [sub]. *)
Definition module_pkg : Module :=
  {| __name__ := "pkg"; __file__ := None; members := ∅ |}.

Definition module_pkg_sub : Module :=
  {| __name__ := "pkg.sub"; __file__ := None; members := {[ "TestX" := ObjTest TestX ]} |}.

Definition module_sub : Module :=
  {| __name__ := "sub"; __file__ := None; members := {[ "TestY" := ObjTest TestY ]} |}.

Definition module_pkg_tests : Module :=
  {| __name__ := "pkg.tests"; __file__ := Some "pkg/tests.py";
     members := {[ "TestX" := ObjTest TestX; "TestY" := ObjTest TestY;
                   "VerifyCount" := ObjTest VerifyCount ]} |}.

Definition modules : gmap string Module :=
  {[ "pkg" := module_pkg; "pkg.sub" := module_pkg_sub; "sub" := module_sub;
     "pkg.tests" := module_pkg_tests ]}.

(** The same without [pkg.sub]. *)
Definition modules_without_pkg_sub : gmap string Module :=
  {[ "pkg" := module_pkg; "sub" := module_sub; "pkg.tests" := module_pkg_tests ]}.

(** [{"pkg": {"sub": [{"TestX": null}]}}] *)
Definition nested_document : list (string * PyVal) :=
  [("pkg", VDict [("sub", VList [VDict [("TestX", VNone)]])])].

(** [{"pkg.tests": [{"TestX": null, "TestY": null}]}] *)
Definition two_keys_document : list (string * PyVal) :=
  [("pkg.tests", VList [VDict [("TestX", VNone); ("TestY", VNone)]])].

(** [{"pkg.tests": [{"Missing": null}, 5]}] *)
Definition late_fragment_document : list (string * PyVal) :=
  [("pkg.tests", VList [VDict [("Missing", VNone)]; VInt 5])].

(** [{"pkg": {"sub": [5]}, "pkg.sub": [{"TestX": null}]}] *)
Definition shadowed_leaf_document : list (string * PyVal) :=
  [("pkg", VDict [("sub", VList [VInt 5])]);
   ("pkg.sub", VList [VDict [("TestX", VNone)]])].

(** [{"pkg.tests": [{"TestX": null}, {"VerifyCount": null}]}]: the second
    declaration lacks the field [number]. *)
Definition unbound_document : list (string * PyVal) :=
  [("pkg.tests", VList [VDict [("TestX", VNone)]; VDict [("VerifyCount", VNone)]])].

(** A file system with one readable document. *)
Definition one_file (filename : string) : result Exc PyVal :=
  if String.eqb filename "catalog.yml" then Ok (VDict unbound_document)
  else Err (OSError "No such file or directory").

End Examples.

(** ** A concrete inventory and run *)

Module RunnerExamples.
Import Runner.

Definition leaf1 : Device := {| dev_name := "leaf1"; established := false; dev_tags := ["dc1"] |}.
Definition leaf2 : Device := {| dev_name := "leaf2"; established := false; dev_tags := ["dc1"] |}.
Definition leaf3 : Device := {| dev_name := "leaf3"; established := false; dev_tags := ["dc2"] |}.

Definition inventory3 : AntaInventory := [leaf1; leaf2; leaf3].

(** The world counts the coroutines run so far. The connection reaches every
    device but [leaf3]. *)
Definition connect3 (inv : AntaInventory) (w : nat)
    : result Exception (AntaInventory * nat) :=
  Ok (map (fun d => {| dev_name := dev_name d;
                       established := negb (String.eqb (dev_name d) "leaf3");
                       dev_tags := dev_tags d |}) inv, w).

(** The inventory once connected: [leaf3] is not established. *)
Definition leaf1_connected : Device :=
  {| dev_name := "leaf1"; established := true; dev_tags := ["dc1"] |}.
Definition leaf2_connected : Device :=
  {| dev_name := "leaf2"; established := true; dev_tags := ["dc1"] |}.

Definition inventory3_connected : AntaInventory :=
  [leaf1_connected; leaf2_connected; leaf3].

(** A connection that raises. *)
Definition connect_down (inv : AntaInventory) (w : nat)
    : result Exception (AntaInventory * nat) :=
  Err {| exc_class := "OSError"; exc_str := "network unreachable";
         exc_is_exception := true |}.

(** Every call that creates a unit returns. *)
Definition create3 (c : Coroutine) (w : nat) : option Exception * nat := (None, w).

(** The calls that create the units of [VerifyNTP] raise, as when its
    [test] does not take the arguments it is called with. *)
Definition unexpected_keyword : Exception :=
  {| exc_class := "TypeError";
     exc_str := "test() got an unexpected keyword argument";
     exc_is_exception := true |}.

Definition create_strict (c : Coroutine) (w : nat) : option Exception * nat :=
  if String.eqb (coro_test c) "VerifyNTP" then (Some unexpected_keyword, w) else (None, w).

Definition boom : Exception :=
  {| exc_class := "RuntimeError"; exc_str := "boom"; exc_is_exception := true |}.

(** What [gather] returns for a unit that was cancelled: no [Exception]. *)
Definition cancelled : Exception :=
  {| exc_class := "CancelledError"; exc_str := ""; exc_is_exception := false |}.

Definition passed (device test : string) : TestResult :=
  {| res_device := device; res_test := test; res_outcome := success; res_message := "" |}.

(** Every unit returns a success, except [VerifyUptime] on [leaf1], which
    raises. *)
Definition run3 (c : Coroutine) (w : nat) : Awaited * nat :=
  if String.eqb (coro_test c) "VerifyUptime" && String.eqb (dev_name (coro_device c)) "leaf1"
  then (Raised boom, S w)
  else (Returned (passed (dev_name (coro_device c)) (coro_test c)), S w).

(** The same, with [VerifyUptime] on [leaf1] cancelled. *)
Definition run_cancelled (c : Coroutine) (w : nat) : Awaited * nat :=
  if String.eqb (coro_test c) "VerifyUptime" && String.eqb (dev_name (coro_device c)) "leaf1"
  then (Raised cancelled, S w)
  else (Returned (passed (dev_name (coro_device c)) (coro_test c)), S w).

Definition tests3 : list TestEntry :=
  [("VerifyUptime", [("minimum", VInt 10)]);
   ("VerifyNTP", []);
   ("VerifyBGPIPv4UnicastCount",
    [("number", VInt 3); ("template_params", VList [VDict [("vrf", VStr "default")]])])].

(** The six units of the two established devices and the three tests, and
    what running them with [run3] gives. *)
Definition units_of_device (device : Device) : list Coroutine :=
  [{| coro_test := "VerifyUptime"; coro_device := device;
      coro_template_params := VList [];
      coro_test_params := [("minimum", VInt 10)] |};
   {| coro_test := "VerifyNTP"; coro_device := device;
      coro_template_params := VList [];
      coro_test_params := [] |};
   {| coro_test := "VerifyBGPIPv4UnicastCount"; coro_device := device;
      coro_template_params := VList [VDict [("vrf", VStr "default")]];
      coro_test_params := [("number", VInt 3)] |}].

Definition units3 : list Coroutine :=
  (units_of_device leaf1_connected ++ units_of_device leaf2_connected)%list.

Definition results3 : list TestResult :=
  [passed "leaf1" "VerifyNTP"; passed "leaf1" "VerifyBGPIPv4UnicastCount";
   passed "leaf2" "VerifyUptime"; passed "leaf2" "VerifyNTP";
   passed "leaf2" "VerifyBGPIPv4UnicastCount"].

Definition outcomes3 : list Awaited := Raised boom :: map Returned results3.

End RunnerExamples.

(** ** Views of the catalog used to state its properties *)

Module CatalogViews.
Import Catalog.

(** The declarations of a flattened document in the order [check_tests]
    goes through them: each entry of a leaf, with the module of the leaf. *)
Definition declarations (typed : list (Module * list PyVal)) : list (Module * PyVal) :=
  flat_map (fun mt => map (pair (fst mt)) (snd mt)) typed.

(** The entry is a mapping with one key, the key names a member of the
    module, and that member bound to the value of the key is [d]. *)
Definition declares (decl : Module * PyVal) (d : AntaTestDefinition) : Prop :=
  exists test_name raw t,
    snd decl = VDict [(test_name, raw)]
    /\ members (fst decl) !! test_name = Some t
    /\ AntaTestDefinition_init t (DValue raw) = Ok d.

(** The tags an input declares: those of its filters, none without. *)
Definition declared_tags (i : InputInstance) : list string :=
  match inst_filters i with
  | Some {| tags := Some f |} => f
  | _ => []
  end.

End CatalogViews.

(** ** Python's operations on decoded data *)

(** The operations the test functions apply to the output of a command, on
    the values a JSON document decodes to (numbers are the integers; the
    keys of a dictionary are strings, and distinct). An operation that may
    raise returns [result Error A]. *)
Module Dyn.

Inductive Error : Type :=
| KeyError (key : PyVal)
| IndexError
| TypeError
| AttributeError (attribute : string).

(** [bool(x)], the truth value tested by [if x], [not x], [x and y]. *)
Definition bool_of (x : PyVal) : bool :=
  match x with
  | VNone => false
  | VBool b => b
  | VInt n => negb (n =? 0)%Z
  | VStr s => negb (String.eqb s "")
  | VList l => match l with [] => false | _ :: _ => true end
  | VDict d => match d with [] => false | _ :: _ => true end
  end.

(** [x == s] for a string [s]. *)
Definition eq_str (x : PyVal) (s : string) : bool :=
  match x with
  | VStr s' => String.eqb s' s
  | _ => false
  end.

(** The integer a value stands for in arithmetic and as an index: [bool] is
    a subclass of [int]. *)
Definition as_int (x : PyVal) : option Z :=
  match x with
  | VInt n => Some n
  | VBool b => Some (if b then 1 else 0)%Z
  | _ => None
  end.

(** [x == n] and [x != n] for an integer [n]. *)
Definition eq_int (x : PyVal) (n : Z) : bool :=
  match as_int x with
  | Some m => (m =? n)%Z
  | None => false
  end.

Definition ne_int (x : PyVal) (n : Z) : bool := negb (eq_int x n).

(** [x > 0]: an order between numbers only. *)
Definition gt_zero (x : PyVal) : result Error bool :=
  match as_int x with
  | Some m => Ok (0 <? m)%Z
  | None => Err TypeError
  end.

(** [len(x)] *)
Definition len (x : PyVal) : result Error nat :=
  match x with
  | VStr s => Ok (String.length s)
  | VList l => Ok (List.length l)
  | VDict d => Ok (List.length d)
  | _ => Err TypeError
  end.

(** [l[i]] on a sequence: a negative index counts from the end. *)
Definition index {A} (l : list A) (i : Z) : option A :=
  let n := Z.of_nat (List.length l) in
  let j := (if i <? 0 then i + n else i)%Z in
  if (j <? 0)%Z then None else l !! Z.to_nat j.

(** [x[k]] *)
Definition getitem (x k : PyVal) : result Error PyVal :=
  match x with
  | VDict d =>
      match k with
      | VStr s =>
          match dict_get s d with
          | Some v => Ok v
          | None => Err (KeyError k)
          end
      | VList _ | VDict _ => Err TypeError
      | _ => Err (KeyError k)
      end
  | VList l =>
      match as_int k with
      | Some i =>
          match index l i with
          | Some v => Ok v
          | None => Err IndexError
          end
      | None => Err TypeError
      end
  | VStr s =>
      match as_int k with
      | Some i =>
          match index (list_ascii_of_string s) i with
          | Some c => Ok (VStr (String c ""))
          | None => Err IndexError
          end
      | None => Err TypeError
      end
  | _ => Err TypeError
  end.

(** [x[k]] for a string [k]. *)
Definition subscript (x : PyVal) (k : string) : result Error PyVal := getitem x (VStr k).

(** [x.items()] and [x.values()] *)
Definition items (x : PyVal) : result Error (list (string * PyVal)) :=
  match x with
  | VDict d => Ok d
  | _ => Err (AttributeError "items")
  end.

Definition values (x : PyVal) : result Error (list PyVal) :=
  match x with
  | VDict d => Ok (map snd d)
  | _ => Err (AttributeError "values")
  end.

(** [for e in x]: the elements of a list, the keys of a dictionary, the
    characters of a string. *)
Definition iterate (x : PyVal) : result Error (list PyVal) :=
  match x with
  | VList l => Ok l
  | VDict d => Ok (map (fun kv => VStr (fst kv)) d)
  | VStr s => Ok (map (fun c => VStr (String c "")) (list_ascii_of_string s))
  | _ => Err TypeError
  end.

(** [needle in hay] between strings: [needle] occurs in [hay]. *)
Fixpoint occurs (needle hay : string) : bool :=
  String.prefix needle hay
  || match hay with
     | EmptyString => false
     | String _ rest => occurs needle rest
     end.

(** [s in x] for a string [s]: an element of a list, a key of a dictionary,
    a part of a string. *)
Definition contains (s : string) (x : PyVal) : result Error bool :=
  match x with
  | VList l => Ok (existsb (fun e => eq_str e s) l)
  | VDict d => Ok (existsb (fun kv => String.eqb (fst kv) s) d)
  | VStr hay => Ok (occurs s hay)
  | _ => Err TypeError
  end.

(** [any(p(e) for e in l)] and [all(p(e) for e in l)]: the elements after
    the one that decides are not looked at. *)
Fixpoint any {A} (p : A -> result Error bool) (l : list A) : result Error bool :=
  match l with
  | [] => Ok false
  | e :: rest => b ← p e; if b : bool then Ok true else any p rest
  end.

Fixpoint all {A} (p : A -> result Error bool) (l : list A) : result Error bool :=
  match l with
  | [] => Ok true
  | e :: rest => b ← p e; if b : bool then all p rest else Ok false
  end.

(** [[f(e) for e in l if p(e)]] *)
Fixpoint comprehension {A B} (p : A -> result Error bool) (f : A -> result Error B)
    (l : list A) : result Error (list B) :=
  match l with
  | [] => Ok []
  | e :: rest =>
      b ← p e;
      here ← (if b : bool then y ← f e; Ok [y] else Ok []);
      there ← comprehension p f rest;
      Ok (here ++ there)%list
  end.

End Dyn.

(** ** What a test function reports *)

Module Report.

(** The messages of the test functions below, with the values their
    f-strings interpolate. *)
Inductive Message : Type :=
| ExpectedAcls (number : Z) (agent : string) (vrf : string) (got : nat)
    (* "Expected {number} {agent} ACL(s) in vrf {vrf} but got {got}" *)
| AclsNotConfigured (agent : string) (vrf : string) (not_configured_acl : list PyVal)
    (* "{agent} ACL(s) not configured or active in vrf {vrf}: {not_configured_acl}" *)
| SslProfileInvalid (profile : string)
    (* "eAPI HTTPS server SSL profile ({profile}) is misconfigured or invalid" *)
| SslProfileNotConfigured (profile : string)
    (* "eAPI HTTPS server SSL profile ({profile}) is not configured" *)
| InterfaceErrorCounters (wrong_interfaces : list PyVal)
    (* "The following interface(s) have non-zero error counters: {wrong_interfaces}" *)
| InterfaceDiscardCounters (wrong_interfaces : list PyVal)
    (* "The following interfaces have non 0 discard counter(s): {wrong_interfaces}" *)
| InactivePorts (po_with_inactive_ports : list PyVal)
    (* "The following port-channels have inactive port(s): {po_with_inactive_ports}" *)
| FoundLoopbacks (loopback_count : nat) (number : Z)
    (* "Found {loopback_count} Loopbacks when expecting {number}" *)
| LoopbacksNotUp (down_loopback_interfaces : list PyVal)
    (* "The following Loopbacks are not up: {down_loopback_interfaces}" *)
| SVIsNotUp (down_svis : list PyVal)
    (* "The following SVIs are not up: {down_svis}" *)
| PortsWithIssues (failures : list (string * list string)).
    (* "The following port(s) have issues: {failures}" *)

(** A call of a method of [self.result]. *)
Inductive Call : Type :=
| is_success
| is_failure (message : option Message).

(** What running the body of a test function does: the calls it makes on
    [self.result], in order, or the exception it raises. In the functions
    below nothing that may raise comes after a call. *)
Definition Reported : Type := result Dyn.Error (list Call).

End Report.

(** ** anta/tests/security.py *)

Module Security.
Import Dyn Report.

(** The four tests on the access lists of an agent share one body; they
    differ by the key of the output they read and by the agent their
    messages name. *)
Record AclTest : Type := {
  acl_key : string;
  acl_agent : string
}.

Definition VerifySSHIPv4Acl : AclTest := {| acl_key := "ipAclList"; acl_agent := "SSH IPv4" |}.
Definition VerifySSHIPv6Acl : AclTest := {| acl_key := "ipv6AclList"; acl_agent := "SSH IPv6" |}.
Definition VerifyAPIIPv4Acl : AclTest := {| acl_key := "ipAclList"; acl_agent := "eAPI IPv4" |}.
Definition VerifyAPIIPv6Acl : AclTest := {| acl_key := "ipv6AclList"; acl_agent := "eAPI IPv6" |}.

(** [vrf not in acl["configuredVrfs"] or vrf not in acl["activeVrfs"]] *)
Definition not_configured_or_active (vrf : string) (acl : PyVal) : result Error bool :=
  configured_vrfs ← subscript acl "configuredVrfs";
  configured ← contains vrf configured_vrfs;
  if negb configured then Ok true
  else
    active_vrfs ← subscript acl "activeVrfs";
    active ← contains vrf active_vrfs;
    Ok (negb active).

(** The body of [test] of [VerifySSHIPv4Acl], [VerifySSHIPv6Acl],
    [VerifyAPIIPv4Acl] and [VerifyAPIIPv6Acl], for the inputs [number] and
    [vrf]. *)
Definition acl_test (t : AclTest) (number : Z) (vrf : string) (command_output : PyVal)
    : Reported :=
  acl_list_summary ← subscript command_output (acl_key t);
  acl_list ← subscript acl_list_summary "aclList";
  acl_number ← len acl_list;
  if negb (Z.of_nat acl_number =? number)%Z then
    Ok [is_failure (Some (ExpectedAcls number (acl_agent t) vrf acl_number))]
  else
    acls ← iterate acl_list;
    not_configured_acl ←
      comprehension (not_configured_or_active vrf) (fun acl => subscript acl "name") acls;
    match not_configured_acl with
    | _ :: _ => Ok [is_failure (Some (AclsNotConfigured (acl_agent t) vrf not_configured_acl))]
    | [] => Ok [is_success]
    end.

(** The body of [VerifyAPIHttpsSSL.test] inside its [try]: the condition of
    the [if]. *)
Definition ssl_profile_valid (profile : string) (command_output : PyVal)
    : result Error bool :=
  ssl_profile ← subscript command_output "sslProfile";
  name ← subscript ssl_profile "name";
  if eq_str name profile then
    ssl_profile ← subscript command_output "sslProfile";
    state ← subscript ssl_profile "state";
    Ok (eq_str state "valid")
  else Ok false.

(** The body of [VerifyAPIHttpsSSL.test], for the input [profile]: a
    [KeyError] is caught, another exception is not. *)
Definition VerifyAPIHttpsSSL_test (profile : string) (command_output : PyVal) : Reported :=
  match ssl_profile_valid profile command_output with
  | Ok true => Ok [is_success]
  | Ok false => Ok [is_failure (Some (SslProfileInvalid profile))]
  | Err (KeyError _) => Ok [is_failure (Some (SslProfileNotConfigured profile))]
  | Err e => Err e
  end.

End Security.

(** ** anta/tests/interfaces.py *)

Module Interfaces.
Import Dyn Report.

(** [any(value > 0 for value in counters.values())] *)
Definition non_zero_counter (counters : PyVal) : result Error bool :=
  counter_values ← values counters;
  any gt_zero counter_values.

(** [VerifyInterfaceErrors.test]: the loop over the items of
    [command_output["interfaceErrorCounters"]], [wrong_interfaces] being the
    list built so far. *)
Fixpoint errors_loop (counters_of : list (string * PyVal)) (wrong_interfaces : list PyVal)
    : result Error (list PyVal) :=
  match counters_of with
  | [] => Ok wrong_interfaces
  | (interface, counters) :: rest =>
      non_zero ← non_zero_counter counters;
      add ←
        (if non_zero : bool then
           all (fun wrong_interface => b ← contains interface wrong_interface; Ok (negb b))
             wrong_interfaces
         else Ok false);
      errors_loop rest
        (if add : bool then (wrong_interfaces ++ [VDict [(interface, counters)]])%list
         else wrong_interfaces)
  end.

(** The body of [VerifyInterfaceErrors.test]. *)
Definition VerifyInterfaceErrors_test (command_output : PyVal) : Reported :=
  interface_error_counters ← subscript command_output "interfaceErrorCounters";
  counters_of ← items interface_error_counters;
  wrong_interfaces ← errors_loop counters_of [];
  match wrong_interfaces with
  | [] => Ok [is_success]
  | _ :: _ => Ok [is_failure (Some (InterfaceErrorCounters wrong_interfaces))]
  end.

(** [VerifyInterfaceDiscards.test]: the loop over the items of
    [command_output["interfaces"]]; each turn extends [wrong_interfaces] by
    one dictionary per value of [outer_v] above zero. *)
Fixpoint discards_loop (interfaces : list (string * PyVal)) (wrong_interfaces : list PyVal)
    : result Error (list PyVal) :=
  match interfaces with
  | [] => Ok wrong_interfaces
  | (interface, outer_v) :: rest =>
      counter_values ← values outer_v;
      more ← comprehension gt_zero (fun _ => Ok (VDict [(interface, outer_v)])) counter_values;
      discards_loop rest (wrong_interfaces ++ more)%list
  end.

(** The body of [VerifyInterfaceDiscards.test]. *)
Definition VerifyInterfaceDiscards_test (command_output : PyVal) : Reported :=
  interfaces ← subscript command_output "interfaces";
  interfaces ← items interfaces;
  wrong_interfaces ← discards_loop interfaces [];
  match wrong_interfaces with
  | [] => Ok [is_success]
  | _ :: _ => Ok [is_failure (Some (InterfaceDiscardCounters wrong_interfaces))]
  end.

(** [len(portchannel_dict["inactivePorts"]) != 0] *)
Definition has_inactive_ports (portchannel_dict : PyVal) : result Error bool :=
  inactive_ports ← subscript portchannel_dict "inactivePorts";
  n ← len inactive_ports;
  Ok (negb (n =? 0)%nat).

(** [VerifyPortChannels.test]: the loop over the items of
    [command_output["portChannels"]]. The list is extended by a dictionary
    with one key, that is by its key. *)
Fixpoint port_channels_loop (port_channels : list (string * PyVal))
    (po_with_inactive_ports : list PyVal) : result Error (list PyVal) :=
  match port_channels with
  | [] => Ok po_with_inactive_ports
  | (portchannel, portchannel_dict) :: rest =>
      inactive ← has_inactive_ports portchannel_dict;
      if inactive : bool then
        inactive_ports ← subscript portchannel_dict "inactivePorts";
        more ← iterate (VDict [(portchannel, inactive_ports)]);
        port_channels_loop rest (po_with_inactive_ports ++ more)%list
      else port_channels_loop rest po_with_inactive_ports
  end.

(** The body of [VerifyPortChannels.test]. *)
Definition VerifyPortChannels_test (command_output : PyVal) : Reported :=
  port_channels ← subscript command_output "portChannels";
  port_channels ← items port_channels;
  po_with_inactive_ports ← port_channels_loop port_channels [];
  match po_with_inactive_ports with
  | [] => Ok [is_success]
  | _ :: _ => Ok [is_failure (Some (InactivePorts po_with_inactive_ports))]
  end.

(** [interface_dict["lineProtocolStatus"] == "up" and
    interface_dict["interfaceStatus"] == "connected"] *)
Definition up_and_connected (interface_dict : PyVal) : result Error bool :=
  line_protocol_status ← subscript interface_dict "lineProtocolStatus";
  if eq_str line_protocol_status "up" then
    interface_status ← subscript interface_dict "interfaceStatus";
    Ok (eq_str interface_status "connected")
  else Ok false.

(** [VerifyLoopbackCount.test]: the loop over [command_output["interfaces"]],
    with the counter and the list it updates. *)
Fixpoint loopbacks_loop (command_output : PyVal) (interfaces : list PyVal)
    (loopback_count : nat) (down_loopback_interfaces : list PyVal)
    : result Error (nat * list PyVal) :=
  match interfaces with
  | [] => Ok (loopback_count, down_loopback_interfaces)
  | interface :: rest =>
      all_interfaces ← subscript command_output "interfaces";
      interface_dict ← getitem all_interfaces interface;
      is_loopback ← contains "Loopback" interface;
      if is_loopback : bool then
        up ← up_and_connected interface_dict;
        loopbacks_loop command_output rest (S loopback_count)
          (if up : bool then down_loopback_interfaces
           else (down_loopback_interfaces ++ [interface])%list)
      else loopbacks_loop command_output rest loopback_count down_loopback_interfaces
  end.

(** The body of [VerifyLoopbackCount.test], for the input [number]. *)
Definition VerifyLoopbackCount_test (number : Z) (command_output : PyVal) : Reported :=
  all_interfaces ← subscript command_output "interfaces";
  interfaces ← iterate all_interfaces;
  counted ← loopbacks_loop command_output interfaces 0 [];
  let (loopback_count, down_loopback_interfaces) := counted : nat * list PyVal in
  if (Z.of_nat loopback_count =? number)%Z
     && (List.length down_loopback_interfaces =? 0)%nat
  then Ok [is_success]
  else
    Ok (is_failure None
        :: (if negb (Z.of_nat loopback_count =? number)%Z
            then [is_failure (Some (FoundLoopbacks loopback_count number))]
            else if negb (List.length down_loopback_interfaces =? 0)%nat
            then [is_failure (Some (LoopbacksNotUp down_loopback_interfaces))]
            else []))%list.

(** [VerifySVI.test]: the loop over [command_output["interfaces"]]. *)
Fixpoint svis_loop (command_output : PyVal) (interfaces : list PyVal) (down_svis : list PyVal)
    : result Error (list PyVal) :=
  match interfaces with
  | [] => Ok down_svis
  | interface :: rest =>
      all_interfaces ← subscript command_output "interfaces";
      interface_dict ← getitem all_interfaces interface;
      is_vlan ← contains "Vlan" interface;
      down ←
        (if is_vlan : bool then up ← up_and_connected interface_dict; Ok (negb up)
         else Ok false);
      svis_loop command_output rest
        (if down : bool then (down_svis ++ [interface])%list else down_svis)
  end.

(** The body of [VerifySVI.test]. *)
Definition VerifySVI_test (command_output : PyVal) : Reported :=
  all_interfaces ← subscript command_output "interfaces";
  interfaces ← iterate all_interfaces;
  down_svis ← svis_loop command_output interfaces [];
  if (List.length down_svis =? 0)%nat then Ok [is_success]
  else Ok [is_failure (Some (SVIsNotUp down_svis))].

End Interfaces.

(** ** anta/tests/connectivity.py *)

Module Connectivity.
Import Dyn Report.

(** An element of the input [neighbors] of [VerifyLLDPNeighbors]. *)
Record Neighbor : Type := {
  port : string;
  neighbor_device : string;
  neighbor_port : string
}.

(** [failures.setdefault(key, []).append(port)] *)
Fixpoint setdefault_append (failures : list (string * list string)) (key port : string)
    : list (string * list string) :=
  match failures with
  | [] => [(key, [port])]
  | (k, ports) :: rest =>
      if String.eqb k key then (k, (ports ++ [port])%list) :: rest
      else (k, ports) :: setdefault_append rest key port
  end.

(** What the loop of [VerifyLLDPNeighbors.test] finds for one neighbor: the
    key of [failures] its port is appended to, if any. *)
Definition check_neighbor (command_output : PyVal) (neighbor : Neighbor)
    : result Error (option string) :=
  lldp_neighbors ← subscript command_output "lldpNeighbors";
  configured ← contains (port neighbor) lldp_neighbors;
  if negb configured then Ok (Some "port_not_configured")
  else
    lldp_neighbors ← subscript command_output "lldpNeighbors";
    lldp_port ← subscript lldp_neighbors (port neighbor);
    lldp_neighbor_info ← subscript lldp_port "lldpNeighborInfo";
    n ← len lldp_neighbor_info;
    if (n =? 0)%nat then Ok (Some "no_lldp_neighbor")
    else
      first ← getitem lldp_neighbor_info (VInt 0);
      system_name ← subscript first "systemName";
      wrong ←
        (if negb (eq_str system_name (neighbor_device neighbor)) then Ok true
         else
           first ← getitem lldp_neighbor_info (VInt 0);
           neighbor_interface_info ← subscript first "neighborInterfaceInfo";
           interface_id ← subscript neighbor_interface_info "interfaceId_v2";
           Ok (negb (eq_str interface_id (neighbor_port neighbor))));
      if wrong : bool then Ok (Some "wrong_lldp_neighbor") else Ok None.

(** The loop of [VerifyLLDPNeighbors.test] over the input [neighbors],
    [failures] being the dictionary built so far. *)
Fixpoint neighbors_loop (command_output : PyVal) (neighbors : list Neighbor)
    (failures : list (string * list string)) : result Error (list (string * list string)) :=
  match neighbors with
  | [] => Ok failures
  | neighbor :: rest =>
      issue ← check_neighbor command_output neighbor;
      neighbors_loop command_output rest
        match issue with
        | Some key => setdefault_append failures key (port neighbor)
        | None => failures
        end
  end.

(** The body of [VerifyLLDPNeighbors.test], for the input [neighbors]. *)
Definition VerifyLLDPNeighbors_test (neighbors : list Neighbor) (command_output : PyVal)
    : Reported :=
  failures ← neighbors_loop command_output neighbors [];
  match failures with
  | [] => Ok [is_success]
  | _ :: _ => Ok [is_failure (Some (PortsWithIssues failures))]
  end.

End Connectivity.

(** ** Views of the test functions used to state their properties *)

Module PluginViews.
Import Dyn.

(** The condition evaluates to [True]. *)
Definition holds (r : result Error bool) : bool :=
  match r with
  | Ok true => true
  | _ => false
  end.

(** The operation does not raise. *)
Definition returns {A} (r : result Error A) : Prop := exists a, r = Ok a.

(** The values of a dictionary that are above zero, as many times as there
    are. *)
Definition positive_values (x : PyVal) : list PyVal :=
  match x with
  | VDict d => List.filter (fun v => holds (gt_zero v)) (map snd d)
  | _ => []
  end.

(** The check of a neighbor finds the issue [key]. *)
Definition has_issue (key : string) (r : result Error (option string)) : bool :=
  match r with
  | Ok (Some k) => String.eqb k key
  | _ => false
  end.

End PluginViews.

(** ** Outputs of commands *)

Module PluginExamples.
Import Connectivity.

(** An access list of the summary of an agent. *)
Definition acl (name : string) (configured_vrfs active_vrfs : list string) : PyVal :=
  VDict [("name", VStr name);
         ("configuredVrfs", VList (map VStr configured_vrfs));
         ("activeVrfs", VList (map VStr active_vrfs))].

Definition acl_summary (key : string) (acls : list PyVal) : PyVal :=
  VDict [(key, VDict [("aclList", VList acls)])].

(** Two access lists, the second one not active in the VRF MGMT. *)
Definition two_acls : list PyVal :=
  [acl "ACL1" ["MGMT"] ["MGMT"]; acl "ACL2" ["MGMT"; "default"] ["default"]].

(** An interface of [show ip interface brief]. *)
Definition brief (line_protocol_status interface_status : string) : PyVal :=
  VDict [("lineProtocolStatus", VStr line_protocol_status);
         ("interfaceStatus", VStr interface_status)].

(** Two loopbacks, one of them down, an SVI that is up and an interface
    whose entry holds no status. *)
Definition ip_interface_brief : PyVal :=
  VDict [("interfaces",
          VDict [("Loopback0", brief "up" "connected");
                 ("Ethernet1", VDict []);
                 ("Loopback1", brief "down" "notconnect");
                 ("Vlan10", brief "up" "connected")])].

(** Counters of three interfaces: two counters of the first are above zero,
    none of the second, one of the third. *)
Definition interface_counters (key : string) : PyVal :=
  VDict [(key,
          VDict [("Ethernet1", VDict [("inDiscards", VInt 3); ("outDiscards", VInt 7)]);
                 ("Ethernet2", VDict [("inDiscards", VInt 0); ("outDiscards", VInt 0)]);
                 ("Ethernet3", VDict [("inDiscards", VInt 0); ("outDiscards", VInt 1)])])].

(** Two port channels, the second with an inactive port. *)
Definition port_channels : PyVal :=
  VDict [("portChannels",
          VDict [("Port-Channel1", VDict [("inactivePorts", VDict [])]);
                 ("Port-Channel2",
                  VDict [("inactivePorts", VDict [("Ethernet8", VDict [])])])])].

(** The neighbors of two ports: the expected one on [Ethernet1], on
    [Ethernet2] another one before the expected one. *)
Definition lldp_entry (system_name interface_id : string) : PyVal :=
  VDict [("systemName", VStr system_name);
         ("neighborInterfaceInfo", VDict [("interfaceId_v2", VStr interface_id)])].

Definition lldp_neighbors : PyVal :=
  VDict [("lldpNeighbors",
          VDict [("Ethernet1",
                  VDict [("lldpNeighborInfo", VList [lldp_entry "DC1-SPINE1" "Ethernet1"])]);
                 ("Ethernet2",
                  VDict [("lldpNeighborInfo",
                          VList [lldp_entry "DC1-LEAF9" "Ethernet4";
                                 lldp_entry "DC1-SPINE2" "Ethernet1"])]);
                 ("Ethernet3", VDict [("lldpNeighborInfo", VList [])])])].

Definition expected_neighbors : list Neighbor :=
  [{| port := "Ethernet1"; neighbor_device := "DC1-SPINE1"; neighbor_port := "Ethernet1" |};
   {| port := "Ethernet2"; neighbor_device := "DC1-SPINE2"; neighbor_port := "Ethernet1" |};
   {| port := "Ethernet3"; neighbor_device := "DC1-SPINE3"; neighbor_port := "Ethernet1" |};
   {| port := "Ethernet4"; neighbor_device := "DC1-SPINE4"; neighbor_port := "Ethernet1" |}].

End PluginExamples.

(** * Properties *)

Local Open Scope list_scope.

(** ** Lists of computations that may raise *)

Section MapM.
Context {E A B : Type} (f : A -> result E B).

Lemma mapM_result_Ok (l : list A) (r : list B) :
  mapM f l = Ok r <-> Forall2 (fun a b => f a = Ok b) l r.
Proof.
  revert r. induction l as [|a l IH]; intros r; simpl.
  - split.
    + intros H. injection H as <-. constructor.
    + intros H. inversion H. reflexivity.
  - unfold mbind, result_bind, mret, result_ret.
    destruct (f a) as [b|e] eqn:Hfa.
    + fold (mapM f l). destruct (mapM f l) as [bs|e] eqn:Hl.
      * split.
        -- intros H. injection H as <-. constructor; [exact Hfa|]. apply IH. reflexivity.
        -- intros H. inversion H as [|? b' ? bs' Hb Hbs]; subst.
           rewrite Hfa in Hb. injection Hb as <-.
           apply IH in Hbs. injection Hbs as <-. reflexivity.
      * split; [discriminate|].
        intros H. inversion H as [|? b' ? bs' Hb Hbs]; subst.
        apply IH in Hbs. discriminate.
    + split; [discriminate|].
      intros H. inversion H as [|? b' ? bs' Hb Hbs]; subst.
      rewrite Hfa in Hb. discriminate.
Qed.

(** The first element that raises decides the outcome. *)
Lemma mapM_result_first_Err (before after : list A) (x : A) (bs : list B) (e : E) :
  mapM f before = Ok bs -> f x = Err e -> mapM f (before ++ x :: after) = Err e.
Proof.
  revert bs. induction before as [|a l IH]; intros bs Hb Hx; simpl.
  - unfold mbind, result_bind. rewrite Hx. reflexivity.
  - simpl in Hb. unfold mbind, result_bind, mret, result_ret in *.
    destruct (f a) as [b|e']; [|discriminate].
    fold (mapM f l) in Hb. fold (mapM f (l ++ x :: after)).
    destruct (mapM f l) as [bs'|e'] eqn:Hl; [|discriminate].
    rewrite (IH bs' eq_refl Hx). reflexivity.
Qed.

(** One element that raises is enough for the whole to raise. *)
Lemma mapM_result_Err (l : list A) (x : A) (e : E) :
  x ∈ l -> f x = Err e -> exists e', mapM f l = Err e'.
Proof.
  intros Hin Hx. destruct (mapM f l) as [r|e'] eqn:Hl; [|eauto].
  apply mapM_result_Ok in Hl.
  apply list_elem_of_lookup in Hin as [i Hi].
  destruct (Forall2_lookup_l _ _ _ i x Hl Hi) as (b & _ & Hb).
  congruence.
Qed.

End MapM.

(** ** The catalog *)

Module CatalogSpec.
Import Catalog Examples.

(** *** Tag filtering *)

(** What the strict filter computes: the declared tags are not empty and
    each of them is among the requested ones. *)
Lemma matches_tags_strict (tags : list string) (t : AntaTestDefinition) :
  matches_tags tags true t = true <->
  exists f, inst_filters (inputs t) = Some {| Models.tags := Some f |}
            /\ f <> [] /\ forall x, x ∈ f -> x ∈ tags.
Proof.
  unfold matches_tags.
  destruct (inst_filters (inputs t)) as [[[[|x f]|]]|]; simpl.
  - split; [discriminate|]. intros (f & Hf & Hne & _). injection Hf as <-. congruence.
  - rewrite andb_true_iff, bool_decide_eq_true, forallb_forall. split.
    + intros [Hx Hf]. exists (x :: f). split; [reflexivity|]. split; [discriminate|].
      intros y Hy. apply elem_of_cons in Hy as [->|Hy]; [exact Hx|].
      apply list_elem_of_In in Hy. apply Hf in Hy.
      apply bool_decide_eq_true in Hy. exact Hy.
    + intros (f' & Hf' & _ & Hall). injection Hf' as <-. split.
      * apply Hall. left.
      * intros y Hy. apply bool_decide_eq_true. apply Hall. right.
        apply list_elem_of_In. exact Hy.
  - split; [discriminate|]. intros (f & Hf & _). discriminate.
  - split; [discriminate|]. intros (f & Hf & _). discriminate.
Qed.

(** What the other filter computes: one of the declared tags is among the
    requested ones. *)
Lemma matches_tags_any (tags : list string) (t : AntaTestDefinition) :
  matches_tags tags false t = true <->
  exists f x, inst_filters (inputs t) = Some {| Models.tags := Some f |}
              /\ x ∈ f /\ x ∈ tags.
Proof.
  unfold matches_tags.
  destruct (inst_filters (inputs t)) as [[[[|x f]|]]|]; simpl.
  - split; [discriminate|]. intros (f & y & Hf & Hy & _). injection Hf as <-.
    inversion Hy.
  - rewrite orb_true_iff, bool_decide_eq_true, existsb_exists. split.
    + intros [Hx|(y & Hy & Hdec)].
      * exists (x :: f), x. split; [reflexivity|]. split; [left|exact Hx].
      * exists (x :: f), y. split; [reflexivity|]. split.
        -- right. apply list_elem_of_In. exact Hy.
        -- apply bool_decide_eq_true in Hdec. exact Hdec.
    + intros (f' & y & Hf' & Hy & Hin). injection Hf' as <-.
      apply elem_of_cons in Hy as [->|Hy]; [left; exact Hin|].
      right. exists y. split; [apply list_elem_of_In; exact Hy|].
      apply bool_decide_eq_true. exact Hin.
  - split; [discriminate|]. intros (f & y & Hf & _). discriminate.
  - split; [discriminate|]. intros (f & y & Hf & _). discriminate.
Qed.

(** The example of the specification: a definition tagged dc1, dc2 and the
    filter dc1, dc3. *)
Example tagged_dc1_dc2_filter_dc1_dc3 :
  get_tests_by_tags (catalog_of [tagged ["dc1"; "dc2"]]) ["dc1"; "dc3"] true = []
  /\ get_tests_by_tags (catalog_of [tagged ["dc1"; "dc2"]]) ["dc1"; "dc3"] false
     = [tagged ["dc1"; "dc2"]].
Proof. split; reflexivity. Qed.

(** C1, on the code: the strict filter does not return the definitions whose
    declared tags contain every requested tag. A definition tagged dc1, dc2
    contains the only requested tag dc1 and is left out; a definition tagged
    dc1 does not contain the requested tag dc3 and is returned. *)
Theorem get_tests_by_tags_strict_is_not_superset :
  get_tests_by_tags (catalog_of [tagged ["dc1"; "dc2"]]) ["dc1"] true = []
  /\ get_tests_by_tags (catalog_of [tagged ["dc1"]]) ["dc1"; "dc3"] true = [tagged ["dc1"]].
Proof. split; reflexivity. Qed.

(** *** The tests setter *)

Lemma check_elements_not_definition (l : list PyObject) (x : PyObject) :
  x ∈ l -> (forall t, x <> OTestDefinition t) ->
  check_elements l = Err (TypeError MsgMustBeTestDefinition).
Proof.
  intros Hin Hx. induction l as [|y l IH]; [inversion Hin|].
  apply elem_of_cons in Hin as [<-|Hin].
  - simpl. destruct x; [exfalso; eapply Hx; reflexivity| |]; reflexivity.
  - simpl. destruct y; try reflexivity.
    rewrite (IH Hin). reflexivity.
Qed.

(** C10: when the new value is not a list, or one of its elements is not a
    test definition, the setter raises a TypeError and the catalog is the
    one it was before the call. *)
Theorem tests_setter_atomic (self : AntaCatalog) (value : PyObject) :
  ((forall l, value <> OList l)
   \/ exists l x, value = OList l /\ x ∈ l /\ forall t, x <> OTestDefinition t) ->
  exists m, tests_setter self value = (Err (TypeError m), self).
Proof.
  intros [Hnot|(l & x & -> & Hin & Hx)].
  - destruct value as [t|l|r]; simpl; eauto.
    exfalso. eapply Hnot. reflexivity.
  - simpl. rewrite (check_elements_not_definition l x Hin Hx). eauto.
Qed.

Lemma tests_setter_atomic_witness :
  exists m, tests_setter (catalog_of [tagged ["dc1"]])
              (OList [OTestDefinition (tagged ["dc2"]); OOther "5"])
            = (Err (TypeError m), catalog_of [tagged ["dc1"]]).
Proof.
  apply tests_setter_atomic. right.
  exists [OTestDefinition (tagged ["dc2"]); OOther "5"], (OOther "5").
  split; [reflexivity|]. split; [|discriminate].
  right. left.
Defined.

(** When every element is a test definition the list is replaced. *)
Lemma tests_setter_replaces (self : AntaCatalog) (ts : list AntaTestDefinition) :
  tests_setter self (OList (map OTestDefinition ts))
  = (Ok (), {| _tests := ts; _filename := _filename self |}).
Proof.
  simpl. assert (check_elements (map OTestDefinition ts) = Ok ts) as ->; [|reflexivity].
  induction ts as [|t ts IH]; [reflexivity|]. simpl. rewrite IH. reflexivity.
Qed.


(** *** Input binding *)

Lemma Input_new_type (c : InputClass) (data : list (string * PyVal)) (i : InputInstance) :
  Input_new c data = Ok i -> inst_mro i = mro c.
Proof.
  unfold Input_new. intros H.
  destruct (_ ++ _)%list; destruct (validate_filters data); try discriminate.
  injection H as <-. reflexivity.
Qed.

Lemma isinstance_own_class (c : InputClass) (i : InputInstance) :
  inst_mro i = mro c -> isinstance i (qualname c) = true.
Proof.
  intros H. unfold isinstance. rewrite H. apply bool_decide_eq_true. left.
Qed.

Lemma isinstance_base_class (c : InputClass) (i : InputInstance) :
  inst_mro i = mro c -> isinstance i AntaTest_Input = true.
Proof.
  intros H. unfold isinstance. rewrite H. apply bool_decide_eq_true.
  unfold mro. right. apply elem_of_app. right. left.
Qed.

(** What the before validator returns: the object it was given, or a new
    object of the declared input type. *)
Lemma instantiate_inputs_Ok (t : PyObj) (data : InputsData) (i : InputInstance) :
  instantiate_inputs t data = Ok i ->
  exists c, t = ObjTest c
    /\ ((data = DInstance i /\ isinstance i AntaTest_Input = true)
        \/ (exists v, data = DValue v) /\ inst_mro i = mro (Input c)).
Proof.
  unfold instantiate_inputs. intros H.
  destruct t as [c|r]; [|discriminate]. exists c. split; [reflexivity|].
  destruct data as [i'|v].
  - destruct (isinstance i' AntaTest_Input) eqn:Hi; [|discriminate].
    injection H as <-. left. auto.
  - right. split; [eauto|].
    destruct v; try discriminate.
    + destruct (Input_new (Input c) []) as [i'|e] eqn:Hn.
      * injection H as <-. eapply Input_new_type, Hn.
      * destruct (is_ValidationError e); discriminate.
    + destruct (Input_new (Input c) d) as [i'|e] eqn:Hn.
      * injection H as <-. eapply Input_new_type, Hn.
      * destruct (is_ValidationError e); discriminate.
Qed.

(** The construction succeeds only through the after validator. *)
Lemma AntaTestDefinition_init_Ok (t : PyObj) (data : InputsData) (d : AntaTestDefinition) :
  AntaTestDefinition_init t data = Ok d ->
  t = ObjTest (test d)
  /\ instantiate_inputs t data = Ok (inputs d)
  /\ check_inputs d = Ok d.
Proof.
  unfold AntaTestDefinition_init. intros H.
  destruct (instantiate_inputs t data) as [i|e] eqn:Hi.
  2:{ destruct (is_ValueError e); discriminate. }
  destruct t as [c|r].
  - simpl in H. destruct (isinstance i AntaTest_Input); [|discriminate].
    simpl in H. unfold in_validator in H.
    destruct (check_inputs {| test := c; inputs := i |}) as [d'|e] eqn:Hc.
    + injection H as <-.
      assert (d' = {| test := c; inputs := i |}) as ->.
      { unfold check_inputs in Hc. destruct (negb _); [discriminate|].
        injection Hc as <-. reflexivity. }
      auto.
    + destruct e; discriminate.
  - simpl in Hi. discriminate.
Qed.

(** C2, as the code has it: the bound object is an instance of the input
    type its test declares, that type or one that derives from it; the after
    validator [check_inputs] decides it. An object built from raw data has
    exactly the declared type; an object passed in is kept as it is. *)
Theorem inputs_instance_of_declared_type
    (t : PyObj) (data : InputsData) (d : AntaTestDefinition) :
  AntaTestDefinition_init t data = Ok d ->
  t = ObjTest (test d)
  /\ check_inputs d = Ok d
  /\ isinstance (inputs d) (qualname (Input (test d))) = true
  /\ (forall v, data = DValue v -> type_of (inputs d) = qualname (Input (test d)))
  /\ (forall i, data = DInstance i -> inputs d = i).
Proof.
  intros H. apply AntaTestDefinition_init_Ok in H as (Ht & Hi & Hc).
  split; [exact Ht|]. split; [exact Hc|]. split.
  - unfold check_inputs in Hc.
    destruct (isinstance (inputs d) (qualname (Input (test d)))); [reflexivity|discriminate].
  - apply instantiate_inputs_Ok in Hi as (c & Hc' & Hcase).
    rewrite Ht in Hc'. injection Hc' as <-.
    destruct Hcase as [[-> _]|[[v ->] Hmro]]; split.
    + intros v Hv. discriminate.
    + intros i Hi. injection Hi as <-. reflexivity.
    + intros v' _. unfold type_of. rewrite Hmro. reflexivity.
    + intros i Hi. discriminate.
Qed.

Lemma inputs_instance_of_declared_type_witness :
  ObjTest VerifyCount = ObjTest VerifyCount
  /\ isinstance count_one_inputs (qualname (Input VerifyCount)) = true.
Proof.
  pose proof (inputs_instance_of_declared_type (ObjTest VerifyCount)
                (DInstance count_one_inputs)
                {| test := VerifyCount; inputs := count_one_inputs |} eq_refl)
    as (H1 & _ & H2 & _).
  exact (conj H1 H2).
Defined.

(** The claim of C2 fails on the code: [VerifyCount] is given an object of
    type [VerifyCountOne.Input], a class that derives from
    [VerifyCount.Input]; the definition is constructed, and the type of its
    inputs is not the type [VerifyCount] declares. *)
Lemma inputs_type_not_exactly_declared :
  exists d,
    AntaTestDefinition_init (ObjTest VerifyCount) (DInstance count_one_inputs) = Ok d
    /\ test d = VerifyCount
    /\ type_of (inputs d) = "VerifyCountOne.Input"
    /\ qualname (Input (test d)) = "VerifyCount.Input"
    /\ type_of (inputs d) <> qualname (Input (test d)).
Proof.
  exists {| test := VerifyCount; inputs := count_one_inputs |}.
  repeat split. discriminate.
Qed.

Lemma lefts_no_data (fields : list Field) :
  lefts (map (validate_field []) fields)
  = map (fun f => missing [fname f]) (List.filter (fun f => negb (has_default f)) fields).
Proof.
  induction fields as [|f fields IH]; [reflexivity|].
  simpl. unfold validate_field at 1, has_default at 1. simpl.
  destruct (fdefault f); simpl; unfold lefts in *; rewrite IH; reflexivity.
Qed.

Lemma rights_no_data (fields : list Field) :
  Forall (fun f => is_Some (fdefault f)) fields ->
  Forall2 (fun f kv => fst kv = fname f /\ fdefault f = Some (snd kv))
    fields (rights (map (validate_field []) fields)).
Proof.
  induction 1 as [|f fields [v Hv] _ IH]; [constructor|].
  simpl. unfold validate_field at 1. simpl. rewrite Hv. simpl.
  constructor; [auto|exact IH].
Qed.

Lemma required_fields_nil (c : InputClass) :
  required_fields c = [] <-> Forall (fun f => is_Some (fdefault f)) (model_fields c).
Proof.
  unfold required_fields. induction (model_fields c) as [|f fields IH]; simpl.
  - split; [constructor|reflexivity].
  - unfold has_default at 1. destruct (fdefault f) as [v|] eqn:Hf; simpl.
    + rewrite IH. split.
      * intros H. constructor; [rewrite Hf; eauto|exact H].
      * intros H. inversion H. assumption.
    + split; [discriminate|]. intros H. inversion H as [|? ? [v Hv]]. congruence.
Qed.

(** The model built without data. *)
Lemma Input_new_no_data (c : InputClass) :
  Input_new c [] =
  match required_fields c with
  | [] => Ok {| inst_mro := mro c; inst_filters := None;
                inst_values := rights (map (validate_field []) (model_fields c)) |}
  | _ :: _ => Err (ValidationError (qualname c)
                     (map (fun f => missing [fname f]) (required_fields c)))
  end.
Proof.
  unfold Input_new, required_fields. simpl. rewrite app_nil_r, lefts_no_data.
  destruct (List.filter _ _); reflexivity.
Qed.

(** C6: a null raw input binds if and only if every field of the input model
    of the test has a default; otherwise the binding fails with the
    validation error of the definition, which carries the custom error of
    the test with one [missing] entry per field without default, and there
    is at least one; when it binds, the object has the declared type, no
    filters, and the default of each field as its value. *)
Theorem bind_null_inputs (t : AntaTest) :
  let r := AntaTestDefinition_init (ObjTest t) (DValue VNone) in
  (is_ok r = true <-> Forall (fun f => is_Some (fdefault f)) (model_fields (Input t)))
  /\ (required_fields (Input t) <> [] ->
      r = Err (ValidationError "AntaTestDefinition"
                 [raised ["inputs"]
                    (PydanticCustomError "wrong_test_inputs" (name t)
                       (map (fun f => missing [fname f]) (required_fields (Input t))))])
      /\ exists f, f ∈ model_fields (Input t) /\ fdefault f = None
                   /\ missing [fname f]
                      ∈ map (fun f => missing [fname f]) (required_fields (Input t)))
  /\ (forall d, r = Ok d ->
      test d = t
      /\ inst_mro (inputs d) = mro (Input t)
      /\ inst_filters (inputs d) = None
      /\ Forall2 (fun f kv => fst kv = fname f /\ fdefault f = Some (snd kv))
           (model_fields (Input t)) (inst_values (inputs d))).
Proof.
  intros r.
  assert (Hr : r = match required_fields (Input t) with
                   | [] => Ok {| test := t;
                                 inputs := {| inst_mro := mro (Input t); inst_filters := None;
                                              inst_values := rights (map (validate_field [])
                                                                       (model_fields (Input t))) |} |}
                   | _ :: _ => Err (ValidationError "AntaTestDefinition"
                       [raised ["inputs"]
                          (PydanticCustomError "wrong_test_inputs" (name t)
                             (map (fun f => missing [fname f]) (required_fields (Input t))))])
                   end).
  { subst r. unfold AntaTestDefinition_init, instantiate_inputs.
    rewrite Input_new_no_data.
    destruct (required_fields (Input t)) as [|f fs] eqn:Hreq; [|reflexivity].
    cbn -[mro]. 
    rewrite (isinstance_base_class (Input t)) by reflexivity. cbn -[mro].
    unfold check_inputs. cbn -[mro isinstance].
    rewrite (isinstance_own_class (Input t)) by reflexivity. reflexivity. }
  split; [|split].
  - rewrite <- required_fields_nil, Hr.
    destruct (required_fields (Input t)); simpl; split; congruence.
  - intros Hne. split.
    + rewrite Hr. destruct (required_fields (Input t)); [congruence|reflexivity].
    + destruct (required_fields (Input t)) as [|f fs] eqn:Hreq; [congruence|].
      exists f. assert (Hin : f ∈ required_fields (Input t)) by (rewrite Hreq; left).
      unfold required_fields in Hin. apply list_elem_of_In, filter_In in Hin as [Hin Hd].
      split; [apply list_elem_of_In; exact Hin|]. split.
      * unfold has_default in Hd. destruct (fdefault f); [discriminate|reflexivity].
      * left.
  - intros d Hd. rewrite Hr in Hd.
    destruct (required_fields (Input t)) eqn:Hreq; [|discriminate].
    injection Hd as <-. simpl. repeat split.
    apply rights_no_data, required_fields_nil, Hreq.
Qed.

Lemma bind_null_inputs_witness :
  AntaTestDefinition_init (ObjTest VerifyCount) (DValue VNone)
  = Err (ValidationError "AntaTestDefinition"
           [raised ["inputs"]
              (PydanticCustomError "wrong_test_inputs" "VerifyCount" [missing ["number"]])]).
Proof.
  pose proof (bind_null_inputs VerifyCount) as (_ & H & _).
  apply H. discriminate.
Defined.

(** *** Loading *)

Lemma dict_get_filter_root {V} (d : list (string * V)) :
  dict_get "root" d = None -> filter (fun kv => fst kv ≠ "root") d = d.
Proof.
  induction d as [|[k v] d IH]; [reflexivity|].
  cbn [dict_get]. destruct (String.eqb "root" k) eqn:Hk; [discriminate|].
  apply String.eqb_neq in Hk.
  intros H. rewrite filter_cons_True by (simpl; congruence).
  rewrite (IH H). reflexivity.
Qed.

(** A document without the key [root] is validated whole. *)
Lemma root_argument_plain (d : list (string * PyVal)) :
  dict_get "root" d = None -> d <> [] -> root_argument d = Ok (Some (VDict d)).
Proof.
  intros Hroot Hne. unfold root_argument.
  rewrite Hroot, (dict_get_filter_root d Hroot).
  destruct d; [congruence|reflexivity].
Qed.

Lemma relocate_root (errors : list LineError) : map (relocate []) errors = errors.
Proof.
  induction errors as [|error errors IH]; [reflexivity|].
  simpl. rewrite IH. destruct error; reflexivity.
Qed.

Lemma from_dict_check_tests_Err (importable : gmap string Module)
    (d : list (string * PyVal)) (v : PyVal) (filename : option string) (e : Exc) :
  root_argument d = Ok (Some v) ->
  check_tests importable v = Err e ->
  from_dict importable (VDict d) filename
  = Err (match e with
         | ValidationError _ errors => ValidationError "AntaCatalogFile" errors
         | _ => if is_ValueError e then ValidationError "AntaCatalogFile" [raised [] e] else e
         end).
Proof.
  intros Hroot He. unfold from_dict, AntaCatalogFile_init.
  rewrite Hroot. simpl. rewrite He. simpl.
  destruct e; try reflexivity. simpl. rewrite relocate_root. reflexivity.
Qed.

(** An entry of the flattened document that does not validate makes
    [check_tests] raise. *)
Lemma check_tests_entry_Err (importable : gmap string Module)
    (d : list (string * PyVal)) (typed : list (Module * list PyVal))
    (module : Module) (tests : list PyVal) (entry : PyVal) (e : Exc) :
  flatten_modules importable d None = Ok typed ->
  (module, tests) ∈ typed -> entry ∈ tests ->
  check_test_definition module entry = Err e ->
  exists e', check_tests importable (VDict d) = Err e'.
Proof.
  intros Hflat Hm Hentry He. unfold check_tests. rewrite Hflat. simpl.
  destruct (mapM_result_Err (check_test_definition module) tests entry e Hentry He)
    as [e1 He1].
  eapply mapM_result_Err with (x := (module, tests)); [exact Hm|].
  simpl. rewrite He1. reflexivity.
Qed.

(** C5: loading is all or nothing. From a list of pairs, from a raw
    dictionary ([doc] being what is validated for it, the dictionary itself
    unless it has the key [root]) and from a document, a declaration whose
    binding fails makes the load raise; the outcome is then an exception and
    no catalog. *)
Theorem catalog_loading_atomic :
  (forall (data : list (PyObj * InputsData)) (t : PyObj) (raw : InputsData) (e : Exc),
      (t, raw) ∈ data ->
      AntaTestDefinition_init t raw = Err e ->
      exists e', from_list data = Err e')
  /\ (forall (importable : gmap string Module) (d doc : list (string * PyVal))
        (filename : option string) (typed : list (Module * list PyVal))
        (module : Module) (tests : list PyVal)
        (test_name : string) (raw : PyVal) (t : PyObj) (e : Exc),
      root_argument d = Ok (Some (VDict doc)) ->
      flatten_modules importable doc None = Ok typed ->
      (module, tests) ∈ typed ->
      VDict [(test_name, raw)] ∈ tests ->
      members module !! test_name = Some t ->
      AntaTestDefinition_init t (DValue raw) = Err e ->
      exists e', from_dict importable (VDict d) filename = Err e')
  /\ (forall (importable : gmap string Module) (safe_load : string -> result Exc PyVal)
        (filename : string) (e : Exc),
      (safe_load filename = Err e
       \/ exists data, safe_load filename = Ok data
                       /\ from_dict importable data (Some filename) = Err e) ->
      parse importable safe_load filename = Err e).
Proof.
  split; [|split].
  - intros data t raw e Hin He. unfold from_list.
    destruct (mapM_result_Err
                (fun item : PyObj * InputsData =>
                   let (test, inputs) := item in AntaTestDefinition_init test inputs)
                data (t, raw) e Hin He) as [e' He'].
    rewrite He'. eauto.
  - intros importable d doc filename typed module tests test_name raw t e
      Hroot Hflat Hm Hentry Hget He.
    destruct (check_tests_entry_Err importable doc typed module tests
                (VDict [(test_name, raw)]) e Hflat Hm Hentry) as [e1 He1].
    { simpl. rewrite Hget. unfold mbind, result_bind. rewrite He. reflexivity. }
    rewrite (from_dict_check_tests_Err importable d _ filename e1 Hroot He1). eauto.
  - intros importable safe_load filename e [H|(data & H & Hd)]; unfold parse; rewrite H.
    + reflexivity.
    + exact Hd.
Qed.

(** The second declaration of each source does not bind; the first does. *)
Lemma catalog_loading_atomic_witness :
  (exists e', from_list [(ObjTest VerifyCountOne, DValue VNone);
                         (ObjTest VerifyCount, DValue VNone)] = Err e')
  /\ (exists e', from_dict modules (VDict unbound_document) None = Err e')
  /\ parse modules one_file "missing.yml" = Err (OSError "No such file or directory").
Proof.
  pose proof catalog_loading_atomic as (Hlist & Hdict & Hparse).
  split; [|split].
  - eapply (Hlist _ (ObjTest VerifyCount) (DValue VNone)).
    + right. left.
    + reflexivity.
  - eapply (Hdict modules unbound_document unbound_document None _ module_pkg_tests _
              "VerifyCount" VNone (ObjTest VerifyCount)).
    + reflexivity.
    + reflexivity.
    + left.
    + right. left.
    + reflexivity.
    + reflexivity.
  - apply Hparse. left. reflexivity.
Defined.

(** When every declaration binds, the catalog holds the definitions in the
    order of the list. *)
Lemma from_list_Ok (data : list (PyObj * InputsData)) (c : AntaCatalog) :
  from_list data = Ok c ->
  Forall2 (fun item d => AntaTestDefinition_init (fst item) (snd item) = Ok d)
    data (tests c).
Proof.
  unfold from_list. intros H.
  destruct (mapM _ data) as [ts|e] eqn:Hm; [|discriminate].
  injection H as <-. apply mapM_result_Ok in Hm. simpl.
  eapply Forall2_impl; [exact Hm|]. intros [t i] d Hd. exact Hd.
Qed.

(** *** The shape of the leaf entries *)

Lemma check_test_definition_malformed (module : Module) (entry : PyVal) :
  malformed_entry entry = true ->
  check_test_definition module entry = Err (ValueError (syntax_error_of entry)).
Proof.
  destruct entry as [| | | | |d]; try reflexivity.
  destruct d as [|kv [|kv' d]]; simpl; [reflexivity|discriminate|reflexivity].
Qed.

(** The entries of the flattened document are checked in order: the first
    one that raises decides the exception. *)
Lemma check_tests_first_Err (importable : gmap string Module)
    (d : list (string * PyVal))
    (checked rest : list (Module * list PyVal)) (module : Module)
    (before after : list PyVal) (entry : PyVal) (e : Exc) :
  flatten_modules importable d None
  = Ok (checked ++ (module, before ++ entry :: after) :: rest) ->
  Forall (fun mt => is_ok (mapM (check_test_definition (fst mt)) (snd mt)) = true) checked ->
  is_ok (mapM (check_test_definition module) before) = true ->
  check_test_definition module entry = Err e ->
  check_tests importable (VDict d) = Err e.
Proof.
  intros Hflat Hchecked Hbefore He. unfold check_tests. rewrite Hflat. simpl.
  assert (Hpre : exists bs,
             mapM (fun entry : Module * list PyVal =>
                     let (module, tests) := entry in
                     test_definitions ← mapM (check_test_definition module) tests;
                     Ok (module, concat test_definitions)) checked = Ok bs).
  { clear -Hchecked. induction Hchecked as [|[m ts] l Hm _ [bs IH]].
    - exists []. reflexivity.
    - simpl in Hm. destruct (mapM (check_test_definition m) ts) as [tds|] eqn:Hts;
        [|discriminate].
      exists ((m, concat tds) :: bs). simpl. rewrite Hts. simpl. 
      unfold mbind, result_bind in *. rewrite IH. reflexivity. }
  destruct Hpre as [bs Hbs].
  eapply mapM_result_first_Err; [exact Hbs|].
  destruct (mapM (check_test_definition module) before) as [tds|] eqn:Hb; [|discriminate].
  rewrite (mapM_result_first_Err (check_test_definition module) before after entry tds e Hb He).
  reflexivity.
Qed.

(** C7, as the code has it: in a document whose namespaces resolve, an entry
    of a flattened leaf that is not a mapping, or is a mapping without
    exactly one key, makes the load raise, and no catalog comes out of it;
    the exception is the syntax error with that entry when everything
    checked before it validates; the document of the specification with two
    keys in one entry fails this way. *)
Theorem malformed_leaf_entry_fails_load :
  (forall (importable : gmap string Module) (d doc : list (string * PyVal))
      (filename : option string) (typed : list (Module * list PyVal))
      (module : Module) (tests : list PyVal) (entry : PyVal),
      root_argument d = Ok (Some (VDict doc)) ->
      flatten_modules importable doc None = Ok typed ->
      (module, tests) ∈ typed -> entry ∈ tests ->
      malformed_entry entry = true ->
      exists e, from_dict importable (VDict d) filename = Err e)
  /\ (forall (importable : gmap string Module) (d doc : list (string * PyVal))
        (filename : option string)
        (checked rest : list (Module * list PyVal)) (module : Module)
        (before after : list PyVal) (entry : PyVal),
      root_argument d = Ok (Some (VDict doc)) ->
      flatten_modules importable doc None
      = Ok (checked ++ (module, before ++ entry :: after) :: rest) ->
      Forall (fun mt => is_ok (mapM (check_test_definition (fst mt)) (snd mt)) = true)
        checked ->
      is_ok (mapM (check_test_definition module) before) = true ->
      malformed_entry entry = true ->
      from_dict importable (VDict d) filename
      = Err (ValidationError "AntaCatalogFile"
               [raised [] (ValueError (syntax_error_of entry))]))
  /\ (forall (importable : gmap string Module) (filename : option string) (m : Module),
      importable !! "pkg.tests" = Some m ->
      from_dict importable (VDict two_keys_document) filename
      = Err (ValidationError "AntaCatalogFile"
               [raised [] (ValueError
                  (MsgNotSingleEntry (VDict [("TestX", VNone); ("TestY", VNone)])))])).
Proof.
  assert (Hsecond : forall (importable : gmap string Module) (d doc : list (string * PyVal))
        (filename : option string)
        (checked rest : list (Module * list PyVal)) (module : Module)
        (before after : list PyVal) (entry : PyVal),
      root_argument d = Ok (Some (VDict doc)) ->
      flatten_modules importable doc None
      = Ok (checked ++ (module, before ++ entry :: after) :: rest) ->
      Forall (fun mt => is_ok (mapM (check_test_definition (fst mt)) (snd mt)) = true)
        checked ->
      is_ok (mapM (check_test_definition module) before) = true ->
      malformed_entry entry = true ->
      from_dict importable (VDict d) filename
      = Err (ValidationError "AntaCatalogFile"
               [raised [] (ValueError (syntax_error_of entry))])).
  { intros importable d doc filename checked rest module before after entry
      Hroot Hflat Hchecked Hbefore Hbad.
    rewrite (from_dict_check_tests_Err importable d (VDict doc) filename
               (ValueError (syntax_error_of entry)) Hroot); [reflexivity|].
    eapply check_tests_first_Err; eauto using check_test_definition_malformed. }
  split; [|split].
  - intros importable d doc filename typed module tests entry Hroot Hflat Hm Hentry Hbad.
    destruct (check_tests_entry_Err importable doc typed module tests entry _
                Hflat Hm Hentry (check_test_definition_malformed module entry Hbad))
      as [e He].
    rewrite (from_dict_check_tests_Err importable d _ filename e Hroot He). eauto.
  - exact Hsecond.
  - intros importable filename m Hm.
    apply (Hsecond importable two_keys_document two_keys_document filename [] [] m [] []
             (VDict [("TestX", VNone); ("TestY", VNone)])).
    + reflexivity.
    + unfold flatten_modules, two_keys_document, flatten, flatten_loop.
      cbn -[lookup]. unfold find_and_load. rewrite Hm. reflexivity.
    + constructor.
    + reflexivity.
    + reflexivity.
Qed.

Lemma malformed_leaf_entry_fails_load_witness :
  (exists e, from_dict modules (VDict late_fragment_document) None = Err e)
  /\ from_dict modules (VDict two_keys_document) None
     = Err (ValidationError "AntaCatalogFile"
              [raised [] (ValueError
                 (MsgNotSingleEntry (VDict [("TestX", VNone); ("TestY", VNone)])))])
  /\ from_dict modules
       (VDict [("pkg.tests", VList [VDict [("TestX", VNone)]; VInt 5])]) None
     = Err (ValidationError "AntaCatalogFile" [raised [] (ValueError (MsgNotADict (VInt 5)))]).
Proof.
  pose proof malformed_leaf_entry_fails_load as (Hany & Hfirst & Htwo).
  split; [|split].
  - eapply (Hany modules late_fragment_document late_fragment_document None _
              module_pkg_tests _ (VInt 5)).
    + reflexivity.
    + reflexivity.
    + left.
    + right. left.
    + reflexivity.
  - apply (Htwo modules None module_pkg_tests). reflexivity.
  - apply (Hfirst modules _ [("pkg.tests", VList [VDict [("TestX", VNone)]; VInt 5])]
             None [] [] module_pkg_tests [VDict [("TestX", VNone)]] [] (VInt 5)).
    + reflexivity.
    + reflexivity.
    + constructor.
    + reflexivity.
    + reflexivity.
Defined.

(** The claim of C7 fails on the code in two ways. An entry that is not a
    mapping sits in a leaf that a later key of the document, resolving to the
    same module, replaces: the load returns a catalog. An entry that is not a
    mapping follows an entry that already fails: the exception names the
    other entry and is not a syntax error. *)
Lemma malformed_leaf_entry_counterexample :
  from_dict modules (VDict shadowed_leaf_document) None
  = Ok {| _tests := [{| test := TestX;
                        inputs := {| inst_mro := mro (Input TestX);
                                     inst_filters := None; inst_values := [] |} |}];
          _filename := None |}
  /\ from_dict modules (VDict late_fragment_document) None
     = Err (ValidationError "AntaCatalogFile"
              [raised [] (ValueError
                 (MsgTestNotDefined "Missing" "pkg.tests" (Some "pkg/tests.py")))]).
Proof. split; reflexivity. Qed.

(** *** Namespaces *)

(** Induction on a value with the values nested in it. *)
Lemma PyVal_nested_ind (P : PyVal -> Prop) :
  P VNone -> (forall b, P (VBool b)) -> (forall n, P (VInt n)) -> (forall s, P (VStr s)) ->
  (forall l, Forall P l -> P (VList l)) ->
  (forall d, Forall (fun kv => P (snd kv)) d -> P (VDict d)) ->
  forall v, P v.
Proof.
  intros HNone HBool HInt HStr HList HDict.
  exact (fix go (v : PyVal) : P v :=
           match v with
           | VNone => HNone
           | VBool b => HBool b
           | VInt n => HInt n
           | VStr s => HStr s
           | VList l =>
               HList l ((fix all (l : list PyVal) : Forall P l :=
                           match l with
                           | [] => @List.Forall_nil _ P
                           | x :: xs => @List.Forall_cons _ P x xs (go x) (all xs)
                           end) l)
           | VDict d =>
               HDict d ((fix all (d : list (string * PyVal))
                           : Forall (fun kv => P (snd kv)) d :=
                           match d with
                           | [] => @List.Forall_nil _ _
                           | (k, x) :: xs =>
                               @List.Forall_cons _ (fun kv => P (snd kv)) (k, x) xs (go x) (all xs)
                           end) d)
           end).
Qed.

Lemma count_leading_dots_none (n : string) :
  startswith_dot n = false -> count_leading_dots n = 0.
Proof. destruct n as [|c n]; simpl; [reflexivity|]. intros ->. reflexivity. Qed.

(** Under a package, a key without a leading dot and the same key with one
    are imported alike: as the module of that name inside the package. *)
Lemma import_nested (importable : gmap string Module) (package key : string) :
  package <> "" -> key <> "" -> startswith_dot key = false ->
  import_module importable (import_name (Some package) key) (Some package)
  = find_and_load importable (package ++ "." ++ key)%string
  /\ import_module importable (import_name (Some package) ("." ++ key)%string) (Some package)
     = find_and_load importable (package ++ "." ++ key)%string.
Proof.
  intros Hp Hk Hdot.
  assert (H : import_module importable ("." ++ key)%string (Some package)
              = find_and_load importable (package ++ "." ++ key)%string).
  { unfold import_module. destruct package as [|c p]; [congruence|].
    change ("." ++ key)%string with (String "."%char key).
    cbn [startswith_dot count_leading_dots string_drop].
    replace (Ascii.eqb "." ".") with true by reflexivity.
    rewrite (count_leading_dots_none key Hdot).
    unfold resolve_name. cbn [Nat.sub rsplit_base].
    destruct key; [congruence|]. reflexivity. }
  unfold import_name. destruct package as [|c p]; [congruence|].
  cbn [truthy andb]. rewrite Hdot.
  change (startswith_dot ("." ++ key)%string) with true. cbn [negb].
  split; exact H.
Qed.

(** At the top level a key is imported by its absolute name; one that
    begins with a dot cannot be. *)
Lemma import_top_level (importable : gmap string Module) (key : string) :
  import_module importable (import_name None key) None
  = if startswith_dot key then Err (TypeError (MsgRelativeImportWithoutPackage key))
    else find_and_load importable key.
Proof. unfold import_name, import_module. simpl. destruct (startswith_dot key); reflexivity. Qed.

Lemma flatten_loop_resolve (importable : gmap string Module)
    (package : option string) (items : list (string * PyVal)) :
  Forall (fun kv => forall p r, flatten importable (snd kv) p = Ok r ->
                                namespaces_resolve importable (snd kv) p = true) items ->
  forall modules r,
    flatten_loop importable (flatten importable) package items modules = Ok r ->
    resolve_loop importable (namespaces_resolve importable) package items = true.
Proof.
  induction 1 as [|[key tests] items Htests _ IH]; intros modules r Hr; [reflexivity|].
  cbn [flatten_loop resolve_loop] in *.
  destruct (import_module importable (import_name package key) package) as [m|e];
    [|discriminate].
  simpl in Htests. apply andb_true_iff.
  destruct tests as [| | | |l|d]; try discriminate.
  - split; [reflexivity|]. eapply IH, Hr.
  - destruct (flatten importable (VDict d) (Some (__name__ m))) as [inner|e] eqn:Hinner;
      [|discriminate].
    split; [eapply Htests, Hinner|]. eapply IH, Hr.
Qed.

(** A document that flattens has all its namespaces resolved. *)
Lemma flatten_resolve (importable : gmap string Module) (data : PyVal) :
  forall package r,
    flatten importable data package = Ok r ->
    namespaces_resolve importable data package = true.
Proof.
  induction data as [| | | | l _ | d IH] using PyVal_nested_ind; intros package r Hr;
    try reflexivity.
  cbn [flatten namespaces_resolve] in *. eapply flatten_loop_resolve; eauto.
Qed.

Lemma from_dict_Ok_flatten (importable : gmap string Module)
    (d : list (string * PyVal)) (filename : option string) (c : AntaCatalog) :
  from_dict importable (VDict d) filename = Ok c ->
  exists doc typed,
    root_argument d = Ok (Some (VDict doc))
    /\ flatten_modules importable doc None = Ok typed.
Proof.
  unfold from_dict, AntaCatalogFile_init. intros H.
  destruct (root_argument d) as [[v|]|e]; simpl in H; try discriminate.
  destruct v as [| | | | |doc]; try discriminate.
  exists doc. unfold check_tests in H.
  destruct (flatten_modules importable doc None) as [typed|e]; [eauto|].
  simpl in H. destruct e; discriminate.
Qed.

(** A name made of [n] separators and a rest that does not begin with
    one. *)
Local Abbreviation dotted n rest :=
  (string_of_list_ascii (repeat "."%char n) ++ rest)%string.

Lemma dotted_level (n : nat) (rest : string) :
  startswith_dot rest = false ->
  count_leading_dots (dotted n rest) = n /\ string_drop n (dotted n rest) = rest.
Proof.
  intros Hrest. induction n as [|n [IH1 IH2]]; simpl.
  - split; [apply count_leading_dots_none, Hrest|reflexivity].
  - rewrite IH1, IH2. auto.
Qed.

Lemma rsplit_dot_none (leaf : string) :
  "."%char ∉ list_ascii_of_string leaf -> rsplit_dot leaf = None.
Proof.
  induction leaf as [|c leaf IH]; [reflexivity|]. cbn [rsplit_dot list_ascii_of_string].
  intros Hc. rewrite IH by (intros Hin; apply Hc; right; exact Hin).
  destruct (Ascii.eqb_spec c "."%char) as [->|_]; [|reflexivity].
  exfalso. apply Hc. left.
Qed.

Lemma rsplit_dot_last (parent leaf : string) :
  "."%char ∉ list_ascii_of_string leaf ->
  rsplit_dot (parent ++ "." ++ leaf) = Some (parent, leaf).
Proof.
  intros Hleaf. induction parent as [|c parent IH].
  - change ("" ++ "." ++ leaf)%string with (String "."%char leaf). cbn [rsplit_dot].
    rewrite (rsplit_dot_none leaf Hleaf). reflexivity.
  - change (String c parent ++ "." ++ leaf)%string
      with (String c (parent ++ "." ++ leaf)%string).
    cbn [rsplit_dot]. rewrite IH. reflexivity.
Qed.

Lemma import_dotted (importable : gmap string Module) (package : string) (n : nat)
    (rest : string) :
  package <> "" -> startswith_dot rest = false ->
  import_module importable (import_name (Some package) (dotted n rest)) (Some package)
  = match rsplit_base (n - 1) package with
    | None => Err (ImportError MsgBeyondTopLevel)
    | Some base =>
        find_and_load importable
          match rest with
          | "" => base
          | _ => (base ++ "." ++ rest)%string
          end
    end.
Proof.
  intros Hp Hrest. destruct package as [|c p]; [congruence|].
  destruct n as [|n].
  - change (dotted 0 rest) with rest. unfold import_name. cbn [truthy andb].
    rewrite Hrest. cbn [negb]. unfold import_module.
    change ("." ++ rest)%string with (String "."%char rest).
    cbn [startswith_dot count_leading_dots string_drop].
    replace (Ascii.eqb "." ".") with true by reflexivity.
    rewrite (count_leading_dots_none rest Hrest).
    unfold resolve_name. cbn [Nat.sub rsplit_base]. reflexivity.
  - destruct (dotted_level (S n) rest Hrest) as [Hlevel Hdrop].
    assert (Hdot : startswith_dot (dotted (S n) rest) = true) by reflexivity.
    unfold import_name. rewrite Hdot. cbn [truthy andb negb].
    unfold import_module. rewrite Hdot, Hlevel, Hdrop.
    unfold resolve_name. cbn [Nat.sub]. rewrite Nat.sub_0_r.
    destruct (rsplit_base n (String c p)); reflexivity.
Qed.

(** C3, as the code has it: under a parent namespace a name with no
    leading separator or with one is resolved as the namespace of that name
    inside the parent (the separator is added when it is missing, and the
    empty name is the parent itself); each further leading separator goes
    one level up from the parent, and the name is refused when the parent
    has not that many levels. Only a top-level name without a leading
    separator is absolute; with one it is refused. A loaded catalog has
    every namespace of its document resolved, so an unresolved one leaves no
    catalog. *)
Theorem nested_namespace_resolution :
  (forall (importable : gmap string Module) (package : string) (n : nat) (rest : string),
      package <> "" -> startswith_dot rest = false ->
      import_module importable
        (import_name (Some package) (string_of_list_ascii (repeat "."%char n) ++ rest)%string)
        (Some package)
      = match rsplit_base (n - 1) package with
        | None => Err (ImportError MsgBeyondTopLevel)
        | Some base =>
            find_and_load importable
              match rest with
              | "" => base
              | _ => (base ++ "." ++ rest)%string
              end
        end)
  /\ (forall (package parent leaf : string) (k : nat),
      "."%char ∉ list_ascii_of_string leaf ->
      rsplit_base 0 package = Some package
      /\ rsplit_base (S k) (parent ++ "." ++ leaf) = rsplit_base k parent
      /\ rsplit_base (S k) leaf = None)
  /\ (forall (importable : gmap string Module) (key : string),
      import_module importable (import_name None key) None
      = if startswith_dot key then Err (TypeError (MsgRelativeImportWithoutPackage key))
        else find_and_load importable key)
  /\ (forall (importable : gmap string Module) (d : list (string * PyVal))
        (filename : option string) (c : AntaCatalog),
      from_dict importable (VDict d) filename = Ok c ->
      exists doc, root_argument d = Ok (Some (VDict doc))
                  /\ namespaces_resolve importable (VDict doc) None = true).
Proof.
  split; [|split; [|split]].
  - exact import_dotted.
  - intros package parent leaf k Hleaf. split; [reflexivity|]. split.
    + cbn [rsplit_base]. rewrite (rsplit_dot_last parent leaf Hleaf). reflexivity.
    + cbn [rsplit_base]. rewrite (rsplit_dot_none leaf Hleaf). reflexivity.
  - exact import_top_level.
  - intros importable d filename c Hc.
    destruct (from_dict_Ok_flatten importable d filename c Hc) as (doc & typed & Hroot & Ht).
    exists doc. split; [exact Hroot|]. eapply flatten_resolve. exact Ht.
Qed.

Lemma nested_namespace_resolution_witness :
  import_module modules (import_name (Some "pkg") "sub") (Some "pkg") = Ok module_pkg_sub
  /\ import_module modules (import_name (Some "pkg") ".sub") (Some "pkg") = Ok module_pkg_sub
  /\ import_module modules (import_name (Some "pkg.tests") "..sub") (Some "pkg.tests")
     = Ok module_pkg_sub
  /\ import_module modules (import_name (Some "pkg.tests") "...sub") (Some "pkg.tests")
     = Err (ImportError MsgBeyondTopLevel)
  /\ import_module modules (import_name None "sub") None = Ok module_sub
  /\ namespaces_resolve modules (VDict nested_document) None = true.
Proof.
  pose proof nested_namespace_resolution as (Hnested & _ & Htop & Hload).
  split; [|split; [|split; [|split; [|split]]]].
  - exact (eq_trans (Hnested modules "pkg" 0 "sub" ltac:(discriminate) eq_refl) eq_refl).
  - exact (eq_trans (Hnested modules "pkg" 1 "sub" ltac:(discriminate) eq_refl) eq_refl).
  - exact (eq_trans (Hnested modules "pkg.tests" 2 "sub" ltac:(discriminate) eq_refl) eq_refl).
  - exact (eq_trans (Hnested modules "pkg.tests" 3 "sub" ltac:(discriminate) eq_refl) eq_refl).
  - exact (eq_trans (Htop modules "sub") eq_refl).
  - destruct (Hload modules nested_document None _ eq_refl) as (doc & Hroot & Hres).
    injection Hroot as <-. exact Hres.
Defined.

(** The claim of C3 fails on the code: the key [sub] under [pkg] has no
    leading separator and there is a top-level module [sub], yet the key
    resolves to [pkg.sub]; when [pkg.sub] does not exist the document is
    refused although [sub] can be imported. *)
Lemma nested_name_is_not_absolute :
  find_and_load modules "sub" = Ok module_sub
  /\ flatten_modules modules nested_document None
     = Ok [(module_pkg_sub, [VDict [("TestX", VNone)]])]
  /\ __name__ module_pkg_sub <> __name__ module_sub
  /\ find_and_load modules_without_pkg_sub "sub" = Ok module_sub
  /\ flatten_modules modules_without_pkg_sub nested_document None
     = Err (ValueError (MsgModuleNotImportable "sub" (Some "pkg"))).
Proof. repeat split. discriminate. Qed.

End CatalogSpec.

(** ** The runner *)

Module RunnerSpec.
Import Runner RunnerExamples.

(** *** Units of a gather *)

Lemma done_events_insert (tasks : list Task) (i : nat) (c : Coroutine) (a : Awaited) :
  tasks !! i = Some (Pending c) ->
  done_events (<[i := Done c a]> tasks) ≡ₚ done_events tasks ++ [EvCompleted c a].
Proof.
  revert i. induction tasks as [|t tasks IH]; intros [|i] Hi; try discriminate.
  - injection Hi as ->. simpl. unfold done_events. simpl.
    apply Permutation_cons_append.
  - simpl in Hi. specialize (IH i Hi). cbn [insert list_insert].
    unfold done_events in *. destruct t as [c'|c' a']; simpl.
    + exact IH.
    + apply Permutation_cons; [reflexivity|exact IH].
Qed.

Lemma task_coro_insert (tasks : list Task) (i : nat) (c : Coroutine) (a : Awaited) :
  tasks !! i = Some (Pending c) ->
  map task_coro (<[i := Done c a]> tasks) = map task_coro tasks.
Proof.
  revert i. induction tasks as [|t tasks IH]; intros [|i] Hi; try discriminate.
  - injection Hi as ->. reflexivity.
  - simpl in Hi. simpl. f_equal. apply IH, Hi.
Qed.

(** When every unit is done, the results are theirs, in order. *)
Lemma all_done_results (tasks : list Task) (res : list Awaited) :
  mapM task_result tasks = Some res ->
  length res = length tasks
  /\ done_events tasks = zip_with EvCompleted (map task_coro tasks) res.
Proof.
  revert res. induction tasks as [|t tasks IH]; intros res H.
  - injection H as <-. split; reflexivity.
  - simpl in H. destruct t as [c|c a]; [discriminate|]. simpl in H.
    destruct (mapM task_result tasks) as [res'|] eqn:Hm; [|discriminate].
    injection H as <-. destruct (IH res' eq_refl) as [Hlen Hev].
    split; [simpl; congruence|].
    unfold done_events in *. simpl. f_equal. exact Hev.
Qed.

Lemma exceptions_of_app (l1 l2 : list Awaited) :
  exceptions_of (l1 ++ l2) = exceptions_of l1 ++ exceptions_of l2.
Proof. unfold exceptions_of. apply omap_app. Qed.

Lemma logged_exceptions_app (l1 l2 : list Awaited) :
  logged_exceptions (l1 ++ l2) = logged_exceptions l1 ++ logged_exceptions l2.
Proof. unfold logged_exceptions. rewrite exceptions_of_app. apply List.filter_app. Qed.

Lemma logged_exceptions_Raised (e : Exception) (l : list Awaited) :
  logged_exceptions (Raised e :: l)
  = (if exc_is_exception e then [e] else []) ++ logged_exceptions l.
Proof.
  unfold logged_exceptions, exceptions_of. simpl. destruct (exc_is_exception e); reflexivity.
Qed.

(** The exceptions [main] logs are those of the results that are instances
    of [Exception]. *)
Lemma elem_of_logged_exceptions (e : Exception) (res : list Awaited) :
  e ∈ logged_exceptions res <-> Raised e ∈ res /\ exc_is_exception e = true.
Proof.
  induction res as [|[r|e'] res IH].
  - split; [intros H; inversion H|intros [H _]; inversion H].
  - change (logged_exceptions (Returned r :: res)) with (logged_exceptions res).
    rewrite IH, elem_of_cons. split; [tauto|]. intros [[H|H] He]; [discriminate|tauto].
  - rewrite logged_exceptions_Raised, elem_of_app, IH, elem_of_cons. split.
    + intros [H|[H He]]; [|tauto].
      destruct (exc_is_exception e') eqn:He'; [|inversion H].
      apply list_elem_of_singleton in H. subst e'. auto.
    + intros [[H|H] He]; [|tauto]. injection H as <-. rewrite He. left. left.
Qed.

Lemma tail_steps_create (todo coros : list Coroutine) (re : bool)
    (k : list Awaited -> Async unit) :
  tail_steps (create_coroutines todo (AwaitGather coros re k))
  = length todo + (2 * length coros + 5).
Proof. induction todo as [|c todo IH]; [reflexivity|]. simpl in *. rewrite IH. reflexivity. Qed.

(** A relation between two lists holds with each pair at its place. *)
Lemma Forall2_zip_with_elem {A B C} (f : A -> B -> C) (P : A -> B -> Prop)
    (l : list A) (k : list B) :
  Forall2 P l k -> Forall2 (fun a b => P a b /\ f a b ∈ zip_with f l k) l k.
Proof.
  induction 1 as [|a b l k Hab _ IH]; constructor.
  - split; [exact Hab|left].
  - eapply Forall2_impl; [exact IH|]. intros a' b' [HP Hin]. split; [exact HP|right; exact Hin].
Qed.

(** *** The call made for a pair of the cross product *)

(** [cr] is the call of the loop of [main] for the pair [item]: the test
    callable and the device of the pair, the parameters of the entry but the
    template parameters as keyword arguments, and the template parameters,
    the empty list when the entry has none. *)
Local Abbreviation called_for item cr :=
  (coro_device cr = fst item
   /\ coro_test cr = fst (snd item)
   /\ coro_test_params cr
      = List.filter (fun kv => negb (String.eqb (fst kv) "template_params")) (snd (snd item))
   /\ coro_template_params cr
      = match dict_get "template_params" (snd (snd item)) with
        | Some v => v
        | None => VList []
        end).

Lemma make_coroutine_called_for (items : list (Device * TestEntry)) :
  Forall2 (fun item cr => called_for item cr) items (map make_coroutine items).
Proof.
  induction items as [|[d [name params]] items IH]; [constructor|].
  constructor; [|exact IH]. cbn. auto.
Qed.

Lemma called_for_make_coroutine (items : list (Device * TestEntry)) (l : list Coroutine) :
  Forall2 (fun item cr => called_for item cr) items l -> l = map make_coroutine items.
Proof.
  induction 1 as [|[d [name params]] [t dv tp ps] items l (Hd & Ht & Hps & Htp) _ IH];
    [reflexivity|].
  cbn in Hd, Ht, Hps, Htp. subst. reflexivity.
Qed.

(** The case analysis of a configuration of a run. *)
Ltac phase_cases Hp :=
  destruct Hp as [ | | e0 He
                 | inv' s Hc Hi Hm Hl Ht
                 | inv' done todo s Hc Hco Hcr Hi Hm Hl Ht
                 | inv' done cr todo e0 s Hc Hco Hcr Hraise Hi Hm Hl Ht
                 | inv' tasks comps s Hc Hcr Hco Hsound Hperm Hi Hm Hl Ht
                 | inv' res logged todo comps s Hc Hcr Hall Hres Hi Hm Hl Ht
                 | inv' res comps s Hc Hcr Hall Hi Hm Hl Ht
                 | inv' res comps s Hc Hcr Hall Hi Hm Hl Ht
                 | inv' res comps s Hc Hcr Hall Hi Hm Hl Ht ].

Section Run.

Context {World : Type}.
Variable connect_inventory : AntaInventory -> World -> result Exception (AntaInventory * World).
Variable create_coroutine : Coroutine -> World -> option Exception * World.
Variable run_coroutine : Coroutine -> World -> Awaited * World.
Variables (tests : list TestEntry) (tags : option (list string)) (established_only : bool).
Variables (inventory0 : AntaInventory) (manager0 : ResultManager) (world0 : World).

Local Abbreviation step := (Runner.step World connect_inventory create_coroutine run_coroutine).
Local Abbreviation steps := (Runner.steps World connect_inventory create_coroutine run_coroutine).
Local Abbreviation phase :=
  (Runner.phase World connect_inventory create_coroutine run_coroutine tests tags
     established_only inventory0 manager0 world0).
Local Abbreviation created := (Runner.created World create_coroutine).
Local Abbreviation run_in_order :=
  (Runner.run_in_order World connect_inventory create_coroutine run_coroutine tests tags
     established_only inventory0 manager0 world0).
Local Abbreviation all_completed :=
  (Runner.all_completed World run_coroutine tests tags established_only).
Local Abbreviation outcome_of := (Runner.outcome_of World run_coroutine).
Local Abbreviation task_sound := (Runner.task_sound World run_coroutine).
Local Abbreviation steps_left :=
  (Runner.steps_left World connect_inventory tests tags established_only).
Local Abbreviation initial :=
  (Runner.initial World tests tags established_only inventory0 manager0 world0).
Local Abbreviation start := (Runner.start World inventory0 manager0 world0).
Local Abbreviation coroutines := (Runner.coroutines tests tags established_only).
Local Abbreviation connected := (Runner.connected World connect_inventory inventory0 world0).

(** What a step from each kind of configuration is. *)
Lemma step_Running_inv (p : Async unit) (s : State World) (c' : Config World unit) :
  step (Running p s) c' ->
  c' = match p with
       | Return r => Finished r (emit World [EvReturned] s)
       | AwaitConnect k => Connecting k s
       | GetInventory eo tgs k => Running (k (get_inventory (inventory s) eo tgs)) s
       | CreateCoroutine cr k =>
           match create_coroutine cr (world s) with
           | (None, w') => Running k (set_world World w' s)
           | (Some e, w') => Crashed e (set_world World w' s)
           end
       | AwaitGather coros re k =>
           Gathering (map Pending coros) re k (emit World (map EvScheduled coros) s)
       | Log r k => Running k (add_log World [r] s)
       | AddTestResults res k =>
           Running k (add_log World (snd (add_test_results (manager s) res))
                        (set_manager World (fst (add_test_results (manager s) res)) s))
       end.
Proof.
  inversion 1; subst; try reflexivity;
    match goal with H : create_coroutine _ _ = _ |- _ => rewrite H end; reflexivity.
Qed.

Lemma step_Connecting_inv (k : unit -> Async unit) (s : State World)
    (c' : Config World unit) :
  step (Connecting k s) c' ->
  (exists inv' w', connect_inventory (inventory s) (world s) = Ok (inv', w')
     /\ c' = Running (k ())
               (emit World [EvConnected] (set_world World w' (set_inventory World inv' s))))
  \/ (exists e, connect_inventory (inventory s) (world s) = Err e /\ c' = Crashed e s).
Proof. inversion 1; subst; eauto 6. Qed.

Lemma step_Gathering_inv (tasks : list Task) (re : bool)
    (k : list Awaited -> Async unit) (s : State World) (c' : Config World unit) :
  step (Gathering tasks re k s) c' ->
  (exists i c a w', tasks !! i = Some (Pending c)
     /\ run_coroutine c (world s) = (a, w')
     /\ c' = Gathering (<[i := Done c a]> tasks) re k
               (emit World [EvCompleted c a] (set_world World w' s)))
  \/ (exists res, mapM task_result tasks = Some res
        /\ (re = true \/ exceptions_of res = [])
        /\ c' = Running (k res) s)
  \/ (re = false
      /\ exists i c e, tasks !! i = Some (Done c (Raised e)) /\ c' = Crashed e s).
Proof.
  inversion 1; subst.
  - left. eauto 8.
  - right. left. eauto.
  - right. right. eauto 8.
Qed.

Lemma step_terminal (c c' : Config World unit) :
  step c c' ->
  match c with Finished _ _ | Crashed _ _ => False | _ => True end.
Proof. inversion 1; exact I. Qed.

Lemma all_done_outcomes (tasks : list Task) (res : list Awaited) :
  Forall task_sound tasks ->
  mapM task_result tasks = Some res ->
  Forall2 outcome_of (map task_coro tasks) res.
Proof.
  intros Hsound. revert res. induction Hsound as [|t tasks Ht _ IH]; intros res H.
  - injection H as <-. constructor.
  - simpl in H. destruct t as [c|c a]; [discriminate|]. simpl in H.
    destruct (mapM task_result tasks) as [res'|] eqn:Hm; [|discriminate].
    injection H as <-. constructor; [exact Ht|]. apply IH. reflexivity.
Qed.

(** The loop over the results, from any point of it. *)
Lemma phase_reporting_step (inv' : AntaInventory) (res todo : list Awaited) :
  forall (logged : list Awaited) (comps : list Event) (s : State World) (c' : Config World unit),
    connected inv' -> Forall created (coroutines inv') -> all_completed inv' res comps ->
    res = logged ++ todo ->
    inventory s = inv' -> manager s = manager0 ->
    log s = map log_error (logged_exceptions logged) ->
    trace s = EvConnected :: map EvScheduled (coroutines inv') ++ comps ->
    step (Running (report_from res todo) s) c' ->
    phase c'.
Proof.
  induction todo as [|[r|e] todo IH];
    intros logged comps s c' Hc Hcr Hall Hres Hi Hm Hl Ht Hstep.
  - apply step_Running_inv in Hstep. cbn in Hstep. subst c'.
    rewrite app_nil_r in Hres. rewrite <- Hres in Hl.
    eapply phase_reported; eauto. simpl. rewrite Hl. reflexivity.
  - eapply (IH (logged ++ [Returned r])); eauto.
    + rewrite <- app_assoc. exact Hres.
    + rewrite logged_exceptions_app. change (logged_exceptions [Returned r]) with (@nil Exception).
      rewrite app_nil_r. exact Hl.
  - unfold report_from in Hstep. cbn [log_errors] in Hstep.
    destruct (exc_is_exception e) eqn:He.
    + apply step_Running_inv in Hstep. cbn in Hstep. subst c'.
      eapply phase_reporting with (logged := logged ++ [Raised e]) (todo := todo); eauto.
      * rewrite <- app_assoc. exact Hres.
      * simpl. rewrite Hl, logged_exceptions_app, logged_exceptions_Raised, He, map_app.
        reflexivity.
    + eapply (IH (logged ++ [Raised e])); eauto.
      * rewrite <- app_assoc. exact Hres.
      * rewrite logged_exceptions_app, logged_exceptions_Raised, He. simpl.
        rewrite app_nil_r. exact Hl.
Qed.

(** The phases are closed under the steps of the event loop. *)
Lemma phase_step (c c' : Config World unit) : phase c -> step c c' -> phase c'.
Proof.
  intros Hp Hstep. phase_cases Hp.
  - apply step_Running_inv in Hstep. subst c'. apply phase_connecting.
  - apply step_Connecting_inv in Hstep as [(inv' & w' & Hok & ->)|(e & He & ->)].
    + eapply phase_connected with (inv' := inv'); try reflexivity. exists w'. exact Hok.
    + apply phase_connect_raised. exact He.
  - apply step_terminal in Hstep. contradiction.
  - apply step_Running_inv in Hstep. cbn in Hstep. subst c'.
    rewrite Hi. apply (phase_creating _ _ _ _ _ _ _ _ _ _ inv' [] (coroutines inv')); auto.
  - destruct todo as [|cr todo].
    + apply step_Running_inv in Hstep. cbn in Hstep. subst c'.
      rewrite app_nil_r in Hco. rewrite <- Hco in Hcr.
      eapply phase_gathering with (comps := []) (inv' := inv'); eauto.
      * rewrite map_map. simpl. apply map_id.
      * apply Forall_forall. intros t Ht'.
        apply list_elem_of_fmap in Ht' as (cr & -> & _). exact I.
      * clear. induction (Runner.coroutines _ _ _ _) as [|c l IH]; [reflexivity|exact IH].
      * simpl. rewrite Ht, app_nil_r. reflexivity.
    + apply step_Running_inv in Hstep. cbn [create_coroutines] in Hstep.
      destruct (create_coroutine cr (world s)) as [[e|] w'] eqn:Hcreate; subst c'.
      * eapply phase_create_raised with (inv' := inv'); eauto.
        exists (world s). rewrite Hcreate. reflexivity.
      * apply (phase_creating _ _ _ _ _ _ _ _ _ _ inv' (done ++ [cr]) todo); auto.
        -- rewrite <- app_assoc. exact Hco.
        -- apply Forall_app. split; [exact Hcr|]. constructor; [|constructor].
           exists (world s). rewrite Hcreate. reflexivity.
  - apply step_terminal in Hstep. contradiction.
  - apply step_Gathering_inv in Hstep
      as [(i & c & a & w' & Hi' & Hrun & ->)|[(res & Hres & _ & ->)|(Hre & _)]].
    + eapply phase_gathering with (comps := comps ++ [EvCompleted c a]); eauto.
      * rewrite task_coro_insert; assumption.
      * apply Forall_insert; [exact Hsound|]. exists (world s). rewrite Hrun. reflexivity.
      * rewrite done_events_insert by eassumption.
        apply Permutation_app_tail. assumption.
      * simpl. rewrite Ht. simpl. rewrite <- app_assoc. reflexivity.
    + destruct (all_done_results _ _ Hres) as [Hlen Hev].
      eapply phase_reporting with (logged := []) (todo := res) (comps := comps); eauto.
      split; [|split].
      * rewrite Hlen, <- Hco, length_map. reflexivity.
      * rewrite Hperm, Hev, Hco. reflexivity.
      * rewrite <- Hco. apply all_done_outcomes; assumption.
    + discriminate.
  - eapply phase_reporting_step; eauto.
  - apply step_Running_inv in Hstep. cbn in Hstep. subst c'.
    eapply phase_added; eauto.
    + rewrite <- Hm. reflexivity.
    + cbn. rewrite Hl. rewrite <- ?app_assoc. reflexivity.
  - apply step_Running_inv in Hstep. cbn in Hstep. subst c'.
    eapply phase_finished; eauto.
    simpl. rewrite Ht. simpl. rewrite <- ?app_assoc. reflexivity.
  - apply step_terminal in Hstep. contradiction.
Qed.

Lemma phase_steps (c : Config World unit) : steps initial c -> phase c.
Proof.
  intros H. remember initial as c0 eqn:Hc0. induction H as [|c1 c2 c3 _ IH Hs].
  - subst. apply phase_start.
  - eapply phase_step; [apply IH; assumption|exact Hs].
Qed.

(** *** Runs exist, and do not get stuck *)

Lemma steps_trans (c1 c2 c3 : Config World unit) :
  steps c1 c2 -> steps c2 c3 -> steps c1 c3.
Proof.
  intros H12 H23. induction H23 as [|c2 c3 c4 _ IH Hs]; [exact H12|].
  eapply steps_step; [apply IH; exact H12|exact Hs].
Qed.

(** The pending units of a gather run one after the other. *)
Lemma gather_in_order_steps (k : list Awaited -> Async unit) (coros : list Coroutine) :
  forall (done : list Task) (s : State World),
    steps (Gathering (done ++ map Pending coros) true k s)
      (Gathering
         (done ++ map done_task (fst (gather_in_order World run_coroutine coros (world s))))
         true k
         (emit World
            (map completion (fst (gather_in_order World run_coroutine coros (world s))))
            (set_world World (snd (gather_in_order World run_coroutine coros (world s))) s))).
Proof.
  induction coros as [|c coros IH]; intros done s.
  - destruct s. unfold emit, set_world. simpl. rewrite !app_nil_r. apply steps_refl.
  - simpl. destruct (run_coroutine c (world s)) as [a w'] eqn:Hrun.
    pose (s1 := emit World [EvCompleted c a] (set_world World w' s)).
    assert (Hstep : step (Gathering (done ++ Pending c :: map Pending coros) true k s)
                      (Gathering ((done ++ [Done c a]) ++ map Pending coros) true k s1)).
    { replace ((done ++ [Done c a]) ++ map Pending coros)
        with (<[length done := Done c a]> (done ++ Pending c :: map Pending coros)).
      - eapply step_unit; [|exact Hrun].
        apply list_lookup_middle. reflexivity.
      - rewrite <- (Nat.add_0_r (length done)), insert_app_r. simpl.
        rewrite <- app_assoc. reflexivity. }
    eapply steps_trans; [eapply steps_step; [apply steps_refl|exact Hstep]|].
    specialize (IH (done ++ [Done c a]) s1).
    replace (world s1) with w' in IH by reflexivity.
    destruct (gather_in_order World run_coroutine coros w') as [finished w''].
    simpl in *.
    replace (done ++ done_task (c, a) :: map done_task finished)
      with ((done ++ [Done c a]) ++ map done_task finished)
      by (rewrite <- app_assoc; reflexivity).
    replace (emit World (completion (c, a) :: map completion finished) (set_world World w'' s))
      with (emit World (map completion finished) (set_world World w'' s1)); [exact IH|].
    unfold emit, set_world, s1. simpl. rewrite <- app_assoc. reflexivity.
Qed.

Lemma all_done_tasks (finished : list (Coroutine * Awaited)) :
  mapM task_result (map done_task finished) = Some (map snd finished).
Proof.
  induction finished as [|[c a] l IH]; [reflexivity|].
  simpl. rewrite IH. reflexivity.
Qed.

(** The loop over the results runs to its end. *)
Lemma report_steps (res todo : list Awaited) :
  forall s : State World,
    steps (Running (report_from res todo) s)
      (Running (Log (LogInfo res) (AddTestResults res (Return ())))
         (add_log World (map log_error (logged_exceptions todo)) s)).
Proof.
  induction todo as [|[r|e] todo IH]; intros s.
  - destruct s. unfold add_log. simpl. rewrite app_nil_r. apply steps_refl.
  - apply IH.
  - rewrite logged_exceptions_Raised. unfold report_from. cbn [log_errors].
    destruct (exc_is_exception e); [|apply IH].
    eapply steps_trans.
    + eapply steps_step; [apply steps_refl|]. apply step_log.
    + specialize (IH (add_log World [log_error e] s)).
      replace (add_log World (map log_error ([e] ++ logged_exceptions todo)) s)
        with (add_log World (map log_error (logged_exceptions todo))
                (add_log World [log_error e] s)); [exact IH|].
      unfold add_log. simpl. rewrite <- app_assoc. reflexivity.
Qed.

(** The calls that create the units are made one after the other, up to the
    first that raises. *)
Lemma create_in_order_steps (k : Async unit) (coros : list Coroutine) :
  forall s : State World,
    steps (Running (create_coroutines coros k) s)
      (match create_in_order World create_coroutine coros (world s) with
       | (None, w') => Running k (set_world World w' s)
       | (Some e, w') => Crashed e (set_world World w' s)
       end).
Proof.
  induction coros as [|c coros IH]; intros s.
  - destruct s. apply steps_refl.
  - cbn [create_coroutines create_in_order].
    destruct (create_coroutine c (world s)) as [[e|] w1] eqn:Hcreate.
    + eapply steps_step; [apply steps_refl|]. apply step_create_raised. exact Hcreate.
    + eapply steps_trans.
      * eapply steps_step; [apply steps_refl|]. apply step_created. exact Hcreate.
      * specialize (IH (set_world World w1 s)). cbn [world set_world] in IH.
        destruct (create_in_order World create_coroutine coros w1) as [[e|] w']; exact IH.
Qed.

Lemma gather_in_order_coros (coros : list Coroutine) (w : World) :
  map fst (fst (gather_in_order World run_coroutine coros w)) = coros.
Proof.
  revert w. induction coros as [|c coros IH]; intros w; [reflexivity|].
  simpl. destruct (run_coroutine c w) as [a w'].
  specialize (IH w'). destruct (gather_in_order World run_coroutine coros w').
  simpl in *. rewrite IH. reflexivity.
Qed.

(** A run of [main] reaches its end: under the in-order scheduler [main]
    returns, or the connection or the creation of a unit raised. *)
Lemma run_in_order_steps : steps initial run_in_order.
Proof.
  unfold Runner.run_in_order.
  assert (H0 : steps initial (Connecting (after_connect tests tags established_only) start)).
  { eapply steps_step; [apply steps_refl|]. apply step_await_connect. }
  destruct (connect_inventory inventory0 world0) as [[inv' w']|e] eqn:Hconn.
  2:{ eapply steps_step; [exact H0|]. apply step_connect_raised. exact Hconn. }
  eapply steps_trans; [exact H0|]. clear H0.
  eapply steps_trans.
  { eapply steps_step; [eapply steps_step; [apply steps_refl|]|].
    - eapply step_connected. exact Hconn.
    - apply step_get_inventory. }
  cbn [inventory set_world set_inventory emit].
  set (coros := make_coroutines (get_inventory inv' established_only tags) tests).
  eapply steps_trans.
  { apply (create_in_order_steps (AwaitGather coros true report) coros). }
  cbn [world set_world emit start app].
  destruct (create_in_order World create_coroutine coros w') as [[e|] w1];
    [cbn; apply steps_refl|].
  eapply steps_trans.
  { eapply steps_step; [apply steps_refl|]. apply step_await_gather. }
  eapply steps_trans.
  { apply (gather_in_order_steps report coros []). }
  cbn [world set_world emit start app inventory manager log trace].
  destruct (gather_in_order World run_coroutine coros w1) as [finished w''].
  cbn [fst snd].
  eapply steps_trans.
  { eapply steps_step; [apply steps_refl|].
    eapply step_gathered; [apply all_done_tasks|left; reflexivity]. }
  eapply steps_trans; [apply report_steps|].
  eapply steps_step; [eapply steps_step; [eapply steps_step; [apply steps_refl|]|]|].
  - apply step_log.
  - apply step_add_test_results.
  - match goal with
    | |- step _ (Finished _ ?s') =>
        replace s' with (emit World [EvReturned]
          (add_log World (snd (add_test_results manager0 (map snd finished)))
             (set_manager World (fst (add_test_results manager0 (map snd finished)))
                (add_log World [LogInfo (map snd finished)]
                   (add_log World (map log_error (logged_exceptions (map snd finished)))
                      {| inventory := inv'; manager := manager0; world := w'';
                         log := [];
                         trace := EvConnected :: map EvScheduled coros
                                  ++ map completion finished |})))))
    end.
    + apply step_return.
    + unfold emit, add_log, set_manager. cbn.
      rewrite <- ?app_assoc. reflexivity.
Qed.

(** A configuration of a run is final or has a next step. *)
Lemma phase_progress (c : Config World unit) :
  phase c ->
  match c with
  | Finished _ _ | Crashed _ _ => True
  | _ => exists c', step c c'
  end.
Proof.
  intros Hp. destruct c as [p s|k s|tasks re k s|r s|e s]; try exact I.
  - destruct p; try (eexists; constructor; fail).
    destruct (create_coroutine c (world s)) as [[e|] w'] eqn:Hcreate.
    + eexists. eapply step_create_raised. exact Hcreate.
    + eexists. eapply step_created. exact Hcreate.
  - destruct (connect_inventory (inventory s) (world s)) as [[inv' w']|e] eqn:Hc.
    + eexists. eapply step_connected. exact Hc.
    + eexists. eapply step_connect_raised. exact Hc.
  - inversion Hp; subst.
    destruct (mapM task_result tasks) as [res|] eqn:Hres.
    + eexists. eapply step_gathered; [exact Hres|left; reflexivity].
    + assert (Hpending : exists i c, tasks !! i = Some (Pending c)).
      { clear -Hres. induction tasks as [|[c|c a] tasks IH].
        - discriminate.
        - exists 0, c. reflexivity.
        - simpl in Hres. destruct (mapM task_result tasks); [discriminate|].
          destruct (IH eq_refl) as (i & c' & Hi). exists (S i), c'. exact Hi. }
      destruct Hpending as (i & c & Hi).
      destruct (run_coroutine c (world s)) as [a w'] eqn:Hrun.
      eexists. eapply step_unit; [exact Hi|exact Hrun].
Qed.

Lemma count_pending_insert (tasks : list Task) (i : nat) (c : Coroutine) (a : Awaited) :
  tasks !! i = Some (Pending c) ->
  S (count_pending (<[i := Done c a]> tasks)) = count_pending tasks.
Proof.
  revert i. induction tasks as [|t tasks IH]; intros [|i] Hi; try discriminate.
  - injection Hi as ->. reflexivity.
  - simpl in Hi. specialize (IH i Hi). unfold count_pending in *.
    cbn [insert list_insert]. destruct t; simpl; [f_equal|]; exact IH.
Qed.

Lemma tail_steps_report (res todo : list Awaited) :
  tail_steps (report_from res todo) <= length todo + 3.
Proof.
  unfold report_from. induction todo as [|[r|e] todo IH]; simpl in *; [lia|lia|].
  destruct (exc_is_exception e); simpl; lia.
Qed.

Lemma steps_left_report (res todo : list Awaited) (s : State World) :
  steps_left (Running (report_from res todo) s) = tail_steps (report_from res todo).
Proof.
  unfold report_from. induction todo as [|[r|e] todo IH]; [reflexivity|exact IH|].
  cbn [log_errors]. destruct (exc_is_exception e); [reflexivity|exact IH].
Qed.

Lemma steps_left_create (todo coros : list Coroutine) (re : bool)
    (k : list Awaited -> Async unit) (s : State World) :
  steps_left (Running (create_coroutines todo (AwaitGather coros re k)) s)
  = length todo + (2 * length coros + 5).
Proof. rewrite <- (tail_steps_create todo coros re k). destruct todo; reflexivity. Qed.

(** Every step of a run uses up the bound: a run ends after at most
    [steps_left] steps. *)
Lemma phase_step_decreases (c c' : Config World unit) :
  phase c -> step c c' -> steps_left c' < steps_left c.
Proof.
  intros Hp Hstep. phase_cases Hp.
  - apply step_Running_inv in Hstep. subst c'. simpl. lia.
  - apply step_Connecting_inv in Hstep as [(inv' & w' & Hok & ->)|(e & He & ->)].
    + cbn -[Nat.mul make_coroutines get_inventory] in Hok |- *. rewrite Hok. lia.
    + simpl. lia.
  - apply step_terminal in Hstep. contradiction.
  - apply step_Running_inv in Hstep. cbn in Hstep. subst c'.
    unfold after_select. rewrite steps_left_create.
    cbn -[Nat.mul make_coroutines get_inventory]. rewrite Hi. lia.
  - rewrite steps_left_create. destruct todo as [|cr todo].
    + apply step_Running_inv in Hstep. cbn in Hstep. subst c'.
      cbn -[Nat.mul Runner.coroutines]. rewrite length_map.
      assert (Hn : forall l : list Coroutine, count_pending (map Pending l) = length l).
      { intros l. induction l as [|cr l IH]; [reflexivity|].
        unfold count_pending in *. simpl. f_equal. exact IH. }
      rewrite Hn. lia.
    + apply step_Running_inv in Hstep. cbn [create_coroutines] in Hstep.
      destruct (create_coroutine cr (world s)) as [[e|] w'] eqn:Hcreate; subst c'.
      * cbn. lia.
      * rewrite steps_left_create. cbn [length]. lia.
  - apply step_terminal in Hstep. contradiction.
  - apply step_Gathering_inv in Hstep
      as [(i & c & a & w' & Hi' & Hrun & ->)|[(res & Hres & _ & ->)|(Hre & _)]].
    + cbn. rewrite length_insert, <- (count_pending_insert tasks i c a Hi'). lia.
    + destruct (all_done_results _ _ Hres) as [Hlen _].
      pose proof (tail_steps_report res res) as Hb.
      change (report res) with (report_from res res).
      rewrite steps_left_report. cbn. lia.
    + discriminate.
  - rewrite steps_left_report. apply step_Running_inv in Hstep. subst c'.
    unfold report_from.
    induction todo as [|[r|e] todo IH] in logged, Hres |- *.
    + cbn. lia.
    + apply (IH (logged ++ [Returned r])). rewrite <- app_assoc. exact Hres.
    + cbn [log_errors]. destruct (exc_is_exception e) eqn:He.
      * cbn [log_errors tail_steps].
        pose proof (steps_left_report res todo (add_log World [log_error e] s)) as Heq.
        unfold report_from in Heq. rewrite Heq. lia.
      * apply (IH (logged ++ [Raised e])). rewrite <- app_assoc. exact Hres.
  - apply step_Running_inv in Hstep. cbn in Hstep. subst c'. cbn. lia.
  - apply step_Running_inv in Hstep. cbn in Hstep. subst c'. cbn. lia.
  - apply step_terminal in Hstep. contradiction.
Qed.

(** *** What a run shows *)

Lemma done_events_completions (tasks : list Task) :
  Forall (fun ev => exists c a, ev = EvCompleted c a) (done_events tasks).
Proof.
  induction tasks as [|[c|c a] tasks IH]; unfold done_events in *; simpl.
  - constructor.
  - exact IH.
  - constructor; [eauto|exact IH].
Qed.

Lemma zip_completions (coros : list Coroutine) (res : list Awaited) :
  Forall (fun ev => exists c a, ev = EvCompleted c a) (zip_with EvCompleted coros res).
Proof.
  revert res. induction coros as [|c coros IH]; intros [|a res]; simpl; try constructor.
  - eauto.
  - apply IH.
Qed.

Lemma scheduled_trace (sched : list Coroutine) (comps fin : list Event) :
  Forall (fun ev => exists c a, ev = EvCompleted c a) comps ->
  fin = [] \/ fin = [EvReturned] ->
  scheduled (EvConnected :: map EvScheduled sched ++ comps ++ fin) = sched.
Proof.
  intros Hcomps Hfin.
  assert (Happ : forall l1 l2, scheduled (l1 ++ l2) = scheduled l1 ++ scheduled l2)
    by (intros; apply omap_app).
  transitivity (scheduled (map EvScheduled sched ++ comps ++ fin)); [reflexivity|].
  rewrite !Happ.
  assert (H1 : scheduled (map EvScheduled sched) = sched).
  { induction sched as [|c l IH]; [reflexivity|].
    change (c :: scheduled (map EvScheduled l) = c :: l). f_equal. exact IH. }
  assert (H2 : scheduled comps = []).
  { induction Hcomps as [|ev l (c & a & ->) _ IH]; [reflexivity|exact IH]. }
  rewrite H1, H2. destruct Hfin as [->| ->]; simpl; rewrite app_nil_r; reflexivity.
Qed.

(** The trace of a configuration of a run: nothing yet; or the connection
    alone; or the connection, then every unit scheduled, then the
    completions so far, then the return once [main] has finished. *)
Lemma phase_trace (c : Config World unit) :
  phase c ->
  trace (state_of c) = []
  \/ exists inv' sched comps fin,
      connected inv'
      /\ trace (state_of c) = EvConnected :: map EvScheduled sched ++ comps ++ fin
      /\ Forall (fun ev => exists c a, ev = EvCompleted c a) comps
      /\ ((sched = [] /\ comps = [] /\ fin = [])
          \/ (sched = coroutines inv'
              /\ ((fin = [] /\ forall r s, c <> Finished r s)
                  \/ (fin = [EvReturned]
                      /\ (exists r s, c = Finished r s)
                      /\ exists res, all_completed inv' res comps)))).
Proof.
  intros Hp. phase_cases Hp; try (left; reflexivity); right.
  - exists inv', [], [], []. simpl. rewrite Ht. auto 10.
  - exists inv', [], [], []. simpl. rewrite Ht. auto 10.
  - exists inv', [], [], []. simpl. rewrite Ht. auto 10.
  - exists inv', (coroutines inv'), comps, [].
    split; [exact Hc|]. split; [simpl; rewrite Ht, app_nil_r; reflexivity|].
    split; [rewrite Hperm; apply done_events_completions|].
    right. split; [reflexivity|]. left. split; [reflexivity|discriminate].
  - exists inv', (coroutines inv'), comps, [].
    split; [exact Hc|]. split; [simpl; rewrite Ht, app_nil_r; reflexivity|].
    split; [rewrite (proj1 (proj2 Hall)); apply zip_completions|].
    right. split; [reflexivity|]. left. split; [reflexivity|discriminate].
  - exists inv', (coroutines inv'), comps, [].
    split; [exact Hc|]. split; [simpl; rewrite Ht, app_nil_r; reflexivity|].
    split; [rewrite (proj1 (proj2 Hall)); apply zip_completions|].
    right. split; [reflexivity|]. left. split; [reflexivity|discriminate].
  - exists inv', (coroutines inv'), comps, [].
    split; [exact Hc|]. split; [simpl; rewrite Ht, app_nil_r; reflexivity|].
    split; [rewrite (proj1 (proj2 Hall)); apply zip_completions|].
    right. split; [reflexivity|]. left. split; [reflexivity|discriminate].
  - exists inv', (coroutines inv'), comps, [EvReturned].
    split; [exact Hc|]. split; [simpl; rewrite Ht; reflexivity|].
    split; [rewrite (proj1 (proj2 Hall)); apply zip_completions|].
    right. split; [reflexivity|]. right. eauto 6.
Qed.



(** C9: in every run the connection of the inventory has completed before
    anything else is observed, and [main] returns only after every unit: at
    each moment an event other than the connection has the connection before
    it, the return is observed in a finished run only, and the trace of a
    finished run is the connection, then every unit scheduled, then the
    completion of every unit in some order, then the return. *)
Theorem connection_precedes_units_and_return_follows_them (c : Config World unit) :
  steps initial c ->
  (forall pre ev post,
      trace (state_of c) = pre ++ ev :: post -> ev <> EvConnected -> EvConnected ∈ pre)
  /\ (EvReturned ∈ trace (state_of c) -> exists r s, c = Finished r s)
  /\ (forall r s, c = Finished r s ->
      exists inv' res comps,
        connected inv'
        /\ trace s = EvConnected :: map EvScheduled (coroutines inv') ++ comps ++ [EvReturned]
        /\ length res = length (coroutines inv')
        /\ comps ≡ₚ zip_with EvCompleted (coroutines inv') res).
Proof.
  intros Hsteps. apply phase_steps in Hsteps as Hp. split; [|split].
  - intros pre ev post Htr Hev.
    destruct (phase_trace c Hp) as [Hnil|(inv' & sched & comps & fin & _ & Hshape & _)].
    + rewrite Hnil in Htr. destruct pre; discriminate.
    + rewrite Hshape in Htr. destruct pre as [|ev' pre].
      * injection Htr as Hhd _. congruence.
      * injection Htr as <- _. left.
  - intros Hret.
    destruct (phase_trace c Hp)
      as [Hnil|(inv' & sched & comps & fin & _ & Hshape & Hcomps & Hcase)].
    + rewrite Hnil in Hret. inversion Hret.
    + assert (Hfin : EvReturned ∈ fin).
      { rewrite Hshape in Hret.
        apply elem_of_cons in Hret as [Hret|Hret]; [discriminate|].
        apply elem_of_app in Hret as [Hret|Hret].
        { apply list_elem_of_fmap in Hret as (cr & Hcr & _). discriminate. }
        apply elem_of_app in Hret as [Hret|Hret]; [|exact Hret].
        rewrite Forall_forall in Hcomps.
        destruct (Hcomps _ Hret) as (cr & a & Hcr). discriminate. }
      destruct Hcase as [(_ & _ & ->)|(_ & [[-> _]|(_ & Hc & _)])];
        [inversion Hfin|inversion Hfin|exact Hc].
  - intros r s ->.
    inversion Hp as [ | | | | | | | | | | inv' res comps s' Hc Hcr Hall Hi Hm Hl Ht];
      subst s'.
    exists inv', res, comps. split; [exact Hc|]. split; [exact Ht|].
    split; [exact (proj1 Hall)|exact (proj1 (proj2 Hall))].
Qed.

End Run.

(** *** The run of the examples *)

(** Three devices, of which the connection does not reach [leaf3], three
    tests, and [VerifyUptime] raising on [leaf1]: six units, five results. *)
Example run_of_the_examples :
  exists s,
    run_in_order nat connect3 create3 run3 tests3 None true inventory3 [] 0 = Finished () s
    /\ scheduled (trace s) = units3
    /\ manager s = results3
    /\ log s = [LogError "RuntimeError" "boom"; LogInfo outcomes3; LogDropped boom].
Proof. eexists. repeat split. Qed.

(** The connection of the examples gives one inventory, and running a unit
    of the examples one outcome. *)
Lemma connected_examples (inv' : AntaInventory) :
  Runner.connected nat connect3 inventory3 0 inv' -> inv' = inventory3_connected.
Proof. intros [w' H]. injection H as <- _. reflexivity. Qed.

Lemma outcomes_determined (run : Coroutine -> nat -> Awaited * nat)
    (f : Coroutine -> Awaited) (l : list Coroutine) (res : list Awaited) :
  (forall c w, fst (run c w) = f c) ->
  Forall2 (fun c a => exists w, fst (run c w) = a) l res ->
  res = map f l.
Proof.
  intros Hf. induction 1 as [|c a l res [w Hw] _ IH]; [reflexivity|].
  simpl. rewrite <- Hw, Hf, IH. reflexivity.
Qed.

Lemma outcomes_of_the_examples (res : list Awaited) :
  Forall2 (fun c a => exists w, fst (run3 c w) = a) units3 res -> res = outcomes3.
Proof.
  intros H.
  apply (outcomes_determined run3
           (fun c => if String.eqb (coro_test c) "VerifyUptime"
                        && String.eqb (dev_name (coro_device c)) "leaf1"
                     then Raised boom
                     else Returned (passed (dev_name (coro_device c)) (coro_test c)))) in H.
  - exact H.
  - intros c w. unfold run3. destruct (_ && _); reflexivity.
Qed.




Lemma connection_precedes_units_and_return_follows_them_witness :
  exists inv' res comps,
    trace (state_of (run_in_order nat connect3 create3 run3 tests3 None true inventory3 [] 0))
    = EvConnected :: map EvScheduled (Runner.coroutines tests3 None true inv')
      ++ comps ++ [EvReturned]
    /\ length res = length (Runner.coroutines tests3 None true inv')
    /\ comps ≡ₚ zip_with EvCompleted (Runner.coroutines tests3 None true inv') res.
Proof.
  destruct (connection_precedes_units_and_return_follows_them connect3 create3 run3 tests3
              None true inventory3 [] 0 _
              (run_in_order_steps connect3 create3 run3 tests3 None true inventory3 [] 0))
    as (_ & _ & Hfinished).
  destruct (Hfinished () _ eq_refl) as (inv' & res & comps & _ & Ht & Hlen & Hperm).
  exists inv', res, comps. split; [exact Ht|]. split; [exact Hlen|exact Hperm].
Defined.

End RunnerSpec.

(** ** More on the catalog *)

Module CatalogMore.
Import Catalog Examples CatalogSpec CatalogViews.

(** *** Binding *)

Lemma init_isinstance_base (t : PyObj) (data : InputsData) (d : AntaTestDefinition) :
  AntaTestDefinition_init t data = Ok d -> isinstance (inputs d) AntaTest_Input = true.
Proof.
  intros H. apply AntaTestDefinition_init_Ok in H as (_ & Hi & _).
  apply instantiate_inputs_Ok in Hi as (c & _ & [[_ Hb]|[_ Hm]]); [exact Hb|].
  eapply isinstance_base_class, Hm.
Qed.

(** An input object is bound as it is, and it is bound exactly when it is an
    instance of the base input model and of the input model of the test. *)
Lemma bind_instance (t : AntaTest) (i : InputInstance) :
  (isinstance i AntaTest_Input && isinstance i (qualname (Input t)) = true ->
   AntaTestDefinition_init (ObjTest t) (DInstance i) = Ok {| test := t; inputs := i |})
  /\ (forall d, AntaTestDefinition_init (ObjTest t) (DInstance i) = Ok d ->
      d = {| test := t; inputs := i |}
      /\ isinstance i AntaTest_Input && isinstance i (qualname (Input t)) = true).
Proof.
  split.
  - intros H. apply andb_true_iff in H as [Hb Ht].
    unfold AntaTestDefinition_init, instantiate_inputs. rewrite Hb. simpl.
    rewrite Hb. unfold check_inputs. simpl. rewrite Ht. reflexivity.
  - intros d H.
    pose proof (init_isinstance_base _ _ _ H) as Hb.
    apply AntaTestDefinition_init_Ok in H as (Ht & Hi & Hc).
    injection Ht as ->.
    unfold instantiate_inputs in Hi. destruct (isinstance i AntaTest_Input); [|discriminate].
    injection Hi as Hi. unfold check_inputs in Hc.
    destruct (isinstance (inputs d) (qualname (Input (test d)))) eqn:Hq; [|discriminate].
    destruct d as [t' i']. simpl in *. subst i'. split; [reflexivity|].
    rewrite Hq. reflexivity.
Qed.

(** X1: binding is idempotent: the inputs of a definition, bound again to its
    test, give the definition back. *)
Theorem rebinding_gives_the_definition_back
    (t : PyObj) (data : InputsData) (d : AntaTestDefinition) :
  AntaTestDefinition_init t data = Ok d ->
  AntaTestDefinition_init (ObjTest (test d)) (DInstance (inputs d)) = Ok d.
Proof.
  intros H. pose proof (init_isinstance_base _ _ _ H) as Hb.
  apply AntaTestDefinition_init_Ok in H as (_ & _ & Hc).
  destruct (bind_instance (test d) (inputs d)) as [Hbind _].
  rewrite Hbind; [destruct d; reflexivity|].
  rewrite Hb. unfold check_inputs in Hc.
  destruct (isinstance (inputs d) (qualname (Input (test d)))); [reflexivity|discriminate].
Qed.

Lemma rebinding_gives_the_definition_back_witness :
  AntaTestDefinition_init (ObjTest VerifyCountOne) (DInstance count_one_inputs)
  = Ok {| test := VerifyCountOne; inputs := count_one_inputs |}.
Proof.
  exact (rebinding_gives_the_definition_back (ObjTest VerifyCountOne) (DValue VNone)
           {| test := VerifyCountOne; inputs := count_one_inputs |} eq_refl).
Defined.

Lemma Input_new_Err (c : InputClass) (data : list (string * PyVal)) (e : Exc) :
  Input_new c data = Err e -> exists errors, e = ValidationError (qualname c) errors.
Proof.
  unfold Input_new. intros H.
  destruct (_ ++ _); destruct (validate_filters data); try discriminate;
    injection H as <-; eauto.
Qed.

Lemma init_Err_ValidationError (t : PyObj) (data : InputsData) (e : Exc) :
  AntaTestDefinition_init t data = Err e ->
  exists errors, e = ValidationError "AntaTestDefinition" errors /\ errors <> [].
Proof.
  unfold AntaTestDefinition_init. intros H.
  destruct (instantiate_inputs t data) as [i|e'] eqn:Hi.
  - destruct t as [c|r].
    + simpl in H. destruct (isinstance i AntaTest_Input).
      * simpl in H. unfold in_validator, check_inputs in H.
        destruct (negb _); [|discriminate]. simpl in H. injection H as <-.
        eexists. split; [reflexivity|discriminate].
      * simpl in H. injection H as <-. eexists. split; [reflexivity|discriminate].
    + simpl in Hi. discriminate.
  - assert (Hv : is_ValueError e' = true).
    { unfold instantiate_inputs in Hi. destruct t as [c|r]; [|injection Hi as <-; reflexivity].
      destruct data as [i|v].
      - destruct (isinstance i AntaTest_Input); [discriminate|]. injection Hi as <-. reflexivity.
      - assert (Hnew : forall kwargs,
                   match Input_new (Input c) kwargs with
                   | Ok i => Ok i
                   | Err e0 =>
                       if is_ValidationError e0
                       then Err (PydanticCustomError "wrong_test_inputs" (name c) (errors_of e0))
                       else Err e0
                   end = Err e' -> is_ValueError e' = true).
        { intros kwargs Hk.
          destruct (Input_new (Input c) kwargs) as [i|e0] eqn:Hn; [discriminate|].
          destruct (Input_new_Err _ _ _ Hn) as [errs ->]. simpl in Hk.
          injection Hk as <-. reflexivity. }
        destruct v; try (injection Hi as <-; reflexivity); eapply Hnew, Hi. }
    rewrite Hv in H. injection H as <-. eexists. split; [reflexivity|].
    destruct t; discriminate.
Qed.




(** *** Loading from a list *)

(** X3: loading from a list succeeds exactly when every pair binds; the catalog
    then holds the definitions in the order of the pairs and has no file
    name. *)
Theorem from_list_binds_every_pair (data : list (PyObj * InputsData)) :
  (forall c, from_list data = Ok c ->
     _filename c = None
     /\ length (tests c) = length data
     /\ Forall2 (fun item d => AntaTestDefinition_init (fst item) (snd item) = Ok d)
          data (tests c))
  /\ (forall ds,
      Forall2 (fun item d => AntaTestDefinition_init (fst item) (snd item) = Ok d) data ds ->
      from_list data = Ok {| _tests := ds; _filename := None |}).
Proof.
  split.
  - intros c Hc. pose proof (from_list_Ok data c Hc) as HF.
    split; [|split; [symmetry; eapply Forall2_length, HF|exact HF]].
    unfold from_list in Hc. destruct (mapM _ data); [|discriminate].
    injection Hc as <-. reflexivity.
  - intros ds HF. unfold from_list.
    assert (Hm : mapM (fun item : PyObj * InputsData =>
                         let (test, inputs) := item in AntaTestDefinition_init test inputs)
                   data = Ok ds).
    { apply mapM_result_Ok. eapply Forall2_impl; [exact HF|].
      intros [t i] d Hd. exact Hd. }
    rewrite Hm. reflexivity.
Qed.

Lemma from_list_binds_every_pair_witness :
  from_list [(ObjTest TestX, DValue VNone); (ObjTest VerifyCountOne, DInstance count_one_inputs)]
  = Ok {| _tests := [ {| test := TestX;
                         inputs := {| inst_mro := mro (Input TestX); inst_filters := None;
                                      inst_values := [] |} |};
                      {| test := VerifyCountOne; inputs := count_one_inputs |} ];
          _filename := None |}.
Proof.
  destruct (from_list_binds_every_pair
              [(ObjTest TestX, DValue VNone);
               (ObjTest VerifyCountOne, DInstance count_one_inputs)]) as [_ H].
  apply H. repeat constructor.
Defined.

(** *** The flattened document *)

Lemma dict_set_names {V} (modules : list (Module * V)) (m : Module) (v : V) :
  map (fun mv => __name__ (fst mv)) (dict_set modules m v)
  = if bool_decide (__name__ m ∈ map (fun mv => __name__ (fst mv)) modules)
    then map (fun mv => __name__ (fst mv)) modules
    else map (fun mv => __name__ (fst mv)) modules ++ [__name__ m].
Proof.
  induction modules as [|[m' v'] modules IH]; [reflexivity|].
  cbn [dict_set map fst]. destruct (String.eqb_spec (__name__ m') (__name__ m)) as [Heq|Hne].
  - cbn [map fst]. rewrite bool_decide_eq_true_2 by (rewrite Heq; left). reflexivity.
  - cbn [map fst]. rewrite IH.
    destruct (bool_decide (__name__ m ∈ map (fun mv => __name__ (fst mv)) modules)) eqn:Hin.
    + apply bool_decide_eq_true in Hin.
      rewrite bool_decide_eq_true_2 by (right; exact Hin). reflexivity.
    + apply bool_decide_eq_false in Hin.
      rewrite bool_decide_eq_false_2; [reflexivity|].
      intros Hc. apply elem_of_cons in Hc as [Hc|Hc]; [congruence|contradiction].
Qed.

Lemma dict_set_NoDup {V} (modules : list (Module * V)) (m : Module) (v : V) :
  NoDup (map (fun mv => __name__ (fst mv)) modules) ->
  NoDup (map (fun mv => __name__ (fst mv)) (dict_set modules m v)).
Proof.
  intros Hnd. rewrite dict_set_names. case_bool_decide as Hin; [exact Hnd|].
  apply NoDup_app. split; [exact Hnd|]. split.
  - intros x Hx Hx'. apply list_elem_of_singleton in Hx'. subst x. contradiction.
  - apply NoDup_singleton.
Qed.

Lemma dict_update_NoDup {V} (modules other : list (Module * V)) :
  NoDup (map (fun mv => __name__ (fst mv)) modules) ->
  NoDup (map (fun mv => __name__ (fst mv)) (dict_update modules other)).
Proof.
  unfold dict_update. revert modules.
  induction other as [|[m v] other IH]; intros modules Hnd; [exact Hnd|].
  simpl. apply IH. apply dict_set_NoDup. exact Hnd.
Qed.

Lemma flatten_loop_NoDup (importable : gmap string Module)
    (rec : PyVal -> option string -> result Exc (list (Module * list PyVal)))
    (package : option string) (items : list (string * PyVal)) :
  forall modules r,
    NoDup (map (fun mv => __name__ (fst mv)) modules) ->
    flatten_loop importable rec package items modules = Ok r ->
    NoDup (map (fun mv => __name__ (fst mv)) r).
Proof.
  induction items as [|[key tests] items IH]; intros modules r Hnd Hr.
  - injection Hr as <-. exact Hnd.
  - cbn [flatten_loop] in Hr.
    destruct (import_module importable (import_name package key) package) as [m|e];
      [|discriminate].
    destruct tests as [| | | |l|d]; try discriminate.
    + eapply IH; [|exact Hr]. apply dict_set_NoDup. exact Hnd.
    + destruct (rec (VDict d) (Some (__name__ m))) as [inner|e]; [|discriminate].
      eapply IH; [|exact Hr]. apply dict_update_NoDup. exact Hnd.
Qed.

(** X4: the flattened document has one leaf per module: no two of its entries
    are for modules of the same name, however the document names them. *)
Theorem flatten_modules_one_leaf_per_module (importable : gmap string Module)
    (data : list (string * PyVal)) (package : option string)
    (typed : list (Module * list PyVal)) :
  flatten_modules importable data package = Ok typed ->
  NoDup (map (fun mv => __name__ (fst mv)) typed).
Proof.
  unfold flatten_modules. cbn [flatten]. intros H.
  eapply flatten_loop_NoDup; [|exact H]. constructor.
Qed.

Lemma flatten_modules_one_leaf_per_module_witness :
  NoDup (map (fun mv => __name__ (fst mv))
           [(module_pkg_sub, [VDict [("TestX", VNone)]])]).
Proof.
  exact (flatten_modules_one_leaf_per_module modules shadowed_leaf_document None _ eq_refl).
Defined.

Lemma flatten_loop_relative_top_level (importable : gmap string Module)
    (rec : PyVal -> option string -> result Exc (list (Module * list PyVal)))
    (items : list (string * PyVal)) :
  forall modules,
    (exists key v, (key, v) ∈ items /\ startswith_dot key = true) ->
    exists e, flatten_loop importable rec None items modules = Err e.
Proof.
  induction items as [|[key tests] items IH]; intros modules (k & v & Hin & Hdot).
  - inversion Hin.
  - cbn [flatten_loop].
    assert (Hname : import_name None key = key) by reflexivity. rewrite Hname.
    destruct (startswith_dot key) eqn:Hkey.
    + unfold import_module. rewrite Hkey. eauto.
    + assert (Hrest : exists key' v', (key', v') ∈ items /\ startswith_dot key' = true).
      { apply elem_of_cons in Hin as [Heq|Hin]; [|eauto].
        injection Heq as -> ->. congruence. }
      destruct (import_module importable key None) as [m|e]; [|eauto].
      destruct tests as [| | | |l|d]; eauto.
      destruct (rec (VDict d) (Some (__name__ m))) as [inner|e]; [|simpl; eauto].
      simpl. apply IH. exact Hrest.
Qed.

(** X5: a top-level namespace written with a leading dot has no package to be
    relative to: a document with such a key is never loaded. *)
Theorem relative_top_level_namespace_fails (importable : gmap string Module)
    (d doc : list (string * PyVal)) (filename : option string) (key : string) (v : PyVal) :
  root_argument d = Ok (Some (VDict doc)) ->
  (key, v) ∈ doc -> startswith_dot key = true ->
  exists e, from_dict importable (VDict d) filename = Err e.
Proof.
  intros Hroot Hin Hdot.
  destruct (flatten_loop_relative_top_level importable (flatten importable) doc []) as [e He];
    [eauto|].
  rewrite (from_dict_check_tests_Err importable d (VDict doc) filename e Hroot); [eauto|].
  unfold check_tests, flatten_modules. cbn [flatten]. rewrite He. reflexivity.
Qed.

Lemma relative_top_level_namespace_fails_witness :
  exists e, from_dict modules (VDict [("pkg.tests", VList []); (".sub", VList [])]) None = Err e.
Proof.
  eapply (relative_top_level_namespace_fails modules _ _ None ".sub" (VList [])).
  - reflexivity.
  - right. left.
  - reflexivity.
Defined.


(** *** Loading from a dictionary *)

Lemma mapM_result_Err_inv {E A B} (f : A -> result E B) (l : list A) (e : E) :
  mapM f l = Err e -> exists x, x ∈ l /\ f x = Err e.
Proof.
  induction l as [|a l IH]; [discriminate|]. simpl. unfold mbind, result_bind.
  destruct (f a) as [b|e'] eqn:Hfa.
  - fold (mapM f l). destruct (mapM f l) as [bs|e'] eqn:Hl; [discriminate|].
    intros H. injection H as <-. destruct (IH eq_refl) as (x & Hx & Hfx).
    exists x. split; [right; exact Hx|exact Hfx].
  - intros H. injection H as <-. exists a. split; [left|exact Hfa].
Qed.

(** The messages of the errors [flatten_modules] and [check_tests] raise
    themselves. *)
Local Abbreviation of_the_catalog_code m :=
  (match m with
   | MsgModuleNotImportable _ _ | MsgNotAList _ | MsgNotADict _ | MsgNotSingleEntry _
   | MsgTestNotDefined _ _ _ => True
   | _ => False
   end).

Lemma flatten_loop_Err (importable : gmap string Module)
    (package : option string) (items : list (string * PyVal)) :
  Forall (fun kv => forall p e, flatten importable (snd kv) p = Err e ->
                                exists m, e = ValueError m /\ of_the_catalog_code m) items ->
  forall modules e,
    flatten_loop importable (flatten importable) package items modules = Err e ->
    exists m, e = ValueError m /\ of_the_catalog_code m.
Proof.
  induction 1 as [|[key tests] items Htests _ IH]; intros modules e He; [discriminate|].
  cbn [flatten_loop] in He.
  destruct (import_module importable (import_name package key) package) as [m|e'].
  2:{ injection He as <-. eexists. split; [reflexivity|exact I]. }
  destruct tests as [| | | |l|d];
    try (injection He as <-; eexists; split; [reflexivity|exact I]; fail).
  - eapply IH, He.
  - destruct (flatten importable (VDict d) (Some (__name__ m))) as [inner|e'] eqn:Hinner.
    + eapply IH, He.
    + simpl in He. injection He as <-. eapply Htests, Hinner.
Qed.

Lemma flatten_Err (importable : gmap string Module) (data : PyVal) :
  forall package e,
    flatten importable data package = Err e ->
    exists m, e = ValueError m /\ of_the_catalog_code m.
Proof.
  induction data as [| | | | l _ | d IH] using PyVal_nested_ind; intros package e He;
    try discriminate.
  cbn [flatten] in He. eapply flatten_loop_Err; eauto.
Qed.

Lemma check_test_definition_Err (module : Module) (entry : PyVal) (e : Exc) :
  check_test_definition module entry = Err e ->
  (exists m, e = ValueError m /\ of_the_catalog_code m)
  \/ exists test_name raw t errors,
       entry = VDict [(test_name, raw)]
       /\ members module !! test_name = Some t
       /\ AntaTestDefinition_init t (DValue raw) = Err e
       /\ e = ValidationError "AntaTestDefinition" errors /\ errors <> [].
Proof.
  unfold check_test_definition. intros H.
  destruct entry as [| | | | |d];
    try (injection H as <-; left; eexists; split; [reflexivity|exact I]; fail).
  destruct d as [|[test_name raw] [|kv d]];
    try (injection H as <-; left; eexists; split; [reflexivity|exact I]; fail).
  simpl in H. destruct (members module !! test_name) as [t|] eqn:Hm.
  - destruct (AntaTestDefinition_init t (DValue raw)) as [td|e'] eqn:Hinit; [discriminate|].
    simpl in H. injection H as <-. right.
    destruct (init_Err_ValidationError _ _ _ Hinit) as (errors & -> & Hne).
    exists test_name, raw, t, errors. auto.
  - simpl in H. injection H as <-. left. eexists. split; [reflexivity|exact I].
Qed.

Lemma check_tests_Err (importable : gmap string Module) (doc : list (string * PyVal))
    (e : Exc) :
  check_tests importable (VDict doc) = Err e ->
  (exists m, e = ValueError m /\ of_the_catalog_code m)
  \/ exists typed module tests test_name raw t errors,
       flatten_modules importable doc None = Ok typed
       /\ (module, tests) ∈ typed /\ VDict [(test_name, raw)] ∈ tests
       /\ members module !! test_name = Some t
       /\ AntaTestDefinition_init t (DValue raw) = Err e
       /\ e = ValidationError "AntaTestDefinition" errors /\ errors <> [].
Proof.
  unfold check_tests. intros H.
  destruct (flatten_modules importable doc None) as [typed|e'] eqn:Hflat.
  - simpl in H. apply mapM_result_Err_inv in H as ([m tests] & Hin & Hx).
    destruct (mapM (check_test_definition m) tests) as [tds|e'] eqn:Hm; [discriminate|].
    simpl in Hx. injection Hx as <-.
    apply mapM_result_Err_inv in Hm as (entry & Hentry & He).
    apply check_test_definition_Err in He
      as [Hsyntax|(test_name & raw & t & errors & -> & Hmem & Hinit & -> & Hne)];
      [left; exact Hsyntax|].
    right. exists typed, m, tests, test_name, raw, t, errors. auto 10.
  - simpl in H. injection H as <-. left. eapply flatten_Err, Hflat.
Qed.

Lemma from_dict_check_tests_Ok (importable : gmap string Module)
    (d : list (string * PyVal)) (v : PyVal) (filename : option string)
    (r : list (Module * list AntaTestDefinition)) :
  root_argument d = Ok (Some v) ->
  check_tests importable v = Ok r ->
  from_dict importable (VDict d) filename
  = Ok {| _tests := concat (map snd r); _filename := filename |}.
Proof.
  intros Hroot Hr. unfold from_dict, AntaCatalogFile_init.
  rewrite Hroot. simpl. rewrite Hr. reflexivity.
Qed.



Lemma check_test_definition_Ok (module : Module) (entry : PyVal)
    (tds : list AntaTestDefinition) :
  check_test_definition module entry = Ok tds <->
  exists d, tds = [d] /\ declares (module, entry) d.
Proof.
  unfold check_test_definition, declares. split.
  - intros H. destruct entry as [| | | | |items]; try discriminate.
    destruct items as [|[test_name raw] [|kv items]]; try discriminate.
    simpl in H. destruct (members module !! test_name) as [t|] eqn:Hm; [|discriminate].
    unfold mbind, result_bind in H.
    destruct (AntaTestDefinition_init t (DValue raw)) as [d|e] eqn:Hd; [|discriminate].
    injection H as <-. exists d. split; [reflexivity|]. exists test_name, raw, t. auto.
  - intros (d & -> & test_name & raw & t & Hentry & Hm & Hd). simpl in Hentry, Hm.
    subst entry. simpl. rewrite Hm. unfold mbind, result_bind. rewrite Hd. reflexivity.
Qed.

Lemma leaf_Ok (module : Module) (tests : list PyVal) (tdss : list (list AntaTestDefinition)) :
  mapM (check_test_definition module) tests = Ok tdss ->
  Forall2 declares (map (pair module) tests) (concat tdss).
Proof.
  intros H. apply mapM_result_Ok in H.
  induction H as [|entry tds tests tdss Hentry _ IH]; [constructor|].
  apply check_test_definition_Ok in Hentry as (d & -> & Hd).
  simpl. constructor; assumption.
Qed.

Lemma leaf_declares (module : Module) (tests : list PyVal) (ds : list AntaTestDefinition) :
  Forall2 declares (map (pair module) tests) ds ->
  mapM (check_test_definition module) tests = Ok (map (fun d => [d]) ds)
  /\ concat (map (fun d => [d]) ds) = ds.
Proof.
  revert ds. induction tests as [|entry tests IH]; intros ds H.
  - inversion H; subst. split; reflexivity.
  - simpl in H. inversion H as [|? d ? ds' Hd Hrest]; subst.
    destruct (IH ds' Hrest) as [Hm Hc]. split.
    + apply mapM_result_Ok. constructor.
      * apply check_test_definition_Ok. eauto.
      * apply mapM_result_Ok. exact Hm.
    + simpl. f_equal. exact Hc.
Qed.

(** X7: a loaded catalog holds, in the order of the flattened document, one
    definition per declaration: the named member of the module of the leaf
    bound to the raw input of the declaration; and the load of such a
    document with such declarations gives that catalog, with the file name
    it was given. *)
Theorem from_dict_binds_every_declaration (importable : gmap string Module)
    (d doc : list (string * PyVal)) (filename : option string)
    (typed : list (Module * list PyVal)) :
  root_argument d = Ok (Some (VDict doc)) ->
  flatten_modules importable doc None = Ok typed ->
  (forall c, from_dict importable (VDict d) filename = Ok c ->
     _filename c = filename /\ Forall2 declares (declarations typed) (tests c))
  /\ (forall ds, Forall2 declares (declarations typed) ds ->
      from_dict importable (VDict d) filename = Ok {| _tests := ds; _filename := filename |}).
Proof.
  intros Hroot Hflat.
  assert (Hct : check_tests importable (VDict doc)
                = mapM (fun entry : Module * list PyVal =>
                          let (module, tests) := entry in
                          test_definitions ← mapM (check_test_definition module) tests;
                          Ok (module, concat test_definitions)) typed).
  { unfold check_tests. rewrite Hflat. reflexivity. }
  split.
  - intros c Hc. destruct (check_tests importable (VDict doc)) as [r|e] eqn:Hr.
    2:{ rewrite (from_dict_check_tests_Err importable d (VDict doc) filename e Hroot Hr) in Hc.
        discriminate. }
    rewrite (from_dict_check_tests_Ok importable d (VDict doc) filename r Hroot Hr) in Hc.
    injection Hc as <-. split; [reflexivity|]. unfold tests. simpl.
    symmetry in Hct. clear Hr Hflat Hroot. apply mapM_result_Ok in Hct.
    induction Hct as [|[m leaf] [m' ds] typed r Hx _ IH]; [constructor|].
    destruct (mapM (check_test_definition m) leaf) as [tdss|e] eqn:Hleaf; [|discriminate].
    simpl in Hx. injection Hx as <- <-.
    simpl. apply Forall2_app; [apply leaf_Ok; exact Hleaf|exact IH].
  - intros ds Hds.
    assert (Hr : exists r,
               mapM (fun entry : Module * list PyVal =>
                       let (module, tests) := entry in
                       test_definitions ← mapM (check_test_definition module) tests;
                       Ok (module, concat test_definitions)) typed = Ok r
               /\ concat (map snd r) = ds).
    { clear Hct Hflat Hroot. revert ds Hds.
      induction typed as [|[m leaf] typed IH]; intros ds Hds.
      - inversion Hds; subst. exists []. split; reflexivity.
      - simpl in Hds. apply Forall2_app_inv_l in Hds as (ds1 & ds2 & H1 & H2 & ->).
        destruct (leaf_declares m leaf ds1 H1) as [Hleaf Hc].
        destruct (IH ds2 H2) as (r & Hr & Hcr).
        exists ((m, ds1) :: r). split.
        + apply mapM_result_Ok. constructor.
          * rewrite Hleaf. simpl. rewrite Hc. reflexivity.
          * apply mapM_result_Ok. exact Hr.
        + simpl. rewrite Hcr. reflexivity. }
    destruct Hr as (r & Hr & <-). rewrite <- Hct in Hr.
    apply (from_dict_check_tests_Ok importable d (VDict doc) filename r Hroot Hr).
Qed.

Lemma from_dict_binds_every_declaration_witness :
  from_dict modules (VDict nested_document) (Some "catalog.yml")
  = Ok {| _tests := [ {| test := TestX;
                         inputs := {| inst_mro := mro (Input TestX); inst_filters := None;
                                      inst_values := [] |} |} ];
          _filename := Some "catalog.yml" |}.
Proof.
  destruct (from_dict_binds_every_declaration modules nested_document nested_document
              (Some "catalog.yml") _ eq_refl eq_refl) as [_ H].
  apply H. constructor; [|constructor].
  exists "TestX", VNone, (ObjTest TestX). repeat split.
Defined.


(** *** Tag filtering *)

Lemma matches_tags_shares_a_tag (tags : list string) (strict : bool) (d : AntaTestDefinition) :
  matches_tags tags strict d = true ->
  exists x, x ∈ declared_tags (inputs d) /\ x ∈ tags.
Proof.
  destruct strict; intros H.
  - apply matches_tags_strict in H as (f & Hf & Hne & Hall).
    unfold declared_tags. rewrite Hf. destruct f as [|x f]; [congruence|].
    exists x. split; [left|apply Hall; left].
  - apply matches_tags_any in H as (f & x & Hf & Hx & Hin).
    unfold declared_tags. rewrite Hf. eauto.
Qed.

Lemma matches_tags_strict_any (tags : list string) (d : AntaTestDefinition) :
  matches_tags tags true d = true -> matches_tags tags false d = true.
Proof.
  intros H. apply matches_tags_strict in H as (f & Hf & Hne & Hall).
  apply matches_tags_any. destruct f as [|x f]; [congruence|].
  exists (x :: f), x. split; [exact Hf|]. split; [left|apply Hall; left].
Qed.

Lemma matches_tags_mono (tags tags' : list string) (strict : bool) (d : AntaTestDefinition) :
  tags ⊆ tags' -> matches_tags tags strict d = true -> matches_tags tags' strict d = true.
Proof.
  intros Hsub. destruct strict; intros H.
  - apply matches_tags_strict in H as (f & Hf & Hne & Hall).
    apply matches_tags_strict. exists f. split; [exact Hf|]. split; [exact Hne|].
    intros x Hx. apply Hsub, Hall, Hx.
  - apply matches_tags_any in H as (f & x & Hf & Hx & Hin).
    apply matches_tags_any. exists f, x. split; [exact Hf|]. split; [exact Hx|].
    apply Hsub, Hin.
Qed.

Lemma filter_sublist_impl {A} (p q : A -> bool) (l : list A) :
  (forall x, p x = true -> q x = true) -> sublist (List.filter p l) (List.filter q l).
Proof.
  intros Hpq. induction l as [|x l IH]; [constructor|].
  simpl. destruct (p x) eqn:Hp.
  - rewrite (Hpq x Hp). constructor. exact IH.
  - destruct (q x); [constructor|]; exact IH.
Qed.

Lemma filter_sublist_self {A} (p : A -> bool) (l : list A) : sublist (List.filter p l) l.
Proof.
  induction l as [|x l IH]; [constructor|].
  simpl. destruct (p x); constructor; exact IH.
Qed.

(** X8: the tag filter selects from the catalog, in its order, and never
    returns a definition that shares no tag with the request: not one whose
    input has no filters or no tags, and nothing at all for an empty
    request. What the strict filter returns the other returns too. *)
Theorem get_tests_by_tags_selects (self : AntaCatalog) (tags : list string) (strict : bool) :
  sublist (get_tests_by_tags self tags strict) (tests self)
  /\ (forall d, d ∈ get_tests_by_tags self tags strict ->
      exists x, x ∈ declared_tags (inputs d) /\ x ∈ tags)
  /\ (tags = [] -> get_tests_by_tags self tags strict = [])
  /\ sublist (get_tests_by_tags self tags true) (get_tests_by_tags self tags false).
Proof.
  assert (Hshare : forall d, d ∈ get_tests_by_tags self tags strict ->
                     exists x, x ∈ declared_tags (inputs d) /\ x ∈ tags).
  { intros d Hd. apply list_elem_of_In, filter_In in Hd as [_ Hm].
    eapply matches_tags_shares_a_tag, Hm. }
  split; [apply filter_sublist_self|]. split; [exact Hshare|]. split.
  - intros ->. destruct (get_tests_by_tags self [] strict) as [|d ds] eqn:Hr; [reflexivity|].
    destruct (Hshare d) as (x & _ & Hx); [left|]. inversion Hx.
  - apply filter_sublist_impl. apply matches_tags_strict_any.
Qed.

(** X9: a request with more tags returns no fewer definitions, with the strict
    filter as with the other. *)
Theorem get_tests_by_tags_more_tags (self : AntaCatalog) (tags tags' : list string)
    (strict : bool) :
  tags ⊆ tags' ->
  sublist (get_tests_by_tags self tags strict) (get_tests_by_tags self tags' strict).
Proof.
  intros Hsub. apply filter_sublist_impl. intros d. apply matches_tags_mono, Hsub.
Qed.

Lemma get_tests_by_tags_more_tags_witness :
  sublist (get_tests_by_tags (catalog_of [tagged ["dc1"]; tagged ["dc1"; "dc3"]]) ["dc1"] true)
          (get_tests_by_tags (catalog_of [tagged ["dc1"]; tagged ["dc1"; "dc3"]])
             ["dc1"; "dc3"] true).
Proof.
  apply get_tests_by_tags_more_tags. intros x Hx.
  apply list_elem_of_singleton in Hx. subst x. left.
Defined.

(** *** The tests setter *)

Lemma check_elements_Ok (l : list PyObject) (ts : list AntaTestDefinition) :
  check_elements l = Ok ts <-> l = map OTestDefinition ts.
Proof.
  revert ts. induction l as [|x l IH]; intros ts.
  - simpl. split.
    + intros H. injection H as <-. reflexivity.
    + intros H. destruct ts; [reflexivity|discriminate].
  - simpl. destruct x as [t|l'|r].
    + destruct (check_elements l) as [ts'|e] eqn:Hl; simpl.
      * split.
        -- intros H. injection H as <-. simpl. f_equal. apply IH. reflexivity.
        -- intros H. destruct ts as [|t0 ts0]; [discriminate|].
           injection H as -> H. apply IH in H. injection H as ->. reflexivity.
      * split; [discriminate|].
        intros H. destruct ts as [|t0 ts0]; [discriminate|].
        injection H as -> H. apply IH in H. discriminate.
    + split; [discriminate|]. intros H. destruct ts; discriminate.
    + split; [discriminate|]. intros H. destruct ts; discriminate.
Qed.

(** X10: the setter succeeds exactly when the value is a list whose elements are
    all test definitions; the tests of the catalog are then these, in the
    order of the list, and its file name is the one it had. *)
Theorem tests_setter_succeeds (self : AntaCatalog) (value : PyObject)
    (self' : AntaCatalog) :
  tests_setter self value = (Ok (), self') <->
  exists ts, value = OList (map OTestDefinition ts)
             /\ tests self' = ts /\ _filename self' = _filename self.
Proof.
  split.
  - intros H. destruct value as [t|l|r]; try discriminate.
    simpl in H. destruct (check_elements l) as [ts|e] eqn:Hl; [|discriminate].
    injection H as <-. exists ts. apply check_elements_Ok in Hl. subst l. auto.
  - intros (ts & -> & Ht & Hf). rewrite tests_setter_replaces.
    destruct self' as [ts' f']. unfold tests in Ht. simpl in Ht, Hf. subst. reflexivity.
Qed.

End CatalogMore.

(** ** More on the runner *)

Module RunnerMore.
Import Runner RunnerExamples RunnerSpec.

(** *** The parameters of a unit *)

Lemma dict_get_filter_other {V} (key k : string) (d : list (string * V)) :
  k <> key ->
  dict_get k (List.filter (fun kv => negb (String.eqb (fst kv) key)) d) = dict_get k d.
Proof.
  intros Hk. induction d as [|[k' v] d IH]; [reflexivity|].
  simpl. destruct (String.eqb_spec k' key) as [->|Hne]; simpl.
  - destruct (String.eqb_spec k key) as [Heq|_]; [contradiction|exact IH].
  - rewrite IH. reflexivity.
Qed.

Lemma dict_get_filter_key {V} (key : string) (d : list (string * V)) :
  dict_get key (List.filter (fun kv => negb (String.eqb (fst kv) key)) d) = None.
Proof.
  induction d as [|[k' v] d IH]; [reflexivity|].
  simpl. destruct (String.eqb_spec k' key) as [->|Hne]; simpl; [exact IH|].
  destruct (String.eqb_spec key k') as [Heq|_]; [congruence|exact IH].
Qed.

(** X11: the keyword arguments a unit is called with never hold the key of the
    template parameters; every other key of the entry is passed with its
    value, in the order of the entry; and the template parameters are the
    value of that key, the empty list when the entry has none. *)
Theorem template_params_are_passed_apart (device : Device) (test : TestEntry) :
  dict_get TEST_TPL_PARAMS (coro_test_params (make_coroutine (device, test))) = None
  /\ (forall k, k <> TEST_TPL_PARAMS ->
      dict_get k (coro_test_params (make_coroutine (device, test))) = dict_get k (snd test))
  /\ sublist (coro_test_params (make_coroutine (device, test))) (snd test)
  /\ (forall v, dict_get TEST_TPL_PARAMS (snd test) = Some v ->
      coro_template_params (make_coroutine (device, test)) = v)
  /\ (dict_get TEST_TPL_PARAMS (snd test) = None ->
      coro_template_params (make_coroutine (device, test)) = VList []).
Proof.
  destruct test as [name params]. cbn [make_coroutine coro_test_params coro_template_params snd].
  split; [apply dict_get_filter_key|]. split; [intros k Hk; apply dict_get_filter_other, Hk|].
  split.
  - induction params as [|kv params IH]; [constructor|].
    simpl. destruct (negb _); constructor; exact IH.
  - split; [intros v ->; reflexivity|intros ->; reflexivity].
Qed.

Lemma results_exceptions_length (res : list Awaited) :
  length (results_of res) + length (exceptions_of res) = length res.
Proof.
  unfold results_of, exceptions_of.
  induction res as [|[r|e] res IH]; [reflexivity| |]; simpl.
  - f_equal. exact IH.
  - rewrite Nat.add_succ_r. f_equal. exact IH.
Qed.

Section Run.

Context {World : Type}.
Variable connect_inventory : AntaInventory -> World -> result Exception (AntaInventory * World).
Variable create_coroutine : Coroutine -> World -> option Exception * World.
Variable run_coroutine : Coroutine -> World -> Awaited * World.
Variables (tests : list TestEntry) (tags : option (list string)) (established_only : bool).
Variables (inventory0 : AntaInventory) (manager0 : ResultManager) (world0 : World).

Local Abbreviation step := (Runner.step World connect_inventory create_coroutine run_coroutine).
Local Abbreviation steps := (Runner.steps World connect_inventory create_coroutine run_coroutine).
Local Abbreviation phase :=
  (Runner.phase World connect_inventory create_coroutine run_coroutine tests tags
     established_only inventory0 manager0 world0).
Local Abbreviation initial :=
  (Runner.initial World tests tags established_only inventory0 manager0 world0).
Local Abbreviation start := (Runner.start World inventory0 manager0 world0).
Local Abbreviation coroutines := (Runner.coroutines tests tags established_only).
Local Abbreviation connected := (Runner.connected World connect_inventory inventory0 world0).


(** X13: a run that returns accounts for every unit: every unit has its
    outcome, in the order of the units, and has completed with it; the log
    holds one error record, with the class and the text of the exception,
    per outcome that is an instance of [Exception], in the order of
    submission, then the record of all the outcomes, then what the manager
    logs for the errors it drops; the manager gained the results of the
    units that returned; and the results added and the exceptions are
    together as many as there are selected devices times tests. *)
Theorem finished_run_accounts_for_every_unit (c : Config World unit) :
  steps initial c ->
  forall r s, c = Finished r s ->
  exists inv' res,
    connected inv'
    /\ Forall2 (fun cr a => (exists w, fst (run_coroutine cr w) = a)
                            /\ EvCompleted cr a ∈ trace s)
         (coroutines inv') res
    /\ log s = map (fun e => LogError (exc_class e) (exc_str e))
                 (List.filter exc_is_exception (exceptions_of res))
               ++ [LogInfo res]
               ++ map LogDropped (exceptions_of res)
    /\ manager s = manager0 ++ results_of res
    /\ length (results_of res) + length (exceptions_of res)
       = length (get_inventory inv' established_only tags) * length tests.
Proof.
  intros Hsteps r s ->. apply phase_steps in Hsteps as Hp.
  inversion Hp as [ | | | | | | | | | | inv' res comps s' Hc Hcr Hall Hi Hm Hl Ht]; subst s'.
  destruct Hall as (Hlen & Hperm & Hout).
  exists inv', res. split; [exact Hc|]. split; [|split; [exact Hl|split; [exact Hm|]]].
  - eapply Forall2_impl; [exact (Forall2_zip_with_elem EvCompleted _ _ _ Hout)|].
    intros cr a [Ha Hin]. split; [exact Ha|].
    rewrite Ht. right. apply elem_of_app. right. apply elem_of_app. left.
    rewrite Hperm. exact Hin.
  - rewrite results_exceptions_length, Hlen.
    unfold Runner.coroutines, make_coroutines. rewrite length_map, length_prod. reflexivity.
Qed.

(** X14: with an empty catalog, or when no device is selected, a run that
    returns has connected the inventory and done nothing else: the manager
    is as at the start, the log holds the record of an empty list of
    outcomes, and nothing was scheduled. *)
Theorem run_without_units (c : Config World unit) :
  steps initial c ->
  (tests = [] \/ forall inv', connected inv' -> get_inventory inv' established_only tags = []) ->
  forall r s, c = Finished r s ->
  manager s = manager0 /\ log s = [LogInfo []] /\ trace s = [EvConnected; EvReturned].
Proof.
  intros Hsteps Hnone r s ->. apply phase_steps in Hsteps as Hp.
  inversion Hp as [ | | | | | | | | | | inv' res comps s' Hc Hcr Hall Hi Hm Hl Ht]; subst s'.
  assert (Hcoros : coroutines inv' = []).
  { unfold Runner.coroutines, make_coroutines. destruct Hnone as [->|Hsel].
    - apply length_zero_iff_nil. rewrite length_map, length_prod. simpl. lia.
    - rewrite (Hsel inv' Hc). reflexivity. }
  destruct Hall as (Hlen & Hperm & _). rewrite Hcoros in Hlen, Hperm, Ht.
  apply length_zero_iff_nil in Hlen. subst res.
  apply Permutation_nil_r in Hperm. subst comps.
  rewrite Hm, Hl, Ht. simpl. rewrite app_nil_r. auto.
Qed.

(** X15: when the connection of the inventory raises, [main] raises what it
    raised and has done nothing: in every configuration of the run nothing
    is scheduled, logged or added to the manager, the run never returns, and
    the run that ends has ended with that exception. *)
Theorem connection_failure_aborts_the_run (c : Config World unit) (e : Exception) :
  connect_inventory inventory0 world0 = Err e ->
  steps initial c ->
  state_of c = start
  /\ (forall r s, c <> Finished r s)
  /\ (forall e' s, c = Crashed e' s -> e' = e).
Proof.
  intros Hconn Hsteps. apply phase_steps in Hsteps as Hp. clear Hsteps.
  assert (Hnot : forall inv', ~ connected inv').
  { intros inv' [w' Hw]. rewrite Hconn in Hw. discriminate. }
  phase_cases Hp;
    try (exfalso; exact (Hnot _ Hc)); cbn [state_of];
    (split; [reflexivity|]); (split; [discriminate|]); intros e' s Heq; try discriminate.
  injection Heq as <- _. congruence.
Qed.

End Run.


Lemma finished_run_accounts_for_every_unit_witness :
  log (state_of (run_in_order nat connect3 create3 run3 tests3 None true inventory3 [] 0))
  = [LogError "RuntimeError" "boom"; LogInfo outcomes3; LogDropped boom]
  /\ manager (state_of (run_in_order nat connect3 create3 run3 tests3 None true inventory3 [] 0))
     = results3.
Proof.
  destruct (finished_run_accounts_for_every_unit connect3 create3 run3 tests3 None true
              inventory3 [] 0 _
              (run_in_order_steps connect3 create3 run3 tests3 None true inventory3 [] 0)
              () _ eq_refl)
    as (inv' & res & Hc & Hout & Hl & Hm & _).
  apply connected_examples in Hc. subst inv'.
  assert (Hres : res = outcomes3).
  { apply outcomes_of_the_examples.
    eapply Forall2_impl; [exact Hout|]. intros cr a [Ha _]. exact Ha. }
  subst res. split; [exact Hl|exact Hm].
Defined.

Lemma run_without_units_witness :
  manager (state_of (run_in_order nat connect3 create3 run3 [] None true inventory3 [] 0)) = []
  /\ log (state_of (run_in_order nat connect3 create3 run3 [] None true inventory3 [] 0))
     = [LogInfo []]
  /\ trace (state_of (run_in_order nat connect3 create3 run3 [] None true inventory3 [] 0))
     = [EvConnected; EvReturned].
Proof.
  exact (run_without_units connect3 create3 run3 [] None true inventory3 [] 0
           _ (run_in_order_steps connect3 create3 run3 [] None true inventory3 [] 0)
           (or_introl eq_refl) () _ eq_refl).
Defined.

Lemma connection_failure_aborts_the_run_witness :
  state_of (run_in_order nat connect_down create3 run3 tests3 None true inventory3 [] 0)
  = Runner.start nat inventory3 [] 0.
Proof.
  exact (proj1 (connection_failure_aborts_the_run connect_down create3 run3 tests3 None true
                  inventory3 [] 0 _ _ eq_refl
                  (run_in_order_steps connect_down create3 run3 tests3 None true inventory3 [] 0))).
Defined.

End RunnerMore.

(** ** Python's operations *)

Module DynSpec.
Import Dyn PluginViews.

Lemma bind_Ok {A B} (m : result Error A) (k : A -> result Error B) (b : B) :
  (x ← m; k x) = Ok b <-> exists a, m = Ok a /\ k a = Ok b.
Proof.
  destruct m as [a|e]; simpl; split.
  - eauto.
  - intros (a' & Ha & Hk). injection Ha as <-. exact Hk.
  - discriminate.
  - intros (a' & Ha & _). discriminate.
Qed.

Lemma bind_Err {A B} (m : result Error A) (k : A -> result Error B) (e : Error) :
  (x ← m; k x) = Err e <-> m = Err e \/ exists a, m = Ok a /\ k a = Err e.
Proof.
  destruct m as [a|e']; simpl; split.
  - eauto.
  - intros [H|(a' & Ha & Hk)]; [discriminate|]. injection Ha as <-. exact Hk.
  - intros H. left. congruence.
  - intros [H|(a' & Ha & _)]; [congruence|discriminate].
Qed.

(** A subscript by a string raises [KeyError] for that string or
    [TypeError], nothing else. *)
Lemma subscript_Err (x : PyVal) (k : string) (e : Error) :
  subscript x k = Err e -> e = KeyError (VStr k) \/ e = TypeError.
Proof.
  unfold subscript, getitem. destruct x as [| | |s|l|d]; simpl;
    try (intros H; injection H as <-; auto; fail).
  destruct (dict_get k d); [discriminate|]. intros H. injection H as <-. auto.
Qed.

Lemma subscript_dict (d : list (string * PyVal)) (k : string) :
  subscript (VDict d) k
  = match dict_get k d with Some v => Ok v | None => Err (KeyError (VStr k)) end.
Proof. reflexivity. Qed.

(** What has a length can be iterated, over as many elements. *)
Lemma len_iterate (x : PyVal) (n : nat) :
  len x = Ok n <-> exists l, iterate x = Ok l /\ length l = n.
Proof.
  destruct x as [| | |s|l|d]; simpl; split;
    try discriminate; try (intros (l' & H & _); discriminate).
  - intros H. injection H as <-. eexists. split; [reflexivity|].
    rewrite length_map. clear. induction s; simpl; congruence.
  - intros (l' & H & <-). injection H as <-. rewrite length_map. f_equal.
    clear. induction s; simpl; congruence.
  - intros H. injection H as <-. eauto.
  - intros (l' & H & <-). injection H as <-. reflexivity.
  - intros H. injection H as <-. eexists. split; [reflexivity|]. apply length_map.
  - intros (l' & H & <-). injection H as <-. rewrite length_map. reflexivity.
Qed.

(** A comprehension returns when its condition returns for every element
    and its expression for every element the condition holds for; it then
    lists these, in order. *)
Lemma comprehension_Ok {A B} (p : A -> result Error bool) (f : A -> result Error B)
    (l : list A) (ys : list B) :
  comprehension p f l = Ok ys <->
  Forall (fun e => returns (p e)) l
  /\ Forall2 (fun e y => f e = Ok y) (List.filter (fun e => holds (p e)) l) ys.
Proof.
  revert ys. induction l as [|e l IH]; intros ys; simpl.
  - split.
    + intros H. injection H as <-. split; constructor.
    + intros [_ H]. inversion H. reflexivity.
  - unfold holds at 1. destruct (p e) as [[|]|err] eqn:Hp; simpl.
    + destruct (f e) as [y|err] eqn:Hf; simpl.
      * destruct (comprehension p f l) as [there|err] eqn:Hl; simpl.
        -- split.
           ++ intros H. injection H as <-. destruct (proj1 (IH there) eq_refl) as [H1 H2].
              split; [constructor; [exists true; exact Hp|exact H1]|].
              constructor; assumption.
           ++ intros [H1 H2]. inversion H1; subst. inversion H2; subst.
              assert (Hthere : Ok there = Ok l') by (apply IH; auto).
              injection Hthere as <-. congruence.
        -- split; [discriminate|]. intros [H1 H2]. inversion H1; subst. inversion H2; subst.
           assert (Hthere : Err err = Ok l') by (apply IH; auto). discriminate.
      * split; [discriminate|]. intros [_ H2]. inversion H2; subst. congruence.
    + destruct (comprehension p f l) as [there|err] eqn:Hl; simpl.
      * split.
        -- intros H. injection H as <-. destruct (proj1 (IH there) eq_refl) as [H1 H2].
           split; [constructor; [exists false; exact Hp|exact H1]|exact H2].
        -- intros [H1 H2]. inversion H1; subst.
           assert (Hthere : Ok there = Ok ys) by (apply IH; auto). exact Hthere.
      * split; [discriminate|]. intros [H1 H2]. inversion H1; subst.
        assert (Hthere : Err err = Ok ys) by (apply IH; auto). discriminate.
    + split; [discriminate|]. intros [H1 _]. inversion H1 as [|? ? [b Hb] ?]; subst.
      congruence.
Qed.

End DynSpec.

(** ** The tests of anta/tests/security.py *)

Module SecuritySpec.
Import Dyn Report Security PluginViews PluginExamples DynSpec.

Lemma not_configured_or_active_false (vrf : string) (acl : PyVal) :
  not_configured_or_active vrf acl = Ok false <->
  exists configured active,
    subscript acl "configuredVrfs" = Ok configured /\ contains vrf configured = Ok true
    /\ subscript acl "activeVrfs" = Ok active /\ contains vrf active = Ok true.
Proof.
  unfold not_configured_or_active. split.
  - intros H. apply bind_Ok in H as (configured & Hc & H).
    apply bind_Ok in H as (c & Hcc & H). destruct c; [|discriminate]. simpl in H.
    apply bind_Ok in H as (active & Ha & H). apply bind_Ok in H as (a & Haa & H).
    destruct a; [|discriminate]. eauto 10.
  - intros (configured & active & -> & Hc & Ha & Haa). simpl. rewrite Hc. simpl.
    rewrite Ha. simpl. rewrite Haa. reflexivity.
Qed.

(** The body, once the list of the summary is read. *)
Lemma acl_test_read (t : AclTest) (number : Z) (vrf : string) (command_output : PyVal)
    (summary acl_list : PyVal) (acls : list PyVal) :
  subscript command_output (acl_key t) = Ok summary ->
  subscript summary "aclList" = Ok acl_list ->
  iterate acl_list = Ok acls ->
  acl_test t number vrf command_output
  = if negb (Z.of_nat (length acls) =? number)%Z then
      Ok [is_failure (Some (ExpectedAcls number (acl_agent t) vrf (length acls)))]
    else
      not_configured_acl ←
        comprehension (not_configured_or_active vrf) (fun acl => subscript acl "name") acls;
      match not_configured_acl with
      | _ :: _ =>
          Ok [is_failure (Some (AclsNotConfigured (acl_agent t) vrf not_configured_acl))]
      | [] => Ok [is_success]
      end.
Proof.
  intros Hs Hl Hi. unfold acl_test. rewrite Hs. simpl. rewrite Hl. simpl.
  assert (Hlen : len acl_list = Ok (length acls)) by (apply len_iterate; eauto).
  rewrite Hlen. simpl. rewrite Hi. reflexivity.
Qed.

Lemma acl_test_Ok (t : AclTest) (number : Z) (vrf : string) (command_output : PyVal)
    (calls : list Call) :
  acl_test t number vrf command_output = Ok calls ->
  exists summary acl_list acls,
    subscript command_output (acl_key t) = Ok summary
    /\ subscript summary "aclList" = Ok acl_list
    /\ iterate acl_list = Ok acls.
Proof.
  unfold acl_test. intros H. apply bind_Ok in H as (summary & Hs & H).
  apply bind_Ok in H as (acl_list & Hl & H). apply bind_Ok in H as (n & Hn & _).
  apply len_iterate in Hn as (acls & Hi & _). eauto 10.
Qed.

(** X16: the tests on the access lists of an agent succeed exactly when the
    summary lists as many access lists as expected and the VRF is among the
    configured and among the active VRFs of each of them. *)
Theorem acl_test_succeeds (t : AclTest) (number : Z) (vrf : string) (command_output : PyVal) :
  acl_test t number vrf command_output = Ok [is_success] <->
  exists summary acl_list acls,
    subscript command_output (acl_key t) = Ok summary
    /\ subscript summary "aclList" = Ok acl_list
    /\ iterate acl_list = Ok acls
    /\ Z.of_nat (length acls) = number
    /\ Forall (fun acl =>
                 exists configured active,
                   subscript acl "configuredVrfs" = Ok configured
                   /\ contains vrf configured = Ok true
                   /\ subscript acl "activeVrfs" = Ok active
                   /\ contains vrf active = Ok true) acls.
Proof.
  split.
  - intros H. destruct (acl_test_Ok _ _ _ _ _ H) as (summary & acl_list & acls & Hs & Hl & Hi).
    exists summary, acl_list, acls. split; [exact Hs|]. split; [exact Hl|]. split; [exact Hi|].
    rewrite (acl_test_read _ _ _ _ _ _ _ Hs Hl Hi) in H.
    destruct (Z.eqb_spec (Z.of_nat (length acls)) number) as [Hn|Hn]; [|discriminate].
    split; [exact Hn|]. simpl in H.
    destruct (comprehension _ _ acls) as [[|name names]|e] eqn:Hcomp; try discriminate.
    apply comprehension_Ok in Hcomp as [Hret Hnames].
    apply Forall_forall. intros acl Hin. apply not_configured_or_active_false.
    rewrite Forall_forall in Hret. destruct (Hret acl Hin) as [[|] Hb]; [|exact Hb].
    exfalso. apply Forall2_nil_inv_r in Hnames.
    assert (Hf : acl ∈ List.filter (fun e => holds (not_configured_or_active vrf e)) acls).
    { apply list_elem_of_In, filter_In. split; [apply list_elem_of_In, Hin|].
      rewrite Hb. reflexivity. }
    rewrite Hnames in Hf. inversion Hf.
  - intros (summary & acl_list & acls & Hs & Hl & Hi & Hn & Hall).
    rewrite (acl_test_read _ _ _ _ _ _ _ Hs Hl Hi).
    rewrite (proj2 (Z.eqb_eq _ _) Hn). simpl.
    assert (Hcomp : comprehension (not_configured_or_active vrf)
                      (fun acl => subscript acl "name") acls = Ok []).
    { apply comprehension_Ok. split.
      - eapply Forall_impl; [exact Hall|]. intros acl Hacl. exists false.
        apply not_configured_or_active_false, Hacl.
      - assert (Hnone : List.filter (fun e => holds (not_configured_or_active vrf e)) acls = []).
        { clear -Hall. induction Hall as [|acl acls Hacl _ IH]; [reflexivity|].
          simpl. apply not_configured_or_active_false in Hacl. rewrite Hacl. exact IH. }
        rewrite Hnone. constructor. }
    rewrite Hcomp. reflexivity.
Qed.

(** X17: a summary with another number of access lists than expected makes the
    tests fail on the number alone, whatever the access lists are; a failure
    of the tests is that one, or names each access list of which the VRF is
    not among the configured or not among the active VRFs, in the order of
    the summary, and nothing else. *)
Theorem acl_test_fails (t : AclTest) (number : Z) (vrf : string) (command_output : PyVal) :
  (forall summary acl_list acls,
      subscript command_output (acl_key t) = Ok summary ->
      subscript summary "aclList" = Ok acl_list ->
      iterate acl_list = Ok acls ->
      Z.of_nat (length acls) <> number ->
      acl_test t number vrf command_output
      = Ok [is_failure (Some (ExpectedAcls number (acl_agent t) vrf (length acls)))])
  /\ (forall calls,
      acl_test t number vrf command_output = Ok calls ->
      calls = [is_success]
      \/ exists summary acl_list acls,
           subscript command_output (acl_key t) = Ok summary
           /\ subscript summary "aclList" = Ok acl_list
           /\ iterate acl_list = Ok acls
           /\ ((Z.of_nat (length acls) <> number
                /\ calls = [is_failure
                              (Some (ExpectedAcls number (acl_agent t) vrf (length acls)))])
               \/ (Z.of_nat (length acls) = number
                   /\ exists names,
                        names <> []
                        /\ calls = [is_failure
                                      (Some (AclsNotConfigured (acl_agent t) vrf names))]
                        /\ Forall2 (fun acl name => subscript acl "name" = Ok name)
                             (List.filter
                                (fun acl => holds (not_configured_or_active vrf acl)) acls)
                             names))).
Proof.
  split.
  - intros summary acl_list acls Hs Hl Hi Hn.
    rewrite (acl_test_read _ _ _ _ _ _ _ Hs Hl Hi).
    destruct (Z.eqb_spec (Z.of_nat (length acls)) number); [contradiction|reflexivity].
  - intros calls H.
    destruct (acl_test_Ok _ _ _ _ _ H) as (summary & acl_list & acls & Hs & Hl & Hi).
    rewrite (acl_test_read _ _ _ _ _ _ _ Hs Hl Hi) in H.
    destruct (Z.eqb_spec (Z.of_nat (length acls)) number) as [Hn|Hn]; simpl in H.
    + destruct (comprehension _ _ acls) as [[|name names]|e] eqn:Hcomp; try discriminate.
      * left. simpl in H. congruence.
      * right. exists summary, acl_list, acls. split; [exact Hs|]. split; [exact Hl|].
        split; [exact Hi|]. right. split; [exact Hn|]. exists (name :: names).
        split; [discriminate|]. simpl in H. split; [congruence|].
        apply comprehension_Ok in Hcomp as [_ Hnames]. exact Hnames.
    + right. exists summary, acl_list, acls. split; [exact Hs|]. split; [exact Hl|].
      split; [exact Hi|]. left. split; [exact Hn|]. congruence.
Qed.

Lemma acl_test_succeeds_witness :
  acl_test VerifySSHIPv4Acl 1 "MGMT"
    (acl_summary "ipAclList" [acl "ACL1" ["MGMT"] ["MGMT"]]) = Ok [is_success].
Proof.
  apply acl_test_succeeds. do 3 eexists.
  split; [reflexivity|]. split; [reflexivity|]. split; [reflexivity|]. split; [reflexivity|].
  constructor; [|constructor]. do 2 eexists.
  split; [reflexivity|]. split; [reflexivity|]. split; reflexivity.
Defined.

Lemma acl_test_fails_witness :
  acl_test VerifyAPIIPv6Acl 3 "MGMT" (acl_summary "ipv6AclList" two_acls)
  = Ok [is_failure (Some (ExpectedAcls 3 "eAPI IPv6" "MGMT" 2))].
Proof.
  exact (proj1 (acl_test_fails VerifyAPIIPv6Acl 3 "MGMT" (acl_summary "ipv6AclList" two_acls))
           _ _ _ eq_refl eq_refl eq_refl ltac:(discriminate)).
Defined.

Lemma ssl_profile_valid_Err (profile : string) (command_output : PyVal) (e : Error) :
  ssl_profile_valid profile command_output = Err e ->
  (exists k, e = KeyError k) \/ e = TypeError.
Proof.
  unfold ssl_profile_valid. intros H.
  apply bind_Err in H as [H|(ssl & Hs & H)].
  { apply subscript_Err in H as [->| ->]; eauto. }
  apply bind_Err in H as [H|(name & Hn & H)].
  { apply subscript_Err in H as [->| ->]; eauto. }
  destruct (eq_str name profile); [|discriminate].
  apply bind_Err in H as [H|(ssl' & Hs' & H)].
  { apply subscript_Err in H as [->| ->]; eauto. }
  apply bind_Err in H as [H|(state & _ & H)]; [|discriminate].
  apply subscript_Err in H as [->| ->]; eauto.
Qed.

(** X18: [VerifyAPIHttpsSSL] lets no [KeyError] out: the only exception of its
    body is a [TypeError], raised when the output or its SSL profile is not
    a mapping; on an output that is a mapping whose SSL profile, if any, is
    a mapping, it reports, and a missing profile, name or state of the
    profile to compare is a failure. It succeeds exactly when the profile
    of the output has the expected name and the state valid. *)
Theorem VerifyAPIHttpsSSL_test_catches_KeyError (profile : string) (command_output : PyVal) :
  (forall e, VerifyAPIHttpsSSL_test profile command_output = Err e -> e = TypeError)
  /\ (forall d,
      command_output = VDict d ->
      (forall v, dict_get "sslProfile" d = Some v -> exists p, v = VDict p) ->
      VerifyAPIHttpsSSL_test profile command_output = Ok [is_success]
      \/ exists m, VerifyAPIHttpsSSL_test profile command_output = Ok [is_failure (Some m)])
  /\ (VerifyAPIHttpsSSL_test profile command_output = Ok [is_success] <->
      exists ssl_profile name state,
        subscript command_output "sslProfile" = Ok ssl_profile
        /\ subscript ssl_profile "name" = Ok name /\ eq_str name profile = true
        /\ subscript ssl_profile "state" = Ok state /\ eq_str state "valid" = true).
Proof.
  split; [|split].
  - intros e H. unfold VerifyAPIHttpsSSL_test in H.
    destruct (ssl_profile_valid profile command_output) as [[|]|e'] eqn:Hv; try discriminate.
    destruct (ssl_profile_valid_Err _ _ _ Hv) as [[k ->]| ->]; [discriminate|].
    congruence.
  - intros d -> Hd. unfold VerifyAPIHttpsSSL_test.
    destruct (ssl_profile_valid profile (VDict d)) as [[|]|e] eqn:Hv; eauto.
    destruct (ssl_profile_valid_Err _ _ _ Hv) as [[k ->]| ->]; [eauto|].
    exfalso. revert Hv. unfold ssl_profile_valid, subscript, getitem.
    destruct (dict_get "sslProfile" d) as [v|] eqn:Hssl; [|discriminate].
    destruct (Hd v eq_refl) as [p ->]. simpl.
    destruct (dict_get "name" p) as [n|]; [|discriminate]. simpl.
    destruct (eq_str n profile); [|discriminate].
    destruct (dict_get "state" p); discriminate.
  - unfold VerifyAPIHttpsSSL_test, ssl_profile_valid. split.
    + intros H.
      destruct (subscript command_output "sslProfile") as [ssl|e] eqn:Hs; simpl in H.
      2:{ destruct e; discriminate. }
      destruct (subscript ssl "name") as [name|e] eqn:Hn; simpl in H.
      2:{ destruct e; discriminate. }
      destruct (eq_str name profile) eqn:Hname; [|discriminate].
      destruct (subscript ssl "state") as [state|e] eqn:Hst; simpl in H.
      2:{ destruct e; discriminate. }
      destruct (eq_str state "valid") eqn:Hvalid; [|discriminate].
      eauto 10.
    + intros (ssl & name & state & -> & Hn & Hname & Hst & Hvalid). simpl.
      rewrite Hn. simpl. rewrite Hname, Hst. simpl. rewrite Hvalid. reflexivity.
Qed.

End SecuritySpec.

(** ** The tests of anta/tests/interfaces.py *)

Module InterfacesSpec.
Import Dyn Report Interfaces PluginViews PluginExamples DynSpec.

(** *** Counters *)

(** A new interface is in none of the dictionaries listed for the ones
    before it. *)
Lemma all_not_in_fresh (interface : string) (wrong_interfaces : list PyVal) :
  Forall (fun w => exists k c, w = VDict [(k, c)] /\ k <> interface) wrong_interfaces ->
  all (fun wrong_interface => b ← contains interface wrong_interface; Ok (negb b))
    wrong_interfaces = Ok true.
Proof.
  induction 1 as [|w ws (k & c & -> & Hk) _ IH]; [reflexivity|].
  simpl. destruct (String.eqb_spec k interface) as [Heq|_]; [contradiction|].
  simpl. exact IH.
Qed.

Lemma errors_loop_comprehension (counters_of : list (string * PyVal)) :
  forall wrong_interfaces,
    NoDup (map fst counters_of) ->
    Forall (fun w => exists k c, w = VDict [(k, c)] /\ k ∉ map fst counters_of)
      wrong_interfaces ->
    errors_loop counters_of wrong_interfaces
    = (more ← comprehension (fun ic => non_zero_counter (snd ic))
                (fun ic => Ok (VDict [ic])) counters_of;
       Ok (wrong_interfaces ++ more)).
Proof.
  induction counters_of as [|[interface counters] rest IH]; intros wrong Hnd Hw.
  - simpl. rewrite app_nil_r. reflexivity.
  - apply NoDup_cons in Hnd as [Hfresh Hnd]. cbn [errors_loop comprehension snd].
    destruct (non_zero_counter counters) as [[|]|e]; simpl; [| |reflexivity].
    + rewrite all_not_in_fresh.
      2:{ eapply Forall_impl; [exact Hw|]. intros w (k & c & -> & Hk).
          exists k, c. split; [reflexivity|]. intros ->. apply Hk. left. }
      simpl. rewrite IH; [|exact Hnd|].
      * destruct (comprehension _ _ rest) as [there|e]; simpl; [|reflexivity].
        rewrite <- app_assoc. reflexivity.
      * apply Forall_app. split.
        -- eapply Forall_impl; [exact Hw|]. intros w (k & c & -> & Hk).
           exists k, c. split; [reflexivity|]. intros Hin. apply Hk. right. exact Hin.
        -- constructor; [|constructor]. exists interface, counters. auto.
    + rewrite IH; [|exact Hnd|].
      * destruct (comprehension _ _ rest) as [there|e]; reflexivity.
      * eapply Forall_impl; [exact Hw|]. intros w (k & c & -> & Hk).
        exists k, c. split; [reflexivity|]. intros Hin. apply Hk. right. exact Hin.
Qed.

(** A comprehension whose expression does not raise lists its value for
    each element the condition holds for. *)
Lemma comprehension_map {A B} (p : A -> result Error bool) (g : A -> B) (l : list A)
    (ys : list B) :
  comprehension p (fun e => Ok (g e)) l = Ok ys <->
  Forall (fun e => returns (p e)) l /\ ys = map g (List.filter (fun e => holds (p e)) l).
Proof.
  rewrite comprehension_Ok. split; intros [H1 H2]; (split; [exact H1|]).
  - revert ys H2. induction (List.filter (fun e => holds (p e)) l) as [|e es IH]; intros ys H2.
    + inversion H2. reflexivity.
    + inversion H2 as [|? y ? ys' Hy Hrest]; subst. simpl. injection Hy as <-.
      f_equal. apply IH, Hrest.
  - subst ys. induction (List.filter (fun e => holds (p e)) l) as [|e es IH]; constructor; auto.
Qed.

(** X19: [VerifyInterfaceErrors] reports when the counters of every interface
    can be compared up to the first one above zero; it then succeeds when
    no interface has a counter above zero, and otherwise lists every
    interface that has one, once, with its counters, in the order of the
    output: the search of the loop for an interface already listed never
    finds one. *)
Theorem VerifyInterfaceErrors_test_lists_each_interface_once
    (command_output : PyVal) (counters_of : list (string * PyVal)) (calls : list Call) :
  subscript command_output "interfaceErrorCounters" = Ok (VDict counters_of) ->
  NoDup (map fst counters_of) ->
  VerifyInterfaceErrors_test command_output = Ok calls <->
  Forall (fun ic => returns (non_zero_counter (snd ic))) counters_of
  /\ calls = match List.filter (fun ic => holds (non_zero_counter (snd ic))) counters_of with
             | [] => [is_success]
             | wrong =>
                 [is_failure
                    (Some (InterfaceErrorCounters (map (fun ic => VDict [ic]) wrong)))]
             end.
Proof.
  intros Hout Hnd. unfold VerifyInterfaceErrors_test. rewrite Hout. simpl.
  rewrite errors_loop_comprehension; [|exact Hnd|constructor]. simpl.
  destruct (comprehension _ _ counters_of) as [more|e] eqn:Hcomp; simpl.
  - apply comprehension_map in Hcomp as [Hret ->].
    destruct (List.filter _ counters_of) as [|ic wrong]; simpl; split.
    + intros H. injection H as <-. auto.
    + intros [_ ->]. reflexivity.
    + intros H. injection H as <-. auto.
    + intros [_ ->]. reflexivity.
  - split; [discriminate|]. intros [Hret _].
    assert (Hsome : returns (comprehension (fun ic : string * PyVal => non_zero_counter (snd ic))
                               (fun ic => Ok (VDict [ic])) counters_of)).
    { eexists. apply comprehension_map. split; [exact Hret|reflexivity]. }
    destruct Hsome as [more Hmore]. congruence.
Qed.

Lemma VerifyInterfaceErrors_test_lists_each_interface_once_witness :
  VerifyInterfaceErrors_test (interface_counters "interfaceErrorCounters")
  = Ok [is_failure
          (Some (InterfaceErrorCounters
                   [VDict [("Ethernet1", VDict [("inDiscards", VInt 3); ("outDiscards", VInt 7)])];
                    VDict [("Ethernet3", VDict [("inDiscards", VInt 0); ("outDiscards", VInt 1)])]]))].
Proof.
  apply (VerifyInterfaceErrors_test_lists_each_interface_once
           (interface_counters "interfaceErrorCounters") _ _ eq_refl).
  - apply (bool_decide_unpack _). vm_compute. exact I.
  - split; [|reflexivity]. repeat (constructor; [eexists; reflexivity|]). constructor.
Defined.

Lemma discards_loop_Ok (interfaces : list (string * PyVal)) :
  forall wrong_interfaces result,
    discards_loop interfaces wrong_interfaces = Ok result <->
    Forall (fun io => exists counter_values,
                        values (snd io) = Ok counter_values
                        /\ Forall (fun v => returns (gt_zero v)) counter_values) interfaces
    /\ result = wrong_interfaces
                ++ flat_map (fun io => map (fun _ => VDict [io]) (positive_values (snd io)))
                     interfaces.
Proof.
  induction interfaces as [|[interface outer_v] rest IH]; intros wrong result.
  - simpl. rewrite app_nil_r. split.
    + intros H. injection H as <-. split; [constructor|reflexivity].
    + intros [_ ->]. reflexivity.
  - cbn [discards_loop flat_map snd]. split.
    + intros H. apply bind_Ok in H as (vals & Hvals & H).
      apply bind_Ok in H as (more & Hmore & H).
      apply (comprehension_map gt_zero (fun _ => VDict [(interface, outer_v)])) in Hmore
        as [Hret ->].
      apply IH in H as [Hrest ->]. split.
      * constructor; [|exact Hrest]. exists vals. auto.
      * rewrite <- app_assoc. f_equal. f_equal.
        destruct outer_v; try discriminate. injection Hvals as <-. reflexivity.
    + intros [Hall ->]. inversion Hall as [|? ? (vals & Hvals & Hret) Hrest]; subst.
      simpl in Hvals. rewrite Hvals. simpl.
      assert (Hmore : comprehension gt_zero (fun _ => Ok (VDict [(interface, outer_v)])) vals
                      = Ok (map (fun _ => VDict [(interface, outer_v)])
                              (List.filter (fun v => holds (gt_zero v)) vals))).
      { apply (comprehension_map gt_zero (fun _ => VDict [(interface, outer_v)])). auto. }
      rewrite Hmore. simpl. apply IH. split; [exact Hrest|].
      rewrite <- app_assoc. f_equal. f_equal.
      destruct outer_v; try discriminate. injection Hvals as <-. reflexivity.
Qed.

(** X20: [VerifyInterfaceDiscards] reports when the discard counters of every
    interface are all numbers; it then succeeds when none is above zero,
    and otherwise lists an interface, with its counters, once per counter
    of it that is above zero: an interface with two such counters is listed
    twice. *)
Theorem VerifyInterfaceDiscards_test_lists_each_counter
    (command_output : PyVal) (interfaces : list (string * PyVal)) (calls : list Call) :
  subscript command_output "interfaces" = Ok (VDict interfaces) ->
  VerifyInterfaceDiscards_test command_output = Ok calls <->
  Forall (fun io => exists counter_values,
                      values (snd io) = Ok counter_values
                      /\ Forall (fun v => returns (gt_zero v)) counter_values) interfaces
  /\ calls = match flat_map (fun io => map (fun _ => VDict [io]) (positive_values (snd io)))
                     interfaces with
             | [] => [is_success]
             | wrong => [is_failure (Some (InterfaceDiscardCounters wrong))]
             end.
Proof.
  intros Hout. unfold VerifyInterfaceDiscards_test. rewrite Hout. simpl.
  destruct (discards_loop interfaces []) as [wrong|e] eqn:Hloop; simpl.
  - apply discards_loop_Ok in Hloop as [Hall ->]. simpl.
    destruct (flat_map _ interfaces) as [|w wrong]; split.
    + intros H. injection H as <-. auto.
    + intros [_ ->]. reflexivity.
    + intros H. injection H as <-. auto.
    + intros [_ ->]. reflexivity.
  - split; [discriminate|]. intros [Hall _].
    assert (Hsome : discards_loop interfaces [] = Ok ([] ++ flat_map
              (fun io => map (fun _ => VDict [io]) (positive_values (snd io))) interfaces)).
    { apply discards_loop_Ok. auto. }
    congruence.
Qed.

Lemma VerifyInterfaceDiscards_test_lists_each_counter_witness :
  VerifyInterfaceDiscards_test (interface_counters "interfaces")
  = Ok [is_failure
          (Some (InterfaceDiscardCounters
                   [VDict [("Ethernet1", VDict [("inDiscards", VInt 3); ("outDiscards", VInt 7)])];
                    VDict [("Ethernet1", VDict [("inDiscards", VInt 3); ("outDiscards", VInt 7)])];
                    VDict [("Ethernet3", VDict [("inDiscards", VInt 0); ("outDiscards", VInt 1)])]]))].
Proof.
  apply (VerifyInterfaceDiscards_test_lists_each_counter
           (interface_counters "interfaces") _ _ eq_refl).
  split; [|reflexivity].
  repeat (constructor;
          [eexists; split; [reflexivity|repeat (constructor; [eexists; reflexivity|]); constructor]|]).
  constructor.
Defined.

(** *** Port channels *)

Lemma has_inactive_ports_true (portchannel_dict : PyVal) :
  has_inactive_ports portchannel_dict = Ok true ->
  exists inactive_ports, subscript portchannel_dict "inactivePorts" = Ok inactive_ports.
Proof.
  unfold has_inactive_ports. intros H. apply bind_Ok in H as (ports & Hp & _). eauto.
Qed.

Lemma port_channels_loop_Ok (port_channels : list (string * PyVal)) :
  forall po_with_inactive_ports result,
    port_channels_loop port_channels po_with_inactive_ports = Ok result <->
    Forall (fun pc => returns (has_inactive_ports (snd pc))) port_channels
    /\ result = po_with_inactive_ports
                ++ map (fun pc => VStr (fst pc))
                     (List.filter (fun pc => holds (has_inactive_ports (snd pc))) port_channels).
Proof.
  induction port_channels as [|[portchannel portchannel_dict] rest IH]; intros acc result.
  - simpl. rewrite app_nil_r. split.
    + intros H. injection H as <-. split; [constructor|reflexivity].
    + intros [_ ->]. reflexivity.
  - cbn [port_channels_loop List.filter snd fst]. unfold holds at 1.
    destruct (has_inactive_ports portchannel_dict) as [[|]|e] eqn:Hi; simpl.
    + destruct (has_inactive_ports_true _ Hi) as [ports Hp]. rewrite Hp. simpl.
      rewrite IH. rewrite <- app_assoc. simpl. split.
      * intros [Hrest ->]. split; [|reflexivity]. constructor; [|exact Hrest].
        exists true. exact Hi.
      * intros [Hall ->]. split; [|reflexivity]. inversion Hall; assumption.
    + rewrite IH. split.
      * intros [Hrest ->]. split; [|reflexivity]. constructor; [|exact Hrest].
        exists false. exact Hi.
      * intros [Hall ->]. split; [|reflexivity]. inversion Hall; assumption.
    + split; [discriminate|]. intros [Hall _].
      inversion Hall as [|? ? [b Hb] _]; subst. simpl in Hb. congruence.
Qed.

(** X21: [VerifyPortChannels] reports when the inactive ports of every port
    channel have a length; it then succeeds when every length is zero, and
    otherwise lists the port channels that have inactive ports, by name, in
    the order of the output: what it lists are the names alone, not the
    inactive ports. *)
Theorem VerifyPortChannels_test_names_the_port_channels
    (command_output : PyVal) (port_channels : list (string * PyVal)) (calls : list Call) :
  subscript command_output "portChannels" = Ok (VDict port_channels) ->
  VerifyPortChannels_test command_output = Ok calls <->
  Forall (fun pc => returns (has_inactive_ports (snd pc))) port_channels
  /\ calls = match List.filter (fun pc => holds (has_inactive_ports (snd pc))) port_channels with
             | [] => [is_success]
             | inactive =>
                 [is_failure (Some (InactivePorts (map (fun pc => VStr (fst pc)) inactive)))]
             end.
Proof.
  intros Hout. unfold VerifyPortChannels_test. rewrite Hout. simpl.
  destruct (port_channels_loop port_channels []) as [listed|e] eqn:Hloop; simpl.
  - apply port_channels_loop_Ok in Hloop as [Hall ->]. simpl.
    destruct (List.filter _ port_channels) as [|pc inactive]; split.
    + intros H. injection H as <-. auto.
    + intros [_ ->]. reflexivity.
    + intros H. injection H as <-. auto.
    + intros [_ ->]. reflexivity.
  - split; [discriminate|]. intros [Hall _].
    assert (Hsome : port_channels_loop port_channels []
                    = Ok ([] ++ map (fun pc => VStr (fst pc))
                            (List.filter (fun pc => holds (has_inactive_ports (snd pc)))
                               port_channels))).
    { apply port_channels_loop_Ok. auto. }
    congruence.
Qed.

Lemma VerifyPortChannels_test_names_the_port_channels_witness :
  VerifyPortChannels_test PluginExamples.port_channels
  = Ok [is_failure (Some (InactivePorts [VStr "Port-Channel2"]))].
Proof.
  apply (VerifyPortChannels_test_names_the_port_channels
           PluginExamples.port_channels _ _ eq_refl).
  split; [|reflexivity]. repeat (constructor; [eexists; reflexivity|]). constructor.
Defined.

(** *** Loopbacks and SVIs *)

#[local] Arguments occurs : simpl never.

(** In a dictionary with distinct keys an item is what its key gives. *)
Lemma dict_get_item {V} (d : list (string * V)) :
  NoDup (map fst d) -> Forall (fun kv => dict_get (fst kv) d = Some (snd kv)) d.
Proof.
  induction d as [|[k v] d IH]; intros Hnd; [constructor|].
  apply NoDup_cons in Hnd as [Hk Hnd]. constructor.
  - simpl. rewrite String.eqb_refl. reflexivity.
  - specialize (IH Hnd). rewrite Forall_forall in IH. apply Forall_forall. intros [k' v'] Hin.
    simpl. destruct (String.eqb_spec k' k) as [->|_].
    + exfalso. apply Hk. apply list_elem_of_fmap. exists (k, v'). auto.
    + apply (IH _ Hin).
Qed.

Lemma loopbacks_loop_Ok (command_output : PyVal) (d : list (string * PyVal))
    (interfaces : list (string * PyVal)) :
  subscript command_output "interfaces" = Ok (VDict d) ->
  Forall (fun kv => dict_get (fst kv) d = Some (snd kv)) interfaces ->
  forall loopback_count down result,
    loopbacks_loop command_output (map (fun kv => VStr (fst kv)) interfaces) loopback_count down
    = Ok result <->
    Forall (fun kv => returns (up_and_connected (snd kv)))
      (List.filter (fun kv => occurs "Loopback" (fst kv)) interfaces)
    /\ result
       = (loopback_count
          + length (List.filter (fun kv => occurs "Loopback" (fst kv)) interfaces),
          down ++ map (fun kv => VStr (fst kv))
                    (List.filter (fun kv => negb (holds (up_and_connected (snd kv))))
                       (List.filter (fun kv => occurs "Loopback" (fst kv)) interfaces))).
Proof.
  intros Hout Hitems. induction Hitems as [|[name interface_dict] rest Hitem _ IH];
    intros n down result.
  - simpl. rewrite Nat.add_0_r, app_nil_r. split.
    + intros H. injection H as <-. split; [constructor|reflexivity].
    + intros [_ ->]. reflexivity.
  - cbn [map loopbacks_loop fst snd List.filter]. rewrite Hout. simpl in Hitem.
    cbn [mbind result_bind getitem]. rewrite Hitem. cbn [contains].
    cbn [mbind result_bind].
    destruct (occurs "Loopback" name) eqn:Hname.
    + cbn [List.filter snd length map]. unfold holds at 1.
      destruct (up_and_connected interface_dict) as [[|]|e] eqn:Hup; cbn [negb].
      * cbn [mbind result_bind]. rewrite IH. rewrite Nat.add_succ_r. split.
        -- intros [Hrest ->]. split; [|reflexivity]. constructor; [|exact Hrest].
           exists true. exact Hup.
        -- intros [Hall ->]. split; [|reflexivity]. inversion Hall; assumption.
      * cbn [mbind result_bind map]. rewrite IH. rewrite Nat.add_succ_r, <- app_assoc.
        split.
        -- intros [Hrest ->]. split; [|reflexivity]. constructor; [|exact Hrest].
           exists false. exact Hup.
        -- intros [Hall ->]. split; [|reflexivity]. inversion Hall; assumption.
      * cbn [mbind result_bind]. split; [discriminate|]. intros [Hall _].
        inversion Hall as [|? ? [b Hb] _]; subst. simpl in Hb. congruence.
    + apply IH.
Qed.

(** X22: on an output whose interfaces are a mapping, [VerifyLoopbackCount]
    looks only at the interfaces whose name contains Loopback. It reports
    when the status of each of them can be read, and succeeds exactly when
    there are as many as expected and each is up and connected. A failure
    is two calls, the first without a message; the second tells the number
    found when it is not the expected one, and only otherwise the loopbacks
    that are not up. *)
Theorem VerifyLoopbackCount_test_counts_then_checks
    (number : Z) (command_output : PyVal) (interfaces : list (string * PyVal))
    (calls : list Call) :
  subscript command_output "interfaces" = Ok (VDict interfaces) ->
  NoDup (map fst interfaces) ->
  VerifyLoopbackCount_test number command_output = Ok calls <->
  Forall (fun kv => returns (up_and_connected (snd kv)))
    (List.filter (fun kv => occurs "Loopback" (fst kv)) interfaces)
  /\ calls
     = if (Z.of_nat (length (List.filter (fun kv => occurs "Loopback" (fst kv)) interfaces))
           =? number)%Z
       then
         match List.filter (fun kv => negb (holds (up_and_connected (snd kv))))
                 (List.filter (fun kv => occurs "Loopback" (fst kv)) interfaces) with
         | [] => [is_success]
         | down =>
             [is_failure None;
              is_failure (Some (LoopbacksNotUp (map (fun kv => VStr (fst kv)) down)))]
         end
       else
         [is_failure None;
          is_failure
            (Some (FoundLoopbacks
                     (length (List.filter (fun kv => occurs "Loopback" (fst kv)) interfaces))
                     number))].
Proof.
  intros Hout Hnd. unfold VerifyLoopbackCount_test. rewrite Hout.
  cbn [mbind result_bind iterate].
  pose proof (loopbacks_loop_Ok command_output interfaces interfaces Hout
                (dict_get_item interfaces Hnd) 0 []) as Hloop.
  destruct (loopbacks_loop command_output _ 0 []) as [[count down]|e]; cbn [mbind result_bind].
  - destruct (proj1 (Hloop _) eq_refl) as [Hall Heq]. injection Heq as -> ->.
    cbn [Nat.add app].
    destruct (Z.of_nat (length (List.filter (fun kv => occurs "Loopback" (fst kv)) interfaces))
              =? number)%Z;
      destruct (List.filter (fun kv => negb (holds (up_and_connected (snd kv))))
                  (List.filter (fun kv => occurs "Loopback" (fst kv)) interfaces));
      simpl; (split; [intros H; injection H as <-; auto|intros [_ ->]; reflexivity]).
  - split; [discriminate|]. intros [Hall _].
    assert (Hsome : Err e = Ok (0 + length (List.filter (fun kv => occurs "Loopback" (fst kv))
                                              interfaces),
                                [] ++ map (fun kv : string * PyVal => VStr (fst kv))
                                        (List.filter
                                           (fun kv => negb (holds (up_and_connected (snd kv))))
                                           (List.filter (fun kv => occurs "Loopback" (fst kv))
                                              interfaces)))).
    { apply Hloop. auto. }
    discriminate.
Qed.

Lemma VerifyLoopbackCount_test_counts_then_checks_witness :
  VerifyLoopbackCount_test 3 ip_interface_brief
  = Ok [is_failure None; is_failure (Some (FoundLoopbacks 2 3))].
Proof.
  apply (VerifyLoopbackCount_test_counts_then_checks 3 ip_interface_brief _ _ eq_refl).
  - apply (bool_decide_unpack _). vm_compute. exact I.
  - split; [|reflexivity]. repeat (constructor; [eexists; reflexivity|]). constructor.
Defined.

Lemma svis_loop_Ok (command_output : PyVal) (d : list (string * PyVal))
    (interfaces : list (string * PyVal)) :
  subscript command_output "interfaces" = Ok (VDict d) ->
  Forall (fun kv => dict_get (fst kv) d = Some (snd kv)) interfaces ->
  forall down_svis result,
    svis_loop command_output (map (fun kv => VStr (fst kv)) interfaces) down_svis = Ok result <->
    Forall (fun kv => returns (up_and_connected (snd kv)))
      (List.filter (fun kv => occurs "Vlan" (fst kv)) interfaces)
    /\ result
       = down_svis
         ++ map (fun kv => VStr (fst kv))
              (List.filter (fun kv => negb (holds (up_and_connected (snd kv))))
                 (List.filter (fun kv => occurs "Vlan" (fst kv)) interfaces)).
Proof.
  intros Hout Hitems. induction Hitems as [|[name interface_dict] rest Hitem _ IH];
    intros down result.
  - simpl. rewrite app_nil_r. split.
    + intros H. injection H as <-. split; [constructor|reflexivity].
    + intros [_ ->]. reflexivity.
  - cbn [map svis_loop fst snd List.filter]. rewrite Hout. simpl in Hitem.
    cbn [mbind result_bind getitem]. rewrite Hitem. cbn [contains].
    cbn [mbind result_bind].
    destruct (occurs "Vlan" name) eqn:Hname.
    + cbn [List.filter snd length map]. unfold holds at 1.
      destruct (up_and_connected interface_dict) as [[|]|e] eqn:Hup; cbn [negb].
      * cbn [mbind result_bind negb]. rewrite IH. split.
        -- intros [Hrest ->]. split; [|reflexivity]. constructor; [|exact Hrest].
           exists true. exact Hup.
        -- intros [Hall ->]. split; [|reflexivity]. inversion Hall; assumption.
      * cbn [mbind result_bind negb map]. rewrite IH. rewrite <- app_assoc.
        split.
        -- intros [Hrest ->]. split; [|reflexivity]. constructor; [|exact Hrest].
           exists false. exact Hup.
        -- intros [Hall ->]. split; [|reflexivity]. inversion Hall; assumption.
      * cbn [mbind result_bind]. split; [discriminate|]. intros [Hall _].
        inversion Hall as [|? ? [b Hb] _]; subst. simpl in Hb. congruence.
    + cbn [mbind result_bind]. apply IH.
Qed.

(** X23: on an output whose interfaces are a mapping, [VerifySVI] looks only at
    the interfaces whose name contains Vlan: the status of the others is
    not read. It reports when the status of each SVI can be read, succeeds
    when each SVI is up and connected, and otherwise lists the SVIs that are
    not, by name, in the order of the output. *)
Theorem VerifySVI_test_checks_the_svis
    (command_output : PyVal) (interfaces : list (string * PyVal)) (calls : list Call) :
  subscript command_output "interfaces" = Ok (VDict interfaces) ->
  NoDup (map fst interfaces) ->
  VerifySVI_test command_output = Ok calls <->
  Forall (fun kv => returns (up_and_connected (snd kv)))
    (List.filter (fun kv => occurs "Vlan" (fst kv)) interfaces)
  /\ calls
     = match List.filter (fun kv => negb (holds (up_and_connected (snd kv))))
               (List.filter (fun kv => occurs "Vlan" (fst kv)) interfaces) with
       | [] => [is_success]
       | down => [is_failure (Some (SVIsNotUp (map (fun kv => VStr (fst kv)) down)))]
       end.
Proof.
  intros Hout Hnd. unfold VerifySVI_test. rewrite Hout.
  cbn [mbind result_bind iterate].
  pose proof (svis_loop_Ok command_output interfaces interfaces Hout
                (dict_get_item interfaces Hnd) []) as Hloop.
  destruct (svis_loop command_output _ []) as [down|e]; cbn [mbind result_bind].
  - destruct (proj1 (Hloop _) eq_refl) as [Hall ->]. cbn [app].
    destruct (List.filter (fun kv => negb (holds (up_and_connected (snd kv))))
                (List.filter (fun kv => occurs "Vlan" (fst kv)) interfaces));
      simpl; (split; [intros H; injection H as <-; auto|intros [_ ->]; reflexivity]).
  - split; [discriminate|]. intros [Hall _].
    assert (Hsome : Err e = Ok ([] ++ map (fun kv : string * PyVal => VStr (fst kv))
                                        (List.filter
                                           (fun kv => negb (holds (up_and_connected (snd kv))))
                                           (List.filter (fun kv => occurs "Vlan" (fst kv))
                                              interfaces)))).
    { apply Hloop. auto. }
    discriminate.
Qed.

Lemma VerifySVI_test_checks_the_svis_witness :
  VerifySVI_test ip_interface_brief = Ok [is_success].
Proof.
  apply (VerifySVI_test_checks_the_svis ip_interface_brief _ _ eq_refl).
  - apply (bool_decide_unpack _). vm_compute. exact I.
  - split; [|reflexivity]. repeat (constructor; [eexists; reflexivity|]). constructor.
Defined.

End InterfacesSpec.

(** ** The tests of anta/tests/connectivity.py *)

Module ConnectivitySpec.
Import Dyn Report Connectivity PluginViews PluginExamples DynSpec.

(** *** The dictionary of failures *)

Lemma setdefault_append_same (failures : list (string * list string)) (key p : string) :
  dict_get key (setdefault_append failures key p)
  = Some (default [] (dict_get key failures) ++ [p]).
Proof.
  induction failures as [|[k ports] rest IH]; simpl.
  - rewrite String.eqb_refl. reflexivity.
  - destruct (String.eqb_spec k key) as [->|Hne]; simpl.
    + rewrite String.eqb_refl. reflexivity.
    + destruct (String.eqb_spec key k) as [Heq|_]; [congruence|exact IH].
Qed.

Lemma setdefault_append_other (failures : list (string * list string)) (key k' p : string) :
  k' <> key -> dict_get k' (setdefault_append failures key p) = dict_get k' failures.
Proof.
  intros Hk. induction failures as [|[k ports] rest IH]; simpl.
  - destruct (String.eqb_spec k' key); [contradiction|reflexivity].
  - destruct (String.eqb_spec k key) as [->|Hne]; simpl.
    + destruct (String.eqb_spec k' key); [contradiction|reflexivity].
    + rewrite IH. reflexivity.
Qed.

Lemma setdefault_append_keys (failures : list (string * list string)) (key p : string) :
  NoDup (map fst failures) -> NoDup (map fst (setdefault_append failures key p)).
Proof.
  induction failures as [|[k ports] rest IH]; intros Hnd; simpl.
  - apply NoDup_singleton.
  - apply NoDup_cons in Hnd as [Hk Hnd]. simpl in Hk.
    destruct (String.eqb_spec k key) as [->|Hne]; simpl.
    + apply NoDup_cons. split; assumption.
    + apply NoDup_cons. split; [|apply IH, Hnd].
      intros Hin. apply Hk. clear -Hin Hne.
      induction rest as [|[k0 ports0] rest IH]; simpl in *.
      * apply list_elem_of_singleton in Hin. congruence.
      * destruct (String.eqb_spec k0 key) as [->|Hne0]; simpl in Hin; [exact Hin|].
        apply elem_of_cons in Hin as [->|Hin]; [left|right; apply IH, Hin].
Qed.

Lemma dict_get_elem_of {V} (d : list (string * V)) (k : string) (v : V) :
  NoDup (map fst d) -> (k, v) ∈ d <-> dict_get k d = Some v.
Proof.
  induction d as [|[k0 v0] d IH]; intros Hnd; simpl.
  - split; [intros H; inversion H|discriminate].
  - apply NoDup_cons in Hnd as [Hk Hnd]. simpl in Hk.
    destruct (String.eqb_spec k k0) as [->|Hne].
    + split.
      * intros Hin. apply elem_of_cons in Hin as [Heq|Hin]; [congruence|].
        exfalso. apply Hk. apply list_elem_of_fmap. exists (k0, v). auto.
      * intros H. injection H as ->. left.
    + rewrite <- (IH Hnd). split.
      * intros Hin. apply elem_of_cons in Hin as [Heq|Hin]; [congruence|exact Hin].
      * intros Hin. right. exact Hin.
Qed.

(** *** The check of one neighbor *)

(** No issue is found for a neighbor exactly when its port is in the
    output and the first entry of the neighbors of the port has the
    expected system name and interface. *)
Lemma check_neighbor_None (command_output : PyVal) (neighbor : Neighbor) :
  check_neighbor command_output neighbor = Ok None <->
  exists lldp_neighbors lldp_port lldp_neighbor_info first system_name info interface_id,
    subscript command_output "lldpNeighbors" = Ok lldp_neighbors
    /\ contains (port neighbor) lldp_neighbors = Ok true
    /\ subscript lldp_neighbors (port neighbor) = Ok lldp_port
    /\ subscript lldp_port "lldpNeighborInfo" = Ok lldp_neighbor_info
    /\ getitem lldp_neighbor_info (VInt 0) = Ok first
    /\ subscript first "systemName" = Ok system_name
    /\ eq_str system_name (neighbor_device neighbor) = true
    /\ subscript first "neighborInterfaceInfo" = Ok info
    /\ subscript info "interfaceId_v2" = Ok interface_id
    /\ eq_str interface_id (neighbor_port neighbor) = true.
Proof.
  unfold check_neighbor. split.
  - intros H. apply bind_Ok in H as (lldp & Hl & H). apply bind_Ok in H as (c & Hc & H).
    destruct c; [|discriminate]. simpl in H. rewrite Hl in H. simpl in H.
    apply bind_Ok in H as (lldp_port & Hp & H). apply bind_Ok in H as (info & Hinfo & H).
    apply bind_Ok in H as (n & Hn & H). destruct (n =? 0)%nat; [discriminate|].
    apply bind_Ok in H as (first & Hfirst & H). apply bind_Ok in H as (sys & Hsys & H).
    apply bind_Ok in H as (wrong & Hwrong & H). destruct wrong; [discriminate|].
    destruct (eq_str sys (neighbor_device neighbor)) eqn:Hdev; [|discriminate].
    simpl in Hwrong. rewrite Hfirst in Hwrong. simpl in Hwrong.
    apply bind_Ok in Hwrong as (nii & Hnii & Hwrong).
    apply bind_Ok in Hwrong as (id & Hid & Hwrong).
    destruct (eq_str id (neighbor_port neighbor)) eqn:Hport; [|discriminate].
    exists lldp, lldp_port, info, first, sys, nii, id. auto 12.
  - intros (lldp & lldp_port & info & first & sys & nii & id
            & Hl & Hc & Hp & Hinfo & Hfirst & Hsys & Hdev & Hnii & Hid & Hport).
    rewrite Hl. simpl. rewrite Hc. simpl. rewrite Hp. simpl. rewrite Hinfo. simpl.
    assert (Hn : exists n, len info = Ok (S n)).
    { clear -Hfirst. destruct info as [| | |s|l|d]; try discriminate.
      - destruct s; [discriminate|]. simpl. eauto.
      - destruct l; [discriminate|]. simpl. eauto. }
    destruct Hn as [n ->]. simpl. rewrite Hfirst. simpl. rewrite Hsys. simpl.
    rewrite Hdev. simpl. rewrite Hnii. simpl. rewrite Hid. simpl. rewrite Hport. reflexivity.
Qed.

Lemma check_neighbor_key (command_output : PyVal) (neighbor : Neighbor) (key : string) :
  check_neighbor command_output neighbor = Ok (Some key) ->
  key ∈ ["port_not_configured"; "no_lldp_neighbor"; "wrong_lldp_neighbor"].
Proof.
  unfold check_neighbor. intros H.
  apply bind_Ok in H as (lldp & Hl & H). apply bind_Ok in H as (c & Hc & H).
  destruct c; simpl in H; [|injection H as <-; left].
  apply bind_Ok in H as (lldp' & _ & H).
  apply bind_Ok in H as (lldp_port & Hp & H). apply bind_Ok in H as (info & Hinfo & H).
  apply bind_Ok in H as (n & Hn & H).
  destruct (n =? 0)%nat; [injection H as <-; right; left|].
  apply bind_Ok in H as (first & Hfirst & H). apply bind_Ok in H as (sys & Hsys & H).
  apply bind_Ok in H as (wrong & Hwrong & H). destruct wrong; [|discriminate].
  injection H as <-. right. right. left.
Qed.

(** *** The loop *)

Lemma neighbors_loop_Ok (command_output : PyVal) (neighbors : list Neighbor) :
  forall failures result,
    neighbors_loop command_output neighbors failures = Ok result <->
    Forall (fun n => returns (check_neighbor command_output n)) neighbors
    /\ result
       = fold_left
           (fun failures n =>
              match check_neighbor command_output n with
              | Ok (Some key) => setdefault_append failures key (port n)
              | _ => failures
              end) neighbors failures.
Proof.
  induction neighbors as [|n rest IH]; intros failures result; simpl.
  - split.
    + intros H. injection H as <-. split; [constructor|reflexivity].
    + intros [_ ->]. reflexivity.
  - destruct (check_neighbor command_output n) as [issue|e] eqn:Hn; simpl.
    + rewrite IH. split.
      * intros [Hrest ->]. split; [|destruct issue; reflexivity].
        constructor; [exists issue; exact Hn|exact Hrest].
      * intros [Hall ->]. split; [inversion Hall; assumption|destruct issue; reflexivity].
    + split; [discriminate|]. intros [Hall _].
      inversion Hall as [|? ? [b Hb] _]; subst. congruence.
Qed.

(** What the dictionary holds after the loop: under each key, the ports of
    the neighbors with that issue, in the order of the input. *)
Lemma failures_by_key (command_output : PyVal) (neighbors : list Neighbor) :
  let failures :=
    fold_left
      (fun failures n =>
         match check_neighbor command_output n with
         | Ok (Some key) => setdefault_append failures key (port n)
         | _ => failures
         end) neighbors [] in
  NoDup (map fst failures)
  /\ forall key,
       dict_get key failures
       = match List.filter (fun n => has_issue key (check_neighbor command_output n)) neighbors
         with
         | [] => None
         | found => Some (map port found)
         end.
Proof.
  induction neighbors as [|n done IH] using rev_ind; simpl.
  - split; [constructor|reflexivity].
  - rewrite fold_left_app. simpl in IH. destruct IH as [Hnd Hget]. cbn [fold_left].
    set (failures := fold_left _ done []) in *.
    destruct (check_neighbor command_output n) as [[key0|]|e] eqn:Hn.
    + split; [apply setdefault_append_keys, Hnd|]. intros key.
      rewrite List.filter_app. cbn [List.filter]. rewrite Hn. cbn [has_issue].
      destruct (String.eqb_spec key0 key) as [->|Hne].
      * rewrite setdefault_append_same, Hget.
        destruct (List.filter _ done) as [|x found]; simpl; [reflexivity|].
        rewrite map_app. reflexivity.
      * rewrite setdefault_append_other by congruence. rewrite Hget, app_nil_r. reflexivity.
    + split; [exact Hnd|]. intros key. rewrite List.filter_app. cbn [List.filter].
      rewrite Hn. cbn [has_issue]. rewrite app_nil_r. apply Hget.
    + split; [exact Hnd|]. intros key. rewrite List.filter_app. cbn [List.filter].
      rewrite Hn. cbn [has_issue]. rewrite app_nil_r. apply Hget.
Qed.

(** X24: [VerifyLLDPNeighbors] succeeds exactly when, for every expected
    neighbor, the port is in the output and the first entry of the neighbors
    of the port has the expected system name and interface: the entries after
    the first are not compared, and nothing of the output is read when no
    neighbor is expected. *)
Theorem VerifyLLDPNeighbors_test_succeeds (neighbors : list Neighbor) (command_output : PyVal) :
  VerifyLLDPNeighbors_test neighbors command_output = Ok [is_success] <->
  Forall
    (fun neighbor =>
       exists lldp_neighbors lldp_port lldp_neighbor_info first system_name info interface_id,
         subscript command_output "lldpNeighbors" = Ok lldp_neighbors
         /\ contains (port neighbor) lldp_neighbors = Ok true
         /\ subscript lldp_neighbors (port neighbor) = Ok lldp_port
         /\ subscript lldp_port "lldpNeighborInfo" = Ok lldp_neighbor_info
         /\ getitem lldp_neighbor_info (VInt 0) = Ok first
         /\ subscript first "systemName" = Ok system_name
         /\ eq_str system_name (neighbor_device neighbor) = true
         /\ subscript first "neighborInterfaceInfo" = Ok info
         /\ subscript info "interfaceId_v2" = Ok interface_id
         /\ eq_str interface_id (neighbor_port neighbor) = true)
    neighbors.
Proof.
  unfold VerifyLLDPNeighbors_test. split.
  - intros H. destruct (neighbors_loop command_output neighbors []) as [failures|e] eqn:Hloop;
      [|discriminate].
    simpl in H. destruct failures as [|f failures]; [|discriminate].
    apply neighbors_loop_Ok in Hloop as [Hret Hfold].
    pose proof (failures_by_key command_output neighbors) as [_ Hget]. simpl in Hget.
    rewrite <- Hfold in Hget.
    apply Forall_forall. intros n Hin. apply check_neighbor_None.
    rewrite Forall_forall in Hret. destruct (Hret n Hin) as [[key|] Hn]; [|exact Hn].
    exfalso. specialize (Hget key). simpl in Hget.
    assert (Hf : n ∈ List.filter (fun n => has_issue key (check_neighbor command_output n))
                   neighbors).
    { apply list_elem_of_In, filter_In. split; [apply list_elem_of_In, Hin|].
      rewrite Hn. simpl. apply String.eqb_refl. }
    destruct (List.filter _ neighbors); [inversion Hf|discriminate].
  - intros Hall.
    assert (Hloop : neighbors_loop command_output neighbors [] = Ok []).
    { apply neighbors_loop_Ok. split.
      - eapply Forall_impl; [exact Hall|]. intros n Hn. exists None.
        apply check_neighbor_None, Hn.
      - clear -Hall. induction Hall as [|n rest Hn _ IH]; [reflexivity|].
        simpl. apply check_neighbor_None in Hn. rewrite Hn. exact IH. }
    rewrite Hloop. reflexivity.
Qed.

(** X25: a failure of [VerifyLLDPNeighbors] files the port of each neighbor with
    an issue under one key: port_not_configured when the port is not in the
    output, no_lldp_neighbor when it has no neighbor, wrong_lldp_neighbor
    when its first neighbor is not the expected one. The dictionary of the
    message holds, for each of these keys that some neighbor has the issue
    of, the ports of the neighbors with that issue, in the order of the
    input, and no other key. *)
Theorem VerifyLLDPNeighbors_test_files_each_port_once
    (neighbors : list Neighbor) (command_output : PyVal) (calls : list Call) :
  VerifyLLDPNeighbors_test neighbors command_output = Ok calls ->
  calls = [is_success]
  \/ exists failures,
       calls = [is_failure (Some (PortsWithIssues failures))]
       /\ NoDup (map fst failures)
       /\ (forall key ports,
              (key, ports) ∈ failures <->
              ports <> []
              /\ ports = map port
                           (List.filter
                              (fun n => has_issue key (check_neighbor command_output n))
                              neighbors))
       /\ (forall key ports,
              (key, ports) ∈ failures ->
              key ∈ ["port_not_configured"; "no_lldp_neighbor"; "wrong_lldp_neighbor"]).
Proof.
  unfold VerifyLLDPNeighbors_test. intros H.
  destruct (neighbors_loop command_output neighbors []) as [failures|e] eqn:Hloop;
    [|discriminate].
  simpl in H. destruct failures as [|f failures]; [left; congruence|]. right.
  exists (f :: failures). split; [congruence|].
  apply neighbors_loop_Ok in Hloop as [Hret Hfold].
  pose proof (failures_by_key command_output neighbors) as [Hnd Hget]. simpl in Hnd, Hget.
  rewrite <- Hfold in Hnd, Hget. split; [exact Hnd|].
  assert (Hiff : forall key ports,
             (key, ports) ∈ f :: failures <->
             ports <> []
             /\ ports = map port
                          (List.filter
                             (fun n => has_issue key (check_neighbor command_output n))
                             neighbors)).
  { intros key ports. rewrite (dict_get_elem_of _ key ports Hnd), Hget.
    destruct (List.filter _ neighbors) as [|n found]; simpl.
    - split; [discriminate|]. intros [Hne ->]. congruence.
    - split.
      + intros Hs. injection Hs as <-. split; [discriminate|reflexivity].
      + intros [_ ->]. reflexivity. }
  split; [exact Hiff|].
  intros key ports Hin. apply Hiff in Hin as [Hne ->].
  destruct (List.filter _ neighbors) as [|n found] eqn:Hfilter; [exfalso; apply Hne; reflexivity|].
  assert (Hn : n ∈ List.filter (fun n => has_issue key (check_neighbor command_output n))
                 neighbors) by (rewrite Hfilter; left).
  apply list_elem_of_In, filter_In in Hn as [_ Hissue].
  destruct (check_neighbor command_output n) as [[k|]|e] eqn:Hcheck; try discriminate.
  simpl in Hissue. apply String.eqb_eq in Hissue. subst k.
  eapply check_neighbor_key, Hcheck.
Qed.

Lemma VerifyLLDPNeighbors_test_files_each_port_once_witness :
  [is_failure
     (Some (PortsWithIssues [("wrong_lldp_neighbor", ["Ethernet2"]);
                             ("no_lldp_neighbor", ["Ethernet3"]);
                             ("port_not_configured", ["Ethernet4"])]))]
  = [is_success]
  \/ exists failures,
       [is_failure
          (Some (PortsWithIssues [("wrong_lldp_neighbor", ["Ethernet2"]);
                                  ("no_lldp_neighbor", ["Ethernet3"]);
                                  ("port_not_configured", ["Ethernet4"])]))]
       = [is_failure (Some (PortsWithIssues failures))]
       /\ NoDup (map fst failures)
       /\ (forall key ports,
              (key, ports) ∈ failures <->
              ports <> []
              /\ ports = map port
                           (List.filter
                              (fun n => has_issue key (check_neighbor lldp_neighbors n))
                              expected_neighbors))
       /\ (forall key ports,
              (key, ports) ∈ failures ->
              key ∈ ["port_not_configured"; "no_lldp_neighbor"; "wrong_lldp_neighbor"]).
Proof.
  exact (VerifyLLDPNeighbors_test_files_each_port_once expected_neighbors lldp_neighbors _
           eq_refl).
Defined.

End ConnectivitySpec.
